(** * Quad batch builder and render-target pipeline of the OpenGL tutorials

    A shallow embedding of the Go sources

    - [gles20-cube/test20-framebuffer-multisample/quad.go]
      (module [GLES20]: multisampled offscreen target, blit, screen),
    - [gl32-cube/test21-framebuffer-multisample/quad.go]
      (module [GL32MS]: one offscreen target scaled by the content scale),
    - [gl32-cube/test21-framebuffer/quad.go]
      (module [GL32FB]: one offscreen target, package-level batch arrays),

    together with the properties of the batch geometry, of the packed
    buffer layout and of the per-frame sequence of OpenGL calls.

    Go values are modelled as follows.  Fixed-width integers are [Z] with
    the wrap-around of every operation written out (module [GoInt]);
    [float32] is the IEEE-754 binary32 format of [SpecFloat] (module [F32]);
    slices are lists; a method with a pointer receiver returns the updated
    record; calls into the OpenGL binding are recorded, in order, in a trace
    carried by a state monad (module [GL]). *)

From Stdlib Require Import ZArith List Lia Bool String Ascii.
From Stdlib Require Import SpecFloat DecimalString.
Import ListNotations.

Local Open Scope Z_scope.

(** ** Go integer types *)

Module GoInt.

(** Conversion to an unsigned type of [w] bits keeps the low [w] bits. *)
Definition wrapu (w : Z) (z : Z) : Z := z mod 2 ^ w.

(** Conversion to a signed type of [w] bits (two's complement). *)
Definition wraps (w : Z) (z : Z) : Z := (z + 2 ^ (w - 1)) mod 2 ^ w - 2 ^ (w - 1).

Definition uint8 : Z -> Z := wrapu 8.
Definition uint16 : Z -> Z := wrapu 16.
Definition uint32 : Z -> Z := wrapu 32.
Definition int32 : Z -> Z := wraps 32.

(** [int] is 64 bits wide on the platforms the programs target. *)
Definition int : Z -> Z := wraps 64.

(** [len(s)], an [int]. *)
Definition len {A : Type} (s : list A) : Z := Z.of_nat (List.length s).

(** Arithmetic of [int]; [/] truncates towards zero. *)
Module Int.
Definition add (a b : Z) : Z := int (a + b).
Definition sub (a b : Z) : Z := int (a - b).
Definition mul (a b : Z) : Z := int (a * b).
Definition div (a b : Z) : Z := int (Z.quot a b).
End Int.

(** Arithmetic of [uint16]. *)
Module U16.
Definition add (a b : Z) : Z := uint16 (a + b).
Definition mul (a b : Z) : Z := uint16 (a * b).
End U16.

(** Arithmetic of [int32]. *)
Module I32.
Definition mul (a b : Z) : Z := int32 (a * b).
End I32.

(** The values of [int]. *)
Definition is_int (z : Z) : Prop := - 2 ^ 63 <= z < 2 ^ 63.

End GoInt.

(** ** float32 *)

Module F32.

Definition prec : Z := 24.
Definition emax : Z := 128.

Definition float32 : Type := spec_float.

Definition mul : float32 -> float32 -> float32 := SFmul prec emax.
Definition div : float32 -> float32 -> float32 := SFdiv prec emax.
Definition neg : float32 -> float32 := SFopp.

(** An integer constant converted to [float32] (round to nearest even). *)
Definition of_Z (n : Z) : float32 := binary_normalize prec emax n 0 false.

(** A decimal constant [n / 10^k] converted to [float32]: the constant is
    exact in Go, and the conversion rounds it once, as the correctly
    rounded quotient of two exactly representable integers does. *)
Definition of_decimal (n : Z) (k : Z) : float32 := div (of_Z n) (of_Z (10 ^ k)).

(** Conversion [int32(f)] of a float: the fraction is discarded
    (truncation towards zero).  Go leaves the result unspecified when the
    truncated value does not fit, or for infinities and NaN: [None]. *)
Definition to_int32 (f : float32) : option Z :=
  match f with
  | S754_zero _ => Some 0
  | S754_finite s m e =>
      let a := if 0 <=? e then Zpos m * 2 ^ e else Z.quot (Zpos m) (2 ^ (- e)) in
      let v := if s then - a else a in
      if (- 2 ^ 31 <=? v) && (v <? 2 ^ 31) then Some v else None
  | S754_infinity _ | S754_nan => None
  end.

End F32.

Export GoInt.
Definition float32 : Type := F32.float32.

(** ** The OpenGL binding, as a trace of calls *)

Module GL.

Inductive enum : Type :=
| FRAMEBUFFER | READ_FRAMEBUFFER | DRAW_FRAMEBUFFER | FRAMEBUFFER_EXT
| RENDERBUFFER | RENDERBUFFER_EXT
| ARRAY_BUFFER | ELEMENT_ARRAY_BUFFER
| TEXTURE0 | TEXTURE_2D | TEXTURE_2D_MULTISAMPLE
| TEXTURE_MIN_FILTER | TEXTURE_MAG_FILTER | NEAREST | RGB
| DEPTH_TEST | MULTISAMPLE_EXT | LEQUAL
| COLOR_ATTACHMENT0 | DEPTH_STENCIL_ATTACHMENT | DEPTH24_STENCIL8
| TRIANGLES | FLOAT | UNSIGNED_BYTE | UNSIGNED_SHORT | UNSIGNED_INT
| STATIC_DRAW | COLOR_BUFFER_BIT | DEPTH_BUFFER_BIT.

(** What [gl.Ptr(slice)] points to. *)
Inductive data : Type :=
| NoData
| Floats (l : list float32)
| Ints (l : list Z).

(** One call into the binding, with its arguments in source order.  A mask
    built with [|] is the list of the flags it combines; an argument that
    is a pointer to a handle variable is the assignment the caller makes
    from the returned name. *)
Inductive call : Type :=
| BindFramebuffer (target : enum) (framebuffer : Z)
| BindFramebufferEXT (target : enum) (framebuffer : Z)
| UseProgram (program : Z)
| ClearColor (red green blue alpha : float32)
| Clear (mask : list enum)
| Enable (cap : enum)
| Disable (cap : enum)
| DepthFunc (func : enum)
| FramebufferTexture2D (target attachment textarget : enum) (texture level : Z)
| FramebufferTexture2DEXT (target attachment textarget : enum) (texture level : Z)
| FramebufferTexture2DMultisampleEXT
    (target attachment textarget : enum) (texture level samples : Z)
| FramebufferRenderbuffer (target attachment renderbuffertarget : enum) (renderbuffer : Z)
| FramebufferRenderbufferEXT (target attachment renderbuffertarget : enum) (renderbuffer : Z)
| BlitFramebuffer (srcX0 srcY0 srcX1 srcY1 dstX0 dstY0 dstX1 dstY1 : Z)
    (mask : list enum) (filter : enum)
| BindBuffer (target : enum) (buffer : Z)
| BufferData (target : enum) (size : Z) (d : data) (usage : enum)
| BufferSubData (target : enum) (offset size : Z) (d : data)
| ActiveTexture (texture : enum)
| BindTexture (target : enum) (texture : Z)
| BindRenderbuffer (target : enum) (renderbuffer : Z)
| BindRenderbufferEXT (target : enum) (renderbuffer : Z)
| BindVertexArray (array : Z)
| EnableVertexAttribArray (index : Z)
| DisableVertexAttribArray (index : Z)
| VertexAttribPointer (index size : Z) (xtype : enum) (normalized : bool)
    (stride : Z) (pointer : Z)
| DrawElements (mode : enum) (count : Z) (xtype : enum) (indices : Z)
| TexImage2D (target : enum) (level : Z) (internalformat : enum)
    (width height border : Z) (format xtype : enum) (pixels : data)
| TexParameteri (target pname : enum) (param : enum)
| RenderbufferStorageEXT (target internalformat : enum) (width height : Z)
| RenderbufferStorageMultisampleEXT (target : enum) (samples : Z)
    (internalformat : enum) (width height : Z)
| GenFramebuffers (n : Z)
| GenFramebuffersEXT (n : Z)
| GenTextures (n : Z)
| GenRenderbuffers (n : Z)
| GenRenderbuffersEXT (n : Z)
| GenVertexArrays (n : Z)
| GenBuffers (n : Z)
| GetError
| CheckFramebufferStatus (target : enum)
| CheckFramebufferStatusEXT (target : enum).

Definition NO_ERROR : Z := 0.
Definition FRAMEBUFFER_COMPLETE : Z := 36053.

(** The environment of a run: the calls issued so far, the text printed
    so far, and the answers of the outside world (object names, error and
    status codes, random numbers, implementation-dependent conversion
    results), read in order. *)
Record World : Type := mkWorld {
  trace : list call;
  stdout : string;
  answers : nat -> Z;
  asked : nat
}.

Inductive result (A : Type) : Type :=
| Ok (a : A)
| Panic (msg : string).
Arguments Ok {A} a.
Arguments Panic {A} msg.

(** Computations over the package-level variables [St] and the world. *)
Definition M (St A : Type) : Type := St -> World -> result A * St * World.

Definition ret {St A} (a : A) : M St A := fun s w => (Ok a, s, w).

Definition bind {St A B} (m : M St A) (k : A -> M St B) : M St B :=
  fun s w =>
    match m s w with
    | (Ok a, s', w') => k a s' w'
    | (Panic msg, s', w') => (Panic msg, s', w')
    end.

Definition get {St} : M St St := fun s w => (Ok s, s, w).
Definition modify {St} (f : St -> St) : M St unit := fun s w => (Ok tt, f s, w).
Definition panic {St A} (msg : string) : M St A := fun s w => (Panic msg, s, w).

(** Issue a call that returns nothing. *)
Definition gl {St} (c : call) : M St unit :=
  fun s w => (Ok tt, s, mkWorld (trace w ++ [c]) (stdout w) (answers w) (asked w)).

(** Read the next answer of the outside world. *)
Definition ask {St} : M St Z :=
  fun s w => (Ok (answers w (asked w)), s,
              mkWorld (trace w) (stdout w) (answers w) (S (asked w))).

(** Issue a call and read what it returns. *)
Definition glget {St} (c : call) : M St Z := bind (gl c) (fun _ => ask).

Definition print {St} (text : string) : M St unit :=
  fun s w => (Ok tt, s, mkWorld (trace w) (stdout w ++ text) (answers w) (asked w)).

(** [int32(f)] for a [float32] variable [f]. *)
Definition int32_of_float {St} (f : float32) : M St Z :=
  match F32.to_int32 f with
  | Some v => ret v
  | None => bind ask (fun v => ret (int32 v))
  end.

(** [for i := 0; i < n; i++ { body }] *)
Fixpoint repeatM {St} (n : nat) (body : M St unit) : M St unit :=
  match n with
  | O => ret tt
  | S n' => bind body (fun _ => repeatM n' body)
  end.

Module Notations.
Declare Scope gl_scope.
Delimit Scope gl_scope with gl.
Notation "x <- m ;; k" := (bind m (fun x => k))
  (at level 61, m at next level, right associativity) : gl_scope.
Notation "m ;; k" := (bind m (fun _ => k))
  (at level 61, right associativity) : gl_scope.
End Notations.

(** *** What a trace does to the framebuffers

    Enough of the OpenGL state machine to say which framebuffer a clear,
    a draw or a blit acts on: the framebuffers bound for drawing and for
    reading, and the current clear colour. *)

Record binding : Type := mkBinding {
  draw_fb : Z;
  read_fb : Z;
  clear_color : float32 * float32 * float32 * float32
}.

Inductive event : Type :=
| Cleared (fb : Z) (color : float32 * float32 * float32 * float32) (mask : list enum)
| Drawn (fb : Z) (count : Z)
| Blitted (src dst : Z).

Definition step (b : binding) (c : call) : binding * list event :=
  match c with
  | BindFramebuffer FRAMEBUFFER fb
  | BindFramebufferEXT FRAMEBUFFER_EXT fb =>
      (mkBinding fb fb (clear_color b), [])
  | BindFramebuffer READ_FRAMEBUFFER fb =>
      (mkBinding (draw_fb b) fb (clear_color b), [])
  | BindFramebuffer DRAW_FRAMEBUFFER fb =>
      (mkBinding fb (read_fb b) (clear_color b), [])
  | ClearColor r g bl a =>
      (mkBinding (draw_fb b) (read_fb b) (r, g, bl, a), [])
  | Clear mask => (b, [Cleared (draw_fb b) (clear_color b) mask])
  | DrawElements _ count _ _ => (b, [Drawn (draw_fb b) count])
  | BlitFramebuffer _ _ _ _ _ _ _ _ _ _ => (b, [Blitted (read_fb b) (draw_fb b)])
  | _ => (b, [])
  end.

Fixpoint run (b : binding) (cs : list call) : binding * list event :=
  match cs with
  | [] => (b, [])
  | c :: cs' =>
      let '(b1, e1) := step b c in
      let '(b2, e2) := run b1 cs' in
      (b2, e1 ++ e2)
  end.

Definition events (b : binding) (cs : list call) : list event := snd (run b cs).

Definition alpha (color : float32 * float32 * float32 * float32) : float32 :=
  snd color.

Definition is_blit (c : call) : bool :=
  match c with
  | BlitFramebuffer _ _ _ _ _ _ _ _ _ _ => true
  | _ => false
  end.

End GL.

(** ** Diagnostics shared by the packages

    Every package carries its own copy of the error-code table and of the
    functions that poll the binding and panic; the copies are identical. *)

Module Diag.

Import GL GL.Notations.
Local Open Scope gl_scope.

Definition nl : string := String "010"%char EmptyString.

(** The verb [%v] applied to an integer. *)
Definition fmt_int (z : Z) : string := NilZero.string_of_int (Z.to_int z).


Definition GL_ERROR_LOOKUP (errcode : Z) : option string :=
  if errcode =? 1280 then Some "GL_INVALID_ENUM"%string
  else if errcode =? 1281 then Some "GL_INVALID_VALUE"%string
  else if errcode =? 1282 then Some "GL_INVALID_OPERATION"%string
  else if errcode =? 1283 then Some "GL_STACK_OVERFLOW"%string
  else if errcode =? 1284 then Some "GL_STACK_UNDERFLOW"%string
  else if errcode =? 1285 then Some "GL_OUT_OF_MEMORY"%string
  else if errcode =? 1286 then Some "GL_INVALID_FRAMEBUFFER_OPERATION"%string
  else if errcode =? 1287 then Some "GL_CONTEXT_LOST"%string
  else None.

Definition panic_GL_ERROR {St A} (errcode : Z) : M St A :=
  match GL_ERROR_LOOKUP errcode with
  | Some errstr => panic ("GL_ERROR: " ++ errstr ++ nl)
  | None => panic ("GL_ERROR UNKNOWN: " ++ fmt_int errcode ++ nl)
  end.

Definition CheckGLError {St} : M St unit :=
  glerr <- glget GetError ;;
  if uint32 glerr =? NO_ERROR then ret tt else panic_GL_ERROR (uint32 glerr).

Definition GL_FRAMEBUFFER_STATUS_LOOKUP (statuscode : Z) : option string :=
  if statuscode =? 36053 then Some "GL_FRAMEBUFFER_COMPLETE"%string
  else if statuscode =? 36054 then Some "GL_FRAMEBUFFER_INCOMPLETE_ATTACHMENT"%string
  else if statuscode =? 36055
    then Some "GL_FRAMEBUFFER_INCOMPLETE_MISSING_ATTACHMENT"%string
  else if statuscode =? 36057 then Some "GL_FRAMEBUFFER_INCOMPLETE_DIMENSIONS"%string
  else if statuscode =? 36058 then Some "GL_FRAMEBUFFER_INCOMPLETE_FORMATS"%string
  else if statuscode =? 36059 then Some "GL_FRAMEBUFFER_INCOMPLETE_DRAW_BUFFER"%string
  else if statuscode =? 36060 then Some "GL_FRAMEBUFFER_INCOMPLETE_READ_BUFFER"%string
  else if statuscode =? 36061 then Some "GL_FRAMEBUFFER_UNSUPPORTED"%string
  else if statuscode =? 36182 then Some "GL_FRAMEBUFFER_INCOMPLETE_MULTISAMPLE"%string
  else if statuscode =? 33305 then Some "GL_FRAMEBUFFER_UNDEFINED"%string
  else None.

Definition panic_GL_Framebuffer_STATUS {St A} (statuscode : Z) : M St A :=
  match GL_FRAMEBUFFER_STATUS_LOOKUP statuscode with
  | Some statusstr => panic ("GL_FRAMEBUFFER_STATUS: " ++ statusstr ++ nl)
  | None => panic ("GL_FRAMEBUFFER_STATUS UNKNOWN: " ++ fmt_int statuscode ++ nl)
  end.

Definition CheckGLFramebufferStatus {St} : M St unit :=
  glstatus <- glget (CheckFramebufferStatus FRAMEBUFFER) ;;
  if uint32 glstatus =? FRAMEBUFFER_COMPLETE then ret tt
  else panic_GL_Framebuffer_STATUS (uint32 glstatus).

(** The spelling of the gl32 packages. *)
Definition checkGLError {St} : M St unit := CheckGLError.

End Diag.

(** ** The batch builder of [gles20-cube/test20-framebuffer-multisample] *)

Module GLES20.

Import Diag.

Definition windowWidth : Z := 600.
Definition windowHeight : Z := 400.
Definition bytesFloat32 : Z := 4.
Definition bytesUint16 : Z := 2.
Definition bytesUint8 : Z := 1.
Definition vertexPositionSize : Z := 3.
Definition vertexTexCoordSize : Z := 2.
Definition vertexColorSize : Z := 4.
Definition verticesPerQuad : Z := 4.
Definition indicesPerQuad : Z := 6.
Definition msaaSamples : Z := 8.

(** [color.NRGBA]: four [uint8] components. *)
Record NRGBA : Type := mkNRGBA { R : Z; G : Z; B : Z; A : Z }.

(** [ElementQuads]: the draw elements of one context. *)
Record ElementQuads : Type := mkElementQuads {
  QuadVertices : list float32;
  QuadTexCoords : list Z;
  QuadIndices : list Z;
  OffsetVertices : Z;
  OffsetTexCoords : Z;
  OffsetIndices : Z;
  BytesTotal : Z;
  QuadColors : list Z;
  OffsetColors : Z
}.

Definition half : float32 := F32.of_decimal 5 1.

Definition makeQuadVertices (w h z : float32) : list float32 :=
  [ F32.mul w half; F32.mul h half; z;
    F32.neg (F32.mul w half); F32.mul h half; z;
    F32.neg (F32.mul w half); F32.neg (F32.mul h half); z;
    F32.mul w half; F32.neg (F32.mul h half); z ].

Definition makeQuadTextureCoord : list Z :=
  [ 1; 1;
    0; 1;
    0; 0;
    1; 0 ].

Definition makeQuadColors (clr : NRGBA) : list Z :=
  [ R clr; G clr; B clr; A clr;
    R clr; G clr; B clr; A clr;
    R clr; G clr; B clr; A clr;
    R clr; G clr; B clr; A clr ].

Definition makeQuadIndices (quadVerticesLen : Z) : list Z :=
  let rectangleCount :=
    Int.div quadVerticesLen (Int.mul verticesPerQuad vertexPositionSize) in
  let i := U16.mul (uint16 (Int.sub rectangleCount 1)) verticesPerQuad in
  [ i; U16.add i 1; U16.add i 2;
    i; U16.add i 2; U16.add i 3 ].

Definition DrawRectangle (q : ElementQuads) (w h z : float32) (clr : NRGBA)
  : ElementQuads :=
  let vs := QuadVertices q ++ makeQuadVertices w h z in
  let ts := QuadTexCoords q ++ makeQuadTextureCoord in
  let cs := QuadColors q ++ makeQuadColors clr in
  let ixs := QuadIndices q ++ makeQuadIndices (len vs) in
  mkElementQuads vs ts ixs
    (OffsetVertices q) (OffsetTexCoords q) (OffsetIndices q) (BytesTotal q)
    cs (OffsetColors q).

(** *** Debug output *)

Definition DebugPrint_text (q : ElementQuads) : string :=
  ("RECT_COUNT -- Rectangles: "
     ++ fmt_int (Int.div (len (QuadIndices q)) indicesPerQuad) ++ nl)
  ++ ("RAW_LENGTH -- Rectangle has " ++ fmt_int verticesPerQuad ++ " vertex" ++ nl
     ++ "Vertices   " ++ fmt_int (len (QuadVertices q))
     ++ " (" ++ fmt_int vertexPositionSize ++ "-per-vertex)" ++ nl
     ++ "TexCoord   " ++ fmt_int (len (QuadTexCoords q))
     ++ " (" ++ fmt_int vertexTexCoordSize ++ "-per-vertex)" ++ nl
     ++ "Colors     " ++ fmt_int (len (QuadColors q))
     ++ " (" ++ fmt_int vertexColorSize ++ "-per-vertex)" ++ nl
     ++ "Indices    " ++ fmt_int (len (QuadIndices q))
     ++ " (" ++ fmt_int indicesPerQuad ++ "-per-rectangle)" ++ nl).

(** *** Contexts and package-level variables

    The [quads] field of a context is a pointer that [load] sets to a
    record of its own; it is modelled by that record. *)

Module ContextScreen.
Record t : Type := mk {
  quads : ElementQuads;
  program : Z;
  vbo : Z;
  ibo : Z;
  vao : Z;
  attribVertexPosition : Z;
  attribVertexTexCoord : Z
}.
End ContextScreen.

Module ContextFramebufferMultisample.
Record t : Type := mk {
  quads : ElementQuads;
  program : Z;
  fbo : Z;
  fboTexture : Z;
  fboRenderbuffer : Z;
  vbo : Z;
  ibo : Z;
  vao : Z;
  attribVertexPosition : Z;
  attribVertexTexCoord : Z;
  attribVertexColor : Z
}.
End ContextFramebufferMultisample.

Module ContextFramebuffer.
Record t : Type := mk {
  fbo : Z;
  fboTexture : Z
}.
End ContextFramebuffer.

Record Globals : Type := mkGlobals {
  dpiScaleX : float32;
  dpiScaleY : float32;
  ctxScreen : ContextScreen.t;
  ctxBlitz : ContextFramebuffer.t;
  ctxFramebufferMultisample : ContextFramebufferMultisample.t
}.

Import GL GL.Notations.
Local Open Scope gl_scope.

Module CS := ContextScreen.
Module CFM := ContextFramebufferMultisample.
Module CF := ContextFramebuffer.

(** Assignments through the package-level pointers. *)

Definition with_screen (f : CS.t -> CS.t) : M Globals unit :=
  modify (fun g => mkGlobals (dpiScaleX g) (dpiScaleY g)
                     (f (ctxScreen g)) (ctxBlitz g) (ctxFramebufferMultisample g)).

Definition with_blitz (f : CF.t -> CF.t) : M Globals unit :=
  modify (fun g => mkGlobals (dpiScaleX g) (dpiScaleY g)
                     (ctxScreen g) (f (ctxBlitz g)) (ctxFramebufferMultisample g)).

Definition with_multisample (f : CFM.t -> CFM.t) : M Globals unit :=
  modify (fun g => mkGlobals (dpiScaleX g) (dpiScaleY g)
                     (ctxScreen g) (ctxBlitz g) (f (ctxFramebufferMultisample g))).

Definition CS_set_quads (q : ElementQuads) (c : CS.t) : CS.t :=
  CS.mk q (CS.program c) (CS.vbo c) (CS.ibo c) (CS.vao c)
    (CS.attribVertexPosition c) (CS.attribVertexTexCoord c).

Definition CS_set_buffers (vao vbo ibo : Z) (c : CS.t) : CS.t :=
  CS.mk (CS.quads c) (CS.program c) vbo ibo vao
    (CS.attribVertexPosition c) (CS.attribVertexTexCoord c).

Definition CFM_set_quads (q : ElementQuads) (c : CFM.t) : CFM.t :=
  CFM.mk q (CFM.program c) (CFM.fbo c) (CFM.fboTexture c) (CFM.fboRenderbuffer c)
    (CFM.vbo c) (CFM.ibo c) (CFM.vao c)
    (CFM.attribVertexPosition c) (CFM.attribVertexTexCoord c) (CFM.attribVertexColor c).

Definition CFM_set_fbo (fbo : Z) (c : CFM.t) : CFM.t :=
  CFM.mk (CFM.quads c) (CFM.program c) fbo (CFM.fboTexture c) (CFM.fboRenderbuffer c)
    (CFM.vbo c) (CFM.ibo c) (CFM.vao c)
    (CFM.attribVertexPosition c) (CFM.attribVertexTexCoord c) (CFM.attribVertexColor c).

Definition CFM_set_fboTexture (tex : Z) (c : CFM.t) : CFM.t :=
  CFM.mk (CFM.quads c) (CFM.program c) (CFM.fbo c) tex (CFM.fboRenderbuffer c)
    (CFM.vbo c) (CFM.ibo c) (CFM.vao c)
    (CFM.attribVertexPosition c) (CFM.attribVertexTexCoord c) (CFM.attribVertexColor c).

Definition CFM_set_fboRenderbuffer (rb : Z) (c : CFM.t) : CFM.t :=
  CFM.mk (CFM.quads c) (CFM.program c) (CFM.fbo c) (CFM.fboTexture c) rb
    (CFM.vbo c) (CFM.ibo c) (CFM.vao c)
    (CFM.attribVertexPosition c) (CFM.attribVertexTexCoord c) (CFM.attribVertexColor c).

Definition CFM_set_buffers (vao vbo ibo : Z) (c : CFM.t) : CFM.t :=
  CFM.mk (CFM.quads c) (CFM.program c) (CFM.fbo c) (CFM.fboTexture c)
    (CFM.fboRenderbuffer c) vbo ibo vao
    (CFM.attribVertexPosition c) (CFM.attribVertexTexCoord c) (CFM.attribVertexColor c).

Definition set_QuadColors (cs : list Z) (q : ElementQuads) : ElementQuads :=
  mkElementQuads (QuadVertices q) (QuadTexCoords q) (QuadIndices q)
    (OffsetVertices q) (OffsetTexCoords q) (OffsetIndices q) (BytesTotal q)
    cs (OffsetColors q).

Definition set_layout (bytesTotal offV offT offC offI : Z) (q : ElementQuads)
  : ElementQuads :=
  mkElementQuads (QuadVertices q) (QuadTexCoords q) (QuadIndices q)
    offV offT offI bytesTotal (QuadColors q) offC.

(** *** Loading the game objects *)

(** The composite literal of both [load] methods. *)
Definition newElementQuads : ElementQuads :=
  mkElementQuads [] [] [] 0 0 0 0 [] 0.

Definition ContextScreen_load : M Globals unit :=
  let q := newElementQuads in
  let vs := [ F32.of_Z 1; F32.of_Z 1; F32.of_Z 0;
              F32.of_Z (-1); F32.of_Z 1; F32.of_Z 0;
              F32.of_Z (-1); F32.of_Z (-1); F32.of_Z 0;
              F32.of_Z 1; F32.of_Z (-1); F32.of_Z 0 ] in
  let ts := QuadTexCoords q ++ makeQuadTextureCoord in
  let ixs := QuadIndices q ++ makeQuadIndices (len vs) in
  with_screen (CS_set_quads
    (mkElementQuads vs ts ixs
       (OffsetVertices q) (OffsetTexCoords q) (OffsetIndices q) (BytesTotal q)
       (QuadColors q) (OffsetColors q))).

(** The two rectangles of [ContextFramebufferMultisample.load]. *)
Definition red_rectangle (q : ElementQuads) : ElementQuads :=
  DrawRectangle q (F32.of_Z 2) (F32.of_Z 2) (F32.neg (F32.of_decimal 12 1))
    (mkNRGBA 1 0 0 1).

Definition blue_rectangle (q : ElementQuads) : ElementQuads :=
  DrawRectangle q (F32.of_Z 1) (F32.of_Z 1) (F32.neg (F32.of_decimal 11 1))
    (mkNRGBA 0 0 255 1).

Definition ContextFramebufferMultisample_load : M Globals unit :=
  with_multisample (CFM_set_quads newElementQuads) ;;
  with_multisample (fun c => CFM_set_quads (red_rectangle (CFM.quads c)) c) ;;
  with_multisample (fun c => CFM_set_quads (blue_rectangle (CFM.quads c)) c) ;;
  g <- get ;;
  print (DebugPrint_text (CFM.quads (ctxFramebufferMultisample g))).

Definition load : M Globals unit :=
  ContextScreen_load ;;
  ContextFramebufferMultisample_load.

(** *** Binding the three targets *)

Definition ContextFramebufferMultisample_bind : M Globals unit :=
  g <- get ;;
  let ctx := ctxFramebufferMultisample g in
  gl (BindFramebuffer FRAMEBUFFER (CFM.fbo ctx)) ;;
  gl (BindFramebuffer READ_FRAMEBUFFER (CFM.fbo ctx)) ;;
  gl (BindFramebuffer DRAW_FRAMEBUFFER (CFM.fbo ctx)) ;;
  gl (UseProgram (CFM.program ctx)) ;;
  gl (ClearColor (F32.of_decimal 5 1) (F32.of_decimal 5 1) (F32.of_decimal 5 1)
        (F32.of_Z 0)) ;;
  gl (Clear [COLOR_BUFFER_BIT; DEPTH_BUFFER_BIT]) ;;
  gl (Enable DEPTH_TEST) ;;
  gl (Enable MULTISAMPLE_EXT).

Definition ContextScreen_bind : M Globals unit :=
  g <- get ;;
  let ctx := ctxScreen g in
  gl (BindFramebuffer FRAMEBUFFER 0) ;;
  gl (BindFramebuffer READ_FRAMEBUFFER 0) ;;
  gl (BindFramebuffer DRAW_FRAMEBUFFER 0) ;;
  gl (UseProgram (CS.program ctx)) ;;
  gl (ClearColor (F32.of_Z 0) (F32.of_Z 0) (F32.of_Z 0) (F32.of_Z 0)) ;;
  gl (Clear [COLOR_BUFFER_BIT]) ;;
  gl (Disable DEPTH_TEST) ;;
  gl (Enable MULTISAMPLE_EXT).

Definition ContextFramebuffer_bind : M Globals unit :=
  g <- get ;;
  let ctx := ctxBlitz g in
  gl (BindFramebuffer READ_FRAMEBUFFER (CFM.fbo (ctxFramebufferMultisample g))) ;;
  gl (BindFramebuffer DRAW_FRAMEBUFFER (CF.fbo ctx)) ;;
  gl (FramebufferTexture2D READ_FRAMEBUFFER COLOR_ATTACHMENT0 TEXTURE_2D_MULTISAMPLE
        (CFM.fboTexture (ctxFramebufferMultisample g)) 0) ;;
  gl (FramebufferTexture2D DRAW_FRAMEBUFFER COLOR_ATTACHMENT0 TEXTURE_2D
        (CF.fboTexture ctx) 0).

(** *** Drawing into the three targets *)

(** [windowWidth*int32(dpiScaleX)] and [windowHeight*int32(dpiScaleY)]. *)
Definition scaledWindowSize : M Globals (Z * Z) :=
  g <- get ;;
  sx <- int32_of_float (dpiScaleX g) ;;
  sy <- int32_of_float (dpiScaleY g) ;;
  ret (I32.mul windowWidth sx, I32.mul windowHeight sy).

Definition ContextFramebuffer_draw : M Globals unit :=
  wh <- scaledWindowSize ;;
  let windowWidthHDPI := fst wh in
  let windowHeightHDPI := snd wh in
  gl (BlitFramebuffer 0 0 windowWidthHDPI windowHeightHDPI
        0 0 windowWidthHDPI windowHeightHDPI [COLOR_BUFFER_BIT] NEAREST).

(** [rand.Intn(n)]: some value in [[0, n)], chosen by the generator. *)
Definition rand_Intn (n : Z) : M Globals Z :=
  v <- ask ;; ret (v mod n).

(** [RandomColorInRGBA] seeds the generator from the clock and draws three
    numbers: three answers of the outside world. *)
Definition RandomColorInRGBA : M Globals NRGBA :=
  r <- rand_Intn 255 ;;
  g <- rand_Intn 255 ;;
  b <- rand_Intn 255 ;;
  let a := uint8 1 in
  ret (mkNRGBA (uint8 r) (uint8 g) (uint8 b) a).

Definition ContextFramebufferMultisample_draw : M Globals unit :=
  g <- get ;;
  let ctx := ctxFramebufferMultisample g in
  gl (BindBuffer ARRAY_BUFFER (CFM.vbo ctx)) ;;
  gl (BindBuffer ELEMENT_ARRAY_BUFFER (CFM.ibo ctx)) ;;
  gl (ActiveTexture TEXTURE0) ;;
  gl (BindTexture TEXTURE_2D_MULTISAMPLE (CFM.fboTexture (ctxFramebufferMultisample g))) ;;
  gl (EnableVertexAttribArray (CFM.attribVertexPosition ctx)) ;;
  gl (EnableVertexAttribArray (CFM.attribVertexTexCoord ctx)) ;;
  gl (EnableVertexAttribArray (CFM.attribVertexColor ctx)) ;;
  (* randomize color values for each rectangle in draw queue *)
  let nQuads := Int.div (len (QuadIndices (CFM.quads ctx))) indicesPerQuad in
  with_multisample (fun c => CFM_set_quads (set_QuadColors [] (CFM.quads c)) c) ;;
  repeatM (Z.to_nat nQuads)
    (clr <- RandomColorInRGBA ;;
     with_multisample (fun c =>
       CFM_set_quads
         (set_QuadColors (QuadColors (CFM.quads c) ++ makeQuadColors clr) (CFM.quads c))
         c)) ;;
  g <- get ;;
  let q := CFM.quads (ctxFramebufferMultisample g) in
  gl (BufferSubData ARRAY_BUFFER (OffsetColors q)
        (Int.mul (len (QuadColors q)) bytesUint8) (Ints (QuadColors q))) ;;
  gl (VertexAttribPointer (CFM.attribVertexPosition ctx) vertexPositionSize FLOAT false 0
        (OffsetVertices q)) ;;
  gl (VertexAttribPointer (CFM.attribVertexTexCoord ctx) vertexTexCoordSize UNSIGNED_BYTE
        false 0 (OffsetTexCoords q)) ;;
  gl (VertexAttribPointer (CFM.attribVertexColor ctx) vertexColorSize UNSIGNED_BYTE
        true 0 (OffsetColors q)) ;;
  gl (DrawElements TRIANGLES (int32 (len (QuadIndices q))) UNSIGNED_SHORT
        (OffsetIndices q)) ;;
  gl (BindBuffer ARRAY_BUFFER 0) ;;
  gl (BindBuffer ELEMENT_ARRAY_BUFFER 0) ;;
  gl (BindTexture TEXTURE_2D_MULTISAMPLE 0) ;;
  gl (DisableVertexAttribArray (CFM.attribVertexPosition ctx)) ;;
  gl (DisableVertexAttribArray (CFM.attribVertexTexCoord ctx)) ;;
  gl (DisableVertexAttribArray (CFM.attribVertexColor ctx)).

Definition ContextScreen_draw : M Globals unit :=
  g <- get ;;
  let ctx := ctxScreen g in
  let q := CS.quads ctx in
  gl (BindBuffer ARRAY_BUFFER (CS.vbo ctx)) ;;
  gl (BindBuffer ELEMENT_ARRAY_BUFFER (CS.ibo ctx)) ;;
  gl (ActiveTexture TEXTURE0) ;;
  gl (BindTexture TEXTURE_2D (CF.fboTexture (ctxBlitz g))) ;;
  gl (EnableVertexAttribArray (CS.attribVertexPosition ctx)) ;;
  gl (EnableVertexAttribArray (CS.attribVertexTexCoord ctx)) ;;
  gl (VertexAttribPointer (CS.attribVertexPosition ctx) vertexPositionSize FLOAT false 0
        (OffsetVertices q)) ;;
  gl (VertexAttribPointer (CS.attribVertexTexCoord ctx) vertexTexCoordSize UNSIGNED_BYTE
        false 0 (OffsetTexCoords q)) ;;
  gl (DrawElements TRIANGLES (int32 (len (QuadIndices q))) UNSIGNED_SHORT
        (OffsetIndices q)) ;;
  gl (BindBuffer ARRAY_BUFFER 0) ;;
  gl (BindBuffer ELEMENT_ARRAY_BUFFER 0) ;;
  gl (BindTexture TEXTURE_2D 0) ;;
  gl (DisableVertexAttribArray (CS.attribVertexPosition ctx)) ;;
  gl (DisableVertexAttribArray (CS.attribVertexTexCoord ctx)).

(** One frame. *)
Definition draw : M Globals unit :=
  ContextFramebufferMultisample_bind ;;
  ContextFramebufferMultisample_draw ;;
  ContextFramebuffer_bind ;;
  ContextFramebuffer_draw ;;
  ContextScreen_bind ;;
  ContextScreen_draw.

(** *** Attachments of the offscreen targets *)

Definition ContextFramebuffer_attachTexture : M Globals unit :=
  name <- glget (GenTextures 1) ;;
  with_blitz (fun c => CF.mk (CF.fbo c) (uint32 name)) ;;
  g <- get ;;
  let ctx := ctxBlitz g in
  gl (BindTexture TEXTURE_2D (CF.fboTexture ctx)) ;;
  wh <- scaledWindowSize ;;
  gl (TexImage2D TEXTURE_2D 0 RGB (fst wh) (snd wh) 0 RGB UNSIGNED_BYTE NoData) ;;
  gl (TexParameteri TEXTURE_2D TEXTURE_MIN_FILTER NEAREST) ;;
  gl (TexParameteri TEXTURE_2D TEXTURE_MAG_FILTER NEAREST) ;;
  gl (BindTexture TEXTURE_2D 0) ;;
  gl (FramebufferTexture2D FRAMEBUFFER COLOR_ATTACHMENT0 TEXTURE_2D (CF.fboTexture ctx) 0).

(** The two calls that would give the multisample texture its storage are
    commented out in the source: the texture is attached without any. *)
Definition ContextFramebufferMultisample_attachTextureMultisample : M Globals unit :=
  name <- glget (GenTextures 1) ;;
  with_multisample (CFM_set_fboTexture (uint32 name)) ;;
  g <- get ;;
  let ctx := ctxFramebufferMultisample g in
  gl (BindTexture TEXTURE_2D_MULTISAMPLE (CFM.fboTexture ctx)) ;;
  CheckGLError ;;
  CheckGLError ;;
  gl (BindTexture TEXTURE_2D_MULTISAMPLE 0) ;;
  CheckGLError ;;
  gl (FramebufferTexture2DMultisampleEXT FRAMEBUFFER COLOR_ATTACHMENT0
        TEXTURE_2D_MULTISAMPLE (CFM.fboTexture ctx) 0 msaaSamples) ;;
  CheckGLError.

Definition ContextFramebufferMultisample_attachRenderbufferMultisample
  : M Globals unit :=
  name <- glget (GenRenderbuffers 1) ;;
  with_multisample (CFM_set_fboRenderbuffer (uint32 name)) ;;
  g <- get ;;
  let ctx := ctxFramebufferMultisample g in
  gl (BindRenderbuffer RENDERBUFFER (CFM.fboRenderbuffer ctx)) ;;
  wh <- scaledWindowSize ;;
  gl (RenderbufferStorageMultisampleEXT RENDERBUFFER msaaSamples DEPTH24_STENCIL8
        (fst wh) (snd wh)) ;;
  gl (BindRenderbuffer RENDERBUFFER 0) ;;
  gl (FramebufferRenderbuffer FRAMEBUFFER DEPTH_STENCIL_ATTACHMENT RENDERBUFFER
        (CFM.fboRenderbuffer ctx)).

(** *** Buffers and the packed layout *)

Definition ContextFramebuffer_setupBuffers : M Globals unit :=
  name <- glget (GenFramebuffers 1) ;;
  with_blitz (fun c => CF.mk (uint32 name) (CF.fboTexture c)) ;;
  g <- get ;;
  gl (BindFramebuffer FRAMEBUFFER (CF.fbo (ctxBlitz g))) ;;
  ContextFramebuffer_attachTexture ;;
  CheckGLFramebufferStatus ;;
  gl (BindFramebuffer FRAMEBUFFER 0).

Definition ContextScreen_setupBuffers : M Globals unit :=
  g <- get ;;
  gl (UseProgram (CS.program (ctxScreen g))) ;;
  gl (BindFramebuffer FRAMEBUFFER 0) ;;
  let q := CS.quads (ctxScreen g) in
  let bytesTotal :=
    Int.add (Int.mul (len (QuadVertices q)) bytesFloat32)
            (Int.mul (len (QuadTexCoords q)) bytesUint8) in
  let offsetVertices := Int.mul 0 bytesFloat32 in
  let offsetTexCoords :=
    Int.add offsetVertices (Int.mul (len (QuadVertices q)) bytesFloat32) in
  let offsetIndices := Int.mul 0 bytesUint16 in
  with_screen (fun c =>
    CS_set_quads
      (set_layout bytesTotal offsetVertices offsetTexCoords
         (OffsetColors (CS.quads c)) offsetIndices (CS.quads c)) c) ;;
  vao <- glget (GenVertexArrays 1) ;;
  gl (BindVertexArray (uint32 vao)) ;;
  vbo <- glget (GenBuffers 1) ;;
  ibo <- glget (GenBuffers 1) ;;
  with_screen (CS_set_buffers (uint32 vao) (uint32 vbo) (uint32 ibo)) ;;
  g <- get ;;
  let ctx := ctxScreen g in
  let q := CS.quads ctx in
  gl (BindBuffer ARRAY_BUFFER (CS.vbo ctx)) ;;
  gl (BufferData ARRAY_BUFFER (BytesTotal q) NoData STATIC_DRAW) ;;
  gl (BufferSubData ARRAY_BUFFER (OffsetVertices q)
        (Int.mul (len (QuadVertices q)) bytesFloat32) (Floats (QuadVertices q))) ;;
  gl (BufferSubData ARRAY_BUFFER (OffsetTexCoords q)
        (Int.mul (len (QuadTexCoords q)) bytesUint8) (Ints (QuadTexCoords q))) ;;
  gl (BindBuffer ARRAY_BUFFER 0) ;;
  gl (BindBuffer ELEMENT_ARRAY_BUFFER (CS.ibo ctx)) ;;
  gl (BufferData ELEMENT_ARRAY_BUFFER (Int.mul (len (QuadIndices q)) bytesUint16)
        (Ints (QuadIndices q)) STATIC_DRAW) ;;
  gl (BindBuffer ELEMENT_ARRAY_BUFFER 0) ;;
  gl (DepthFunc LEQUAL) ;;
  gl (UseProgram 0).

Definition ContextFramebufferMultisample_setupBuffers : M Globals unit :=
  g <- get ;;
  gl (UseProgram (CFM.program (ctxFramebufferMultisample g))) ;;
  let q := CFM.quads (ctxFramebufferMultisample g) in
  let bytesTotal :=
    Int.add (Int.add (Int.mul (len (QuadVertices q)) bytesFloat32)
                     (Int.mul (len (QuadTexCoords q)) bytesUint8))
            (Int.mul (len (QuadColors q)) bytesUint8) in
  let offsetVertices := Int.mul 0 bytesFloat32 in
  let offsetTexCoords :=
    Int.add offsetVertices (Int.mul (len (QuadVertices q)) bytesFloat32) in
  let offsetColors :=
    Int.add offsetTexCoords (Int.mul (len (QuadTexCoords q)) bytesUint8) in
  let offsetIndices := Int.mul 0 bytesUint16 in
  with_multisample (fun c =>
    CFM_set_quads
      (set_layout bytesTotal offsetVertices offsetTexCoords offsetColors offsetIndices
         (CFM.quads c)) c) ;;
  name <- glget (GenFramebuffers 1) ;;
  with_multisample (CFM_set_fbo (uint32 name)) ;;
  g <- get ;;
  gl (BindFramebuffer FRAMEBUFFER (CFM.fbo (ctxFramebufferMultisample g))) ;;
  ContextFramebufferMultisample_attachTextureMultisample ;;
  ContextFramebufferMultisample_attachRenderbufferMultisample ;;
  CheckGLFramebufferStatus ;;
  vao <- glget (GenVertexArrays 1) ;;
  gl (BindVertexArray (uint32 vao)) ;;
  vbo <- glget (GenBuffers 1) ;;
  ibo <- glget (GenBuffers 1) ;;
  with_multisample (CFM_set_buffers (uint32 vao) (uint32 vbo) (uint32 ibo)) ;;
  g <- get ;;
  let ctx := ctxFramebufferMultisample g in
  let q := CFM.quads ctx in
  gl (BindBuffer ARRAY_BUFFER (CFM.vbo ctx)) ;;
  gl (BufferData ARRAY_BUFFER (BytesTotal q) NoData STATIC_DRAW) ;;
  gl (BufferSubData ARRAY_BUFFER (OffsetVertices q)
        (Int.mul (len (QuadVertices q)) bytesFloat32) (Floats (QuadVertices q))) ;;
  gl (BufferSubData ARRAY_BUFFER (OffsetTexCoords q)
        (Int.mul (len (QuadTexCoords q)) bytesUint8) (Ints (QuadTexCoords q))) ;;
  gl (BufferSubData ARRAY_BUFFER (OffsetColors q)
        (Int.mul (len (QuadColors q)) bytesUint8) (Ints (QuadColors q))) ;;
  gl (BindBuffer ARRAY_BUFFER 0) ;;
  gl (BindBuffer ELEMENT_ARRAY_BUFFER (CFM.ibo ctx)) ;;
  gl (BufferData ELEMENT_ARRAY_BUFFER (Int.mul (len (QuadIndices q)) bytesUint16)
        (Ints (QuadIndices q)) STATIC_DRAW) ;;
  gl (BindBuffer ELEMENT_ARRAY_BUFFER 0) ;;
  gl (BindFramebuffer FRAMEBUFFER 0) ;;
  gl (UseProgram 0).

End GLES20.

(** ** [gl32-cube/test21-framebuffer-multisample]: one offscreen target *)

Module GL32MS.

Import Diag GL GL.Notations.
Local Open Scope gl_scope.

Definition windowWidth : Z := 600.
Definition windowHeight : Z := 400.
Definition bytesFloat32 : Z := 4.
Definition bytesUint32 : Z := 4.
Definition bytesUint16 : Z := 2.
Definition bytesUint8 : Z := 1.
Definition vertexPositionSize : Z := 3.
Definition vertexTexCoordSize : Z := 2.
Definition vertexColorSize : Z := 4.
Definition verticesPerQuad : Z := 4.
Definition indicesPerQuad : Z := 6.

Record ElementQuads : Type := mkElementQuads {
  QuadVertices : list float32;
  QuadTexCoords : list Z;
  QuadIndices : list Z;
  OffsetVertices : Z;
  OffsetTexCoords : Z;
  OffsetIndices : Z;
  BytesTotal : Z;
  QuadColors : list Z;
  OffsetColors : Z
}.

Module ContextScreen.
Record t : Type := mk {
  quads : ElementQuads;
  program : Z;
  vbo : Z;
  ibo : Z;
  attribVertexPosition : Z;
  attribVertexTexCoord : Z
}.
End ContextScreen.

Module ContextFramebuffer.
Record t : Type := mk {
  quads : ElementQuads;
  program : Z;
  fbo : Z;
  fboTexture : Z;
  fboRenderbuffer : Z;
  vbo : Z;
  ibo : Z;
  attribVertexPosition : Z;
  attribVertexTexCoord : Z;
  attribVertexColor : Z
}.
End ContextFramebuffer.

Record Globals : Type := mkGlobals {
  dpiScaleX : float32;
  dpiScaleY : float32;
  ctxScreen : ContextScreen.t;
  ctxFramebuffer : ContextFramebuffer.t
}.

Module CS := ContextScreen.
Module CF := ContextFramebuffer.

Definition with_framebuffer (f : CF.t -> CF.t) : M Globals unit :=
  modify (fun g => mkGlobals (dpiScaleX g) (dpiScaleY g) (ctxScreen g)
                     (f (ctxFramebuffer g))).

Definition CF_set_fboTexture (tex : Z) (c : CF.t) : CF.t :=
  CF.mk (CF.quads c) (CF.program c) (CF.fbo c) tex (CF.fboRenderbuffer c)
    (CF.vbo c) (CF.ibo c)
    (CF.attribVertexPosition c) (CF.attribVertexTexCoord c) (CF.attribVertexColor c).

Definition CF_set_fboRenderbuffer (rb : Z) (c : CF.t) : CF.t :=
  CF.mk (CF.quads c) (CF.program c) (CF.fbo c) (CF.fboTexture c) rb
    (CF.vbo c) (CF.ibo c)
    (CF.attribVertexPosition c) (CF.attribVertexTexCoord c) (CF.attribVertexColor c).

Definition makeQuadIndices (quadVerticesLen : Z) : list Z :=
  let rectangleCount :=
    Int.div quadVerticesLen (Int.mul verticesPerQuad vertexPositionSize) in
  let i := U16.mul (uint16 (Int.sub rectangleCount 1)) verticesPerQuad in
  [ i; U16.add i 1; U16.add i 2;
    i; U16.add i 2; U16.add i 3 ].

Definition ContextFramebuffer_bind : M Globals unit :=
  g <- get ;;
  let ctx := ctxFramebuffer g in
  gl (UseProgram (CF.program ctx)) ;;
  gl (BindFramebufferEXT FRAMEBUFFER_EXT (CF.fbo ctx)) ;;
  gl (ClearColor (F32.of_decimal 5 1) (F32.of_decimal 5 1) (F32.of_decimal 5 1)
        (F32.of_Z 1)) ;;
  gl (Clear [COLOR_BUFFER_BIT; DEPTH_BUFFER_BIT]) ;;
  gl (Enable DEPTH_TEST).

Definition ContextScreen_bind : M Globals unit :=
  g <- get ;;
  let ctx := ctxScreen g in
  gl (UseProgram (CS.program ctx)) ;;
  gl (BindFramebufferEXT FRAMEBUFFER_EXT 0) ;;
  gl (ClearColor (F32.of_Z 0) (F32.of_Z 0) (F32.of_Z 0) (F32.of_Z 1)) ;;
  gl (Clear [COLOR_BUFFER_BIT]) ;;
  gl (Disable DEPTH_TEST).

Definition ContextFramebuffer_draw : M Globals unit :=
  g <- get ;;
  let ctx := ctxFramebuffer g in
  let q := CF.quads ctx in
  gl (BindBuffer ARRAY_BUFFER (CF.vbo ctx)) ;;
  gl (BindBuffer ELEMENT_ARRAY_BUFFER (CF.ibo ctx)) ;;
  gl (EnableVertexAttribArray (CF.attribVertexPosition ctx)) ;;
  gl (EnableVertexAttribArray (CF.attribVertexTexCoord ctx)) ;;
  gl (EnableVertexAttribArray (CF.attribVertexColor ctx)) ;;
  gl (VertexAttribPointer (CF.attribVertexPosition ctx) vertexPositionSize FLOAT false 0
        (OffsetVertices q)) ;;
  gl (VertexAttribPointer (CF.attribVertexTexCoord ctx) vertexTexCoordSize UNSIGNED_BYTE
        false 0 (OffsetTexCoords q)) ;;
  gl (VertexAttribPointer (CF.attribVertexColor ctx) vertexColorSize UNSIGNED_INT
        false 0 (OffsetColors q)) ;;
  gl (DrawElements TRIANGLES (int32 (len (QuadIndices q))) UNSIGNED_SHORT
        (OffsetIndices q)) ;;
  gl (BindBuffer ARRAY_BUFFER 0) ;;
  gl (BindBuffer ELEMENT_ARRAY_BUFFER 0) ;;
  gl (DisableVertexAttribArray (CF.attribVertexPosition ctx)) ;;
  gl (DisableVertexAttribArray (CF.attribVertexTexCoord ctx)) ;;
  gl (DisableVertexAttribArray (CF.attribVertexColor ctx)).

Definition ContextScreen_draw : M Globals unit :=
  g <- get ;;
  let ctx := ctxScreen g in
  let q := CS.quads ctx in
  gl (BindBuffer ARRAY_BUFFER (CS.vbo ctx)) ;;
  gl (BindBuffer ELEMENT_ARRAY_BUFFER (CS.ibo ctx)) ;;
  gl (BindTexture TEXTURE_2D (CF.fboTexture (ctxFramebuffer g))) ;;
  gl (EnableVertexAttribArray (CS.attribVertexPosition ctx)) ;;
  gl (EnableVertexAttribArray (CS.attribVertexTexCoord ctx)) ;;
  gl (VertexAttribPointer (CS.attribVertexPosition ctx) vertexPositionSize FLOAT false 0
        (OffsetVertices q)) ;;
  gl (VertexAttribPointer (CS.attribVertexTexCoord ctx) vertexTexCoordSize UNSIGNED_BYTE
        false 0 (OffsetTexCoords q)) ;;
  gl (DrawElements TRIANGLES (int32 (len (QuadIndices q))) UNSIGNED_SHORT
        (OffsetIndices q)) ;;
  gl (BindBuffer ARRAY_BUFFER 0) ;;
  gl (BindBuffer ELEMENT_ARRAY_BUFFER 0) ;;
  gl (BindTexture TEXTURE_2D 0) ;;
  gl (DisableVertexAttribArray (CS.attribVertexPosition ctx)) ;;
  gl (DisableVertexAttribArray (CS.attribVertexTexCoord ctx)).

(** One frame. *)
Definition draw : M Globals unit :=
  ContextFramebuffer_bind ;;
  ContextFramebuffer_draw ;;
  ContextScreen_bind ;;
  ContextScreen_draw ;;
  checkGLError.

(** [windowWidth*int32(dpiScaleX)] and [windowHeight*int32(dpiScaleY)]. *)
Definition scaledWindowSize : M Globals (Z * Z) :=
  g <- get ;;
  sx <- int32_of_float (dpiScaleX g) ;;
  sy <- int32_of_float (dpiScaleY g) ;;
  ret (I32.mul windowWidth sx, I32.mul windowHeight sy).

Definition ContextFramebuffer_attachTexture : M Globals unit :=
  name <- glget (GenTextures 1) ;;
  with_framebuffer (CF_set_fboTexture (uint32 name)) ;;
  g <- get ;;
  let ctx := ctxFramebuffer g in
  gl (BindTexture TEXTURE_2D (CF.fboTexture ctx)) ;;
  wh <- scaledWindowSize ;;
  gl (TexImage2D TEXTURE_2D 0 RGB (fst wh) (snd wh) 0 RGB UNSIGNED_BYTE NoData) ;;
  gl (TexParameteri TEXTURE_2D TEXTURE_MIN_FILTER NEAREST) ;;
  gl (TexParameteri TEXTURE_2D TEXTURE_MAG_FILTER NEAREST) ;;
  gl (FramebufferTexture2DEXT FRAMEBUFFER_EXT COLOR_ATTACHMENT0 TEXTURE_2D
        (CF.fboTexture ctx) 0).

Definition ContextFramebuffer_attachRenderbuffer : M Globals unit :=
  name <- glget (GenRenderbuffersEXT 1) ;;
  with_framebuffer (CF_set_fboRenderbuffer (uint32 name)) ;;
  g <- get ;;
  let ctx := ctxFramebuffer g in
  gl (BindRenderbufferEXT RENDERBUFFER_EXT (CF.fboRenderbuffer ctx)) ;;
  wh <- scaledWindowSize ;;
  gl (RenderbufferStorageEXT RENDERBUFFER_EXT DEPTH24_STENCIL8 (fst wh) (snd wh)) ;;
  gl (BindRenderbufferEXT RENDERBUFFER_EXT 0) ;;
  gl (FramebufferRenderbufferEXT FRAMEBUFFER_EXT DEPTH_STENCIL_ATTACHMENT
        RENDERBUFFER_EXT (CF.fboRenderbuffer ctx)).

End GL32MS.

(** ** [gl32-cube/test21-framebuffer]: package-level batch arrays *)

Module GL32FB.

Import Diag GL GL.Notations.
Local Open Scope gl_scope.

Definition windowWidth : Z := 600.
Definition windowHeight : Z := 400.
Definition bytesFloat32 : Z := 4.
Definition bytesUint32 : Z := 4.
Definition bytesUint16 : Z := 2.
Definition bytesUint8 : Z := 1.
Definition vertexPositionSize : Z := 3.
Definition vertexTexCoordSize : Z := 2.
Definition vertexColorSize : Z := 4.
Definition verticesPerQuad : Z := 4.
Definition indicesPerQuad : Z := 6.

(** The package-level variables. *)
Record Globals : Type := mkGlobals {
  quadVertices : list float32;
  quadTexCoords : list Z;
  quadColors : list Z;
  quadIndices : list Z;
  offsetVertices : Z;
  offsetTexCoords : Z;
  offsetColors : Z;
  vboBytesTotal : Z;
  programScreen : Z;
  programFramebuffer : Z;
  fbo : Z;
  fboTexture : Z;
  fboRenderbuffer : Z;
  vbo : Z;
  ibo : Z;
  attribVertexPosition : Z;
  attribVertexTexCoord : Z;
  attribVertexColor : Z
}.

Definition set_batch (vs : list float32) (ts cs ixs : list Z) (g : Globals) : Globals :=
  mkGlobals vs ts cs ixs
    (offsetVertices g) (offsetTexCoords g) (offsetColors g) (vboBytesTotal g)
    (programScreen g) (programFramebuffer g) (fbo g) (fboTexture g) (fboRenderbuffer g)
    (vbo g) (ibo g)
    (attribVertexPosition g) (attribVertexTexCoord g) (attribVertexColor g).

Definition set_layout (bytesTotal offV offT offC : Z) (g : Globals) : Globals :=
  mkGlobals (quadVertices g) (quadTexCoords g) (quadColors g) (quadIndices g)
    offV offT offC bytesTotal
    (programScreen g) (programFramebuffer g) (fbo g) (fboTexture g) (fboRenderbuffer g)
    (vbo g) (ibo g)
    (attribVertexPosition g) (attribVertexTexCoord g) (attribVertexColor g).

Definition set_handles (fbo' tex rb vbo' ibo' : Z) (g : Globals) : Globals :=
  mkGlobals (quadVertices g) (quadTexCoords g) (quadColors g) (quadIndices g)
    (offsetVertices g) (offsetTexCoords g) (offsetColors g) (vboBytesTotal g)
    (programScreen g) (programFramebuffer g) fbo' tex rb vbo' ibo'
    (attribVertexPosition g) (attribVertexTexCoord g) (attribVertexColor g).

Definition half : float32 := F32.of_decimal 5 1.

Definition makeQuadVertices (w h z : float32) : list float32 :=
  [ F32.mul w half; F32.mul h half; z;
    F32.neg (F32.mul w half); F32.mul h half; z;
    F32.neg (F32.mul w half); F32.neg (F32.mul h half); z;
    F32.mul w half; F32.neg (F32.mul h half); z ].

Definition makeQuadTextureCoord : list Z :=
  [ 1; 1;
    0; 1;
    0; 0;
    1; 0 ].

Definition makeQuadColors (r g b a : Z) : list Z :=
  [ r; g; b; a;
    r; g; b; a;
    r; g; b; a;
    r; g; b; a ].

Definition makeQuadIndices (g : Globals) : list Z :=
  let rectangleCount :=
    Int.div (len (quadVertices g)) (Int.mul verticesPerQuad vertexPositionSize) in
  let i := U16.mul (uint16 (Int.sub rectangleCount 1)) verticesPerQuad in
  [ i; U16.add i 1; U16.add i 2;
    i; U16.add i 2; U16.add i 3 ].

(** A [color.Color] is what its method [RGBA()] returns. *)
Record Color : Type := mkColor { RGBA : Z * Z * Z * Z }.

Definition drawRectangle (w h z : float32) (c : Color) (g : Globals) : Globals :=
  let g1 := set_batch (quadVertices g ++ makeQuadVertices w h z)
              (quadTexCoords g) (quadColors g) (quadIndices g) g in
  let g2 := set_batch (quadVertices g1) (quadTexCoords g1 ++ makeQuadTextureCoord)
              (quadColors g1) (quadIndices g1) g1 in
  let '(r, gr, b, a) := RGBA c in
  let g3 := set_batch (quadVertices g2) (quadTexCoords g2)
              (quadColors g2 ++ makeQuadColors r gr b a) (quadIndices g2) g2 in
  set_batch (quadVertices g3) (quadTexCoords g3) (quadColors g3)
    (quadIndices g3 ++ makeQuadIndices g3) g3.

Definition bindProxyScreen : M Globals unit :=
  g <- get ;;
  gl (UseProgram (programFramebuffer g)) ;;
  gl (BindFramebufferEXT FRAMEBUFFER_EXT (fbo g)) ;;
  gl (ClearColor (F32.of_decimal 5 1) (F32.of_decimal 5 1) (F32.of_decimal 5 1)
        (F32.of_Z 1)) ;;
  gl (Clear [COLOR_BUFFER_BIT; DEPTH_BUFFER_BIT]) ;;
  gl (Enable DEPTH_TEST).

Definition unbindProxyScreen : M Globals unit :=
  g <- get ;;
  gl (UseProgram (programScreen g)) ;;
  gl (BindFramebufferEXT FRAMEBUFFER_EXT 0) ;;
  gl (ClearColor (F32.of_Z 0) (F32.of_Z 0) (F32.of_Z 0) (F32.of_Z 1)) ;;
  gl (Clear [COLOR_BUFFER_BIT]) ;;
  gl (Disable DEPTH_TEST).

Definition renderProxyToScreen : M Globals unit := ret tt.

Definition draw : M Globals unit :=
  bindProxyScreen ;;
  g <- get ;;
  gl (BindBuffer ARRAY_BUFFER (vbo g)) ;;
  gl (BindBuffer ELEMENT_ARRAY_BUFFER (ibo g)) ;;
  gl (EnableVertexAttribArray (attribVertexPosition g)) ;;
  gl (EnableVertexAttribArray (attribVertexTexCoord g)) ;;
  gl (EnableVertexAttribArray (attribVertexColor g)) ;;
  gl (VertexAttribPointer (attribVertexPosition g) vertexPositionSize FLOAT false 0
        (offsetVertices g)) ;;
  gl (VertexAttribPointer (attribVertexTexCoord g) vertexTexCoordSize UNSIGNED_BYTE
        false 0 (offsetTexCoords g)) ;;
  gl (VertexAttribPointer (attribVertexColor g) vertexColorSize UNSIGNED_INT
        false 0 (offsetColors g)) ;;
  gl (DrawElements TRIANGLES (int32 (len (quadIndices g))) UNSIGNED_SHORT
        (Int.mul 0 bytesUint16)) ;;
  gl (BindBuffer ARRAY_BUFFER 0) ;;
  gl (BindBuffer ELEMENT_ARRAY_BUFFER 0) ;;
  gl (DisableVertexAttribArray (attribVertexPosition g)) ;;
  gl (DisableVertexAttribArray (attribVertexTexCoord g)) ;;
  gl (DisableVertexAttribArray (attribVertexColor g)) ;;
  unbindProxyScreen ;;
  renderProxyToScreen ;;
  checkGLError.

Definition attachTexture : M Globals unit :=
  name <- glget (GenTextures 1) ;;
  modify (fun g => set_handles (fbo g) (uint32 name) (fboRenderbuffer g) (vbo g) (ibo g) g) ;;
  g <- get ;;
  gl (BindTexture TEXTURE_2D (fboTexture g)) ;;
  gl (TexImage2D TEXTURE_2D 0 RGB windowWidth windowHeight 0 RGB UNSIGNED_BYTE NoData) ;;
  gl (TexParameteri TEXTURE_2D TEXTURE_MIN_FILTER NEAREST) ;;
  gl (TexParameteri TEXTURE_2D TEXTURE_MAG_FILTER NEAREST) ;;
  gl (BindTexture TEXTURE_2D 0) ;;
  gl (FramebufferTexture2DEXT FRAMEBUFFER_EXT COLOR_ATTACHMENT0 TEXTURE_2D (fboTexture g) 0).

Definition attachRenderbuffer : M Globals unit :=
  name <- glget (GenRenderbuffersEXT 1) ;;
  modify (fun g => set_handles (fbo g) (fboTexture g) (uint32 name) (vbo g) (ibo g) g) ;;
  g <- get ;;
  gl (BindRenderbufferEXT RENDERBUFFER_EXT (fboRenderbuffer g)) ;;
  gl (RenderbufferStorageEXT RENDERBUFFER_EXT DEPTH24_STENCIL8 windowWidth windowHeight) ;;
  gl (BindRenderbufferEXT RENDERBUFFER_EXT 0) ;;
  gl (FramebufferRenderbufferEXT FRAMEBUFFER_EXT DEPTH_STENCIL_ATTACHMENT
        RENDERBUFFER_EXT (fboRenderbuffer g)).

Definition FRAMEBUFFER_COMPLETE_EXT : Z := 36053.

Definition setupBuffers : M Globals unit :=
  g <- get ;;
  gl (UseProgram (programFramebuffer g)) ;;
  let bytesTotal :=
    Int.add (Int.add (Int.mul (len (quadVertices g)) bytesFloat32)
                     (Int.mul (len (quadTexCoords g)) bytesUint8))
            (Int.mul (len (quadColors g)) bytesUint32) in
  let offV := Int.mul 0 bytesFloat32 in
  let offT := Int.add offV (Int.mul (len (quadVertices g)) bytesFloat32) in
  let offC := Int.add offT (Int.mul (len (quadTexCoords g)) bytesUint8) in
  modify (set_layout bytesTotal offV offT offC) ;;
  name <- glget (GenFramebuffersEXT 1) ;;
  modify (fun g => set_handles (uint32 name) (fboTexture g) (fboRenderbuffer g)
                     (vbo g) (ibo g) g) ;;
  g <- get ;;
  gl (BindFramebufferEXT FRAMEBUFFER_EXT (fbo g)) ;;
  attachTexture ;;
  attachRenderbuffer ;;
  status <- glget (CheckFramebufferStatusEXT FRAMEBUFFER_EXT) ;;
  (if uint32 status =? FRAMEBUFFER_COMPLETE_EXT then ret tt
   else panic "Framebuffer (FBO) FATAL ERROR") ;;
  vbo' <- glget (GenBuffers 1) ;;
  ibo' <- glget (GenBuffers 1) ;;
  modify (fun g => set_handles (fbo g) (fboTexture g) (fboRenderbuffer g)
                     (uint32 vbo') (uint32 ibo') g) ;;
  g <- get ;;
  gl (BindBuffer ARRAY_BUFFER (vbo g)) ;;
  gl (BufferData ARRAY_BUFFER (vboBytesTotal g) NoData STATIC_DRAW) ;;
  gl (BufferSubData ARRAY_BUFFER (offsetVertices g)
        (Int.mul (len (quadVertices g)) bytesFloat32) (Floats (quadVertices g))) ;;
  gl (BufferSubData ARRAY_BUFFER (offsetTexCoords g)
        (Int.mul (len (quadTexCoords g)) bytesUint8) (Ints (quadTexCoords g))) ;;
  gl (BufferSubData ARRAY_BUFFER (offsetColors g)
        (Int.mul (len (quadColors g)) bytesUint32) (Ints (quadColors g))) ;;
  gl (BindBuffer ARRAY_BUFFER 0) ;;
  gl (BindBuffer ELEMENT_ARRAY_BUFFER (ibo g)) ;;
  gl (BufferData ELEMENT_ARRAY_BUFFER (Int.mul (len (quadIndices g)) bytesUint16)
        (Ints (quadIndices g)) STATIC_DRAW) ;;
  gl (BindBuffer ELEMENT_ARRAY_BUFFER 0) ;;
  gl (BindFramebufferEXT FRAMEBUFFER_EXT 0) ;;
  gl (UseProgram 0).

End GL32FB.

(** ** The quad batch with 32-bit indices

    The second program of [src/unnamed/part_001]: package-level position,
    colour and index arrays, no texture coordinates, indices of type
    [uint32]. *)

Module U32.
Definition add (a b : Z) : Z := uint32 (a + b).
Definition mul (a b : Z) : Z := uint32 (a * b).
End U32.

Module GL21Quad.

Import Diag GL GL.Notations.
Local Open Scope gl_scope.

Definition windowWidth : Z := 600.
Definition windowHeight : Z := 400.
Definition bytesFloat32 : Z := 4.
Definition bytesUint32 : Z := 4.
Definition vertexPositionSize : Z := 3.
Definition vertexColorSize : Z := 4.
Definition verticesPerQuad : Z := 4.
Definition indicesPerQuad : Z := 6.

(** The package-level variables. *)
Record Globals : Type := mkGlobals {
  program : Z;
  vbo : Z;
  ibo : Z;
  attribVertexPosition : Z;
  attribVertexColor : Z;
  quadVertices : list float32;
  quadColors : list Z;
  quadIndices : list Z
}.

Definition set_arrays (vs : list float32) (cs ixs : list Z) (g : Globals) : Globals :=
  mkGlobals (program g) (vbo g) (ibo g) (attribVertexPosition g) (attribVertexColor g)
    vs cs ixs.

Definition set_buffers (vbo' ibo' : Z) (g : Globals) : Globals :=
  mkGlobals (program g) vbo' ibo' (attribVertexPosition g) (attribVertexColor g)
    (quadVertices g) (quadColors g) (quadIndices g).

Definition half : float32 := F32.of_decimal 5 1.

Definition makeQuadVertices (w h z : float32) : list float32 :=
  [ F32.mul w half; F32.mul h half; z;
    F32.neg (F32.mul w half); F32.mul h half; z;
    F32.neg (F32.mul w half); F32.neg (F32.mul h half); z;
    F32.mul w half; F32.neg (F32.mul h half); z ].

Definition makeQuadColors (r g b a : Z) : list Z :=
  [ r; g; b; a;
    r; g; b; a;
    r; g; b; a;
    r; g; b; a ].

Definition makeQuadIndices (g : Globals) : list Z :=
  let rectangleCount :=
    Int.div (len (quadVertices g)) (Int.mul verticesPerQuad vertexPositionSize) in
  let i := U32.mul (uint32 (Int.sub rectangleCount 1)) verticesPerQuad in
  [ i; U32.add i 1; U32.add i 2;
    i; U32.add i 2; U32.add i 3 ].

(** A [color.Color] is what its method [RGBA()] returns. *)
Record Color : Type := mkColor { RGBA : Z * Z * Z * Z }.

Definition makeRectangle (w h z : float32) (c : Color) (g : Globals) : Globals :=
  let g1 := set_arrays (quadVertices g ++ makeQuadVertices w h z)
              (quadColors g) (quadIndices g) g in
  let '(r, gr, b, a) := RGBA c in
  let g2 := set_arrays (quadVertices g1) (quadColors g1 ++ makeQuadColors r gr b a)
              (quadIndices g1) g1 in
  set_arrays (quadVertices g2) (quadColors g2) (quadIndices g2 ++ makeQuadIndices g2) g2.

Definition draw : M Globals unit :=
  gl (Clear [COLOR_BUFFER_BIT; DEPTH_BUFFER_BIT]) ;;
  g <- get ;;
  gl (UseProgram (program g)) ;;
  gl (BindBuffer ARRAY_BUFFER (vbo g)) ;;
  gl (BindBuffer ELEMENT_ARRAY_BUFFER (ibo g)) ;;
  gl (EnableVertexAttribArray (attribVertexPosition g)) ;;
  gl (EnableVertexAttribArray (attribVertexColor g)) ;;
  gl (VertexAttribPointer (attribVertexPosition g) vertexPositionSize FLOAT false 0
        (Int.mul 0 bytesFloat32)) ;;
  gl (VertexAttribPointer (attribVertexColor g) vertexColorSize UNSIGNED_INT false 0
        (Int.mul (len (quadVertices g)) bytesFloat32)) ;;
  gl (DrawElements TRIANGLES (int32 (len (quadIndices g))) UNSIGNED_INT
        (Int.mul 0 bytesUint32)) ;;
  gl (BindBuffer ARRAY_BUFFER 0) ;;
  gl (BindBuffer ELEMENT_ARRAY_BUFFER 0) ;;
  gl (DisableVertexAttribArray (attribVertexPosition g)) ;;
  gl (DisableVertexAttribArray (attribVertexColor g)) ;;
  checkGLError.

Definition setupBuffers : M Globals unit :=
  g <- get ;;
  let bytesTotalSize :=
    Int.add (Int.mul (len (quadVertices g)) bytesFloat32)
            (Int.mul (len (quadColors g)) bytesUint32) in
  vbo' <- glget (GenBuffers 1) ;;
  ibo' <- glget (GenBuffers 1) ;;
  modify (set_buffers (uint32 vbo') (uint32 ibo')) ;;
  g <- get ;;
  gl (BindBuffer ARRAY_BUFFER (vbo g)) ;;
  gl (BufferData ARRAY_BUFFER bytesTotalSize NoData STATIC_DRAW) ;;
  gl (BufferSubData ARRAY_BUFFER (Int.mul 0 bytesFloat32)
        (Int.mul (len (quadVertices g)) bytesFloat32) (Floats (quadVertices g))) ;;
  gl (BufferSubData ARRAY_BUFFER (Int.mul (len (quadVertices g)) bytesFloat32)
        (Int.mul (len (quadColors g)) bytesUint32) (Ints (quadColors g))) ;;
  gl (BindBuffer ARRAY_BUFFER 0) ;;
  gl (BindBuffer ELEMENT_ARRAY_BUFFER (ibo g)) ;;
  gl (BufferData ELEMENT_ARRAY_BUFFER (Int.mul (len (quadIndices g)) bytesUint32)
        (Ints (quadIndices g)) STATIC_DRAW) ;;
  gl (BindBuffer ELEMENT_ARRAY_BUFFER 0).

End GL21Quad.

(** ** Vocabulary of the properties *)

Module Batch.

Import GLES20.

(** The arguments of one [DrawRectangle] call. *)
Record rect : Type := mkRect {
  rect_w : float32;
  rect_h : float32;
  rect_z : float32;
  rect_clr : NRGBA
}.

Definition append (q : ElementQuads) (r : rect) : ElementQuads :=
  DrawRectangle q (rect_w r) (rect_h r) (rect_z r) (rect_clr r).

(** The calls [DrawRectangle(r1); ...; DrawRectangle(rn)] on a fresh batch. *)
Definition drawAll (rs : list rect) : ElementQuads :=
  fold_left append rs newElementQuads.

(** Offsets of the two triangles [(v0,v1,v2)] and [(v0,v2,v3)]. *)
Definition quad_offsets : list Z := [0; 1; 2; 0; 2; 3].

(** The six indices of a quad whose first vertex is [baseIndex]. *)
Definition quad_at (baseIndex : Z) : list Z := map (Z.add baseIndex) quad_offsets.

(** The number of vertices a position stream holds. *)
Definition vertexCount (q : ElementQuads) : Z :=
  len (QuadVertices q) / vertexPositionSize.

(** Appending [r] to [q] emits the six indices of a quad whose first
    vertex is the vertex count of [q]. *)
Definition emits_own_quad (q : ElementQuads) (r : rect) : Prop :=
  QuadIndices (append q r) = QuadIndices q ++ quad_at (vertexCount q).

(** The largest value of an index stream (0 when it is empty). *)
Definition max_index (ixs : list Z) : Z := fold_right Z.max 0 ixs.

(** The quad at position [k] refers to its own four vertices only. *)
Definition self_contained (ixs : list Z) (k : nat) : Prop :=
  forall j : nat, (j < 6)%nat ->
    4 * Z.of_nat k <= nth (6 * k + j) ixs 0 <= 4 * Z.of_nat k + 3.

(** What a batch of [N] quads is expected to satisfy. *)
Definition indices_in_range (ixs : list Z) (N : nat) : Prop :=
  max_index ixs = 4 * Z.of_nat N - 1 /\
  forall k : nat, (k < N)%nat -> self_contained ixs k.

(** The number of quads a 16-bit index can address: [65536 / 4]. *)
Definition capacity : nat := Z.to_nat 16384.

(** What [makeQuadIndices] returns when the base index underflows. *)
Definition underflow_indices : list Z := [65532; 65533; 65534; 65532; 65534; 65535].

(** The unit quad at depth 0, in opaque white. *)
Definition unit_rect : rect :=
  mkRect (F32.of_Z 1) (F32.of_Z 1) (F32.of_Z 0) (mkNRGBA 255 255 255 255).

End Batch.

(** Running a computation: its result, the package-level variables and the
    world it leaves behind. *)

Module Run.

Import GL.

Definition result_of {St A} (m : M St A) (s : St) (w : World) : result A :=
  fst (fst (m s w)).

Definition state_after {St A} (m : M St A) (s : St) (w : World) : St :=
  snd (fst (m s w)).

Definition world_after {St A} (m : M St A) (s : St) (w : World) : World :=
  snd (m s w).

(** [m], started in [s] and [w], ends with the result [r] and the
    variables [s'], after issuing the calls [cs] and reading [k] answers;
    it prints nothing. *)
Definition steps {St A} (m : M St A) (s : St) (w : World)
    (r : result A) (s' : St) (cs : list call) (k : nat) : Prop :=
  m s w = (r, s', mkWorld (trace w ++ cs) (stdout w) (answers w) (k + asked w)).

(** A stage: a computation that completes whatever the world is, leaves
    variables that satisfy [P], and whose calls change the bindings by [f]
    and cause the events [evs]. *)
Definition stage {St} (m : M St unit) (s : St) (P : St -> Prop)
    (f : binding -> binding) (evs : binding -> list event) : Prop :=
  forall w, exists s' cs k,
    steps m s w (Ok tt) s' cs k /\
    P s' /\
    forall b, run b cs = (f b, evs b).

(** The calls [m] issues when started in [s] and [w]. *)
Definition calls_of {St A} (m : M St A) (s : St) (w : World) : list call :=
  skipn (List.length (trace w)) (trace (world_after m s w)).

(** [m] keeps the property [P] of the variables, also when it panics. *)
Definition preserves {St A} (m : M St A) (P : St -> Prop) : Prop :=
  forall s w, P s -> P (state_after m s w).

(** A world in which nothing has happened yet and every question is
    answered by [a]. *)
Definition quiet_world (a : Z) : World := mkWorld [] EmptyString (fun _ => a) 0.

(** The framebuffer bindings of a fresh context. *)
Definition initial_binding : binding :=
  mkBinding 0 0 (S754_zero false, S754_zero false, S754_zero false, S754_zero false).

End Run.

(** The end-to-end scenario of [load]. *)

Module Scenario.

Import GLES20 Batch.

(** The package-level variables before [main] assigns any of them. *)
Definition zero_globals : Globals :=
  mkGlobals (S754_zero false) (S754_zero false)
    (ContextScreen.mk newElementQuads 0 0 0 0 0 0)
    (ContextFramebuffer.mk 0 0)
    (ContextFramebufferMultisample.mk newElementQuads 0 0 0 0 0 0 0 0 0 0).

(** [needle] occurs in [hay]. *)
Fixpoint contains (needle hay : string) : bool :=
  String.prefix needle hay ||
  match hay with
  | EmptyString => false
  | String _ rest => contains needle rest
  end.

(** The batch holds [quads] quads, [vertices] vertices and [entries]
    index entries, and its summary reports the number of rectangles. *)
Definition summary (q : ElementQuads) (quads vertices entries : Z) : Prop :=
  Int.div (len (QuadIndices q)) indicesPerQuad = quads /\
  vertexCount q = vertices /\
  len (QuadIndices q) = entries /\
  contains ("Rectangles: " ++ Diag.fmt_int quads) (DebugPrint_text q) = true.

(** The package-level variables once [load] has run at start-up. *)
Definition loaded_globals : Globals :=
  Run.state_after load zero_globals (Run.quiet_world 0).

(** The variables with the content scale of a display set to 150%. *)
Definition scaled_150 (cs : ContextScreen.t) (cb : ContextFramebuffer.t)
    (cfm : ContextFramebufferMultisample.t) : Globals :=
  mkGlobals (F32.of_decimal 15 1) (F32.of_decimal 15 1) cs cb cfm.

(** The batch of the offscreen context once [load] has run. *)
Definition loaded_batch (g : Globals) (w : GL.World) : ElementQuads :=
  ContextFramebufferMultisample.quads
    (ctxFramebufferMultisample (Run.state_after load g w)).

End Scenario.

(** The frames of the three pipelines.  The loop of [main] calls [draw]
    once per iteration, between two calls into the window system;
    [gameloop n] is the sequence of its first [n] iterations. *)

Module Frames.

Import GL.

Definition zero : float32 := F32.of_Z 0.
Definition one : float32 := F32.of_Z 1.
Definition gray : float32 := F32.of_decimal 5 1.

(** The alpha component of every clear among [evs] is [a]. *)
Definition clears_with_alpha (a : float32) (evs : list event) : Prop :=
  Forall (fun e => match e with
                   | Cleared _ color _ => alpha color = a
                   | _ => True
                   end) evs.

(** The number of blits among [evs]. *)
Definition blits (evs : list event) : nat :=
  List.length (filter (fun e => match e with Blitted _ _ => true | _ => false end) evs).

Module Multisample.

Import GLES20.

Definition gameloop (n : nat) : M Globals unit := repeatM n draw.

(** The offscreen context of [g] with the colour stream [colors]. *)
Definition recolored (g : Globals) (colors : list Z) : Globals :=
  mkGlobals (dpiScaleX g) (dpiScaleY g) (ctxScreen g) (ctxBlitz g)
    (CFM_set_quads
       (set_QuadColors colors (CFM.quads (ctxFramebufferMultisample g)))
       (ctxFramebufferMultisample g)).

(** [g'] is [g] but for the colour stream of the offscreen batch. *)
Definition recoloring (g g' : Globals) : Prop :=
  exists colors, g' = recolored g colors.

(** The number of quads of the offscreen batch, as [draw] computes it. *)
Definition nQuads (g : Globals) : nat :=
  Z.to_nat (Int.div (len (QuadIndices (CFM.quads (ctxFramebufferMultisample g))))
              indicesPerQuad).

(** The colour stream [draw] builds for [n] quads from the answers of
    the random generator, read from position [start] on. *)
Fixpoint random_colors (answers : nat -> Z) (start : nat) (n : nat) : list Z :=
  match n with
  | O => []
  | S n' =>
      makeQuadColors
        (mkNRGBA (uint8 (answers start mod 255))
                 (uint8 (answers (1 + start)%nat mod 255))
                 (uint8 (answers (2 + start)%nat mod 255))
                 (uint8 1))
      ++ random_colors answers (3 + start) n'
  end.

(** What [n] frames leave of the variables [g0] they started from, where
    [g] differs from [g0] by the colour stream at most. *)
Definition after_frames (n : nat) (g g0 g' : Globals) : Prop :=
  match n with
  | O => g' = g0
  | S _ => exists a k, g' = recolored g (random_colors a k (nQuads g))
  end.

(** Offscreen clear and draw, resolve, screen clear and draw. *)
Definition frame_events (g : Globals) : list event :=
  let ms := ctxFramebufferMultisample g in
  [ Cleared (CFM.fbo ms) (gray, gray, gray, zero) [COLOR_BUFFER_BIT; DEPTH_BUFFER_BIT];
    Drawn (CFM.fbo ms) (int32 (len (QuadIndices (CFM.quads ms))));
    Blitted (CFM.fbo ms) (CF.fbo (ctxBlitz g));
    Cleared 0 (zero, zero, zero, zero) [COLOR_BUFFER_BIT];
    Drawn 0 (int32 (len (QuadIndices (CS.quads (ctxScreen g))))) ].

(** The streams and the layout of a batch, the colour stream apart. *)
Definition geometry (q : ElementQuads) : list float32 * list Z * list Z :=
  (QuadVertices q, QuadTexCoords q, QuadIndices q).

Definition layout (q : ElementQuads) : Z * Z * Z * Z * Z :=
  (OffsetVertices q, OffsetTexCoords q, OffsetColors q, OffsetIndices q, BytesTotal q).

(** A frame that takes [g] to [g'] leaves the batches as they were. *)
Definition batches_unchanged (g g' : Globals) : Prop :=
  CS.quads (ctxScreen g') = CS.quads (ctxScreen g) /\
  geometry (CFM.quads (ctxFramebufferMultisample g'))
    = geometry (CFM.quads (ctxFramebufferMultisample g)) /\
  layout (CFM.quads (ctxFramebufferMultisample g'))
    = layout (CFM.quads (ctxFramebufferMultisample g)) /\
  QuadColors (CFM.quads (ctxFramebufferMultisample g'))
    = QuadColors (CFM.quads (ctxFramebufferMultisample g)).

(** The same, the colour stream of the offscreen batch apart. *)
Definition batches_unchanged_but_colors (g g' : Globals) : Prop :=
  CS.quads (ctxScreen g') = CS.quads (ctxScreen g) /\
  geometry (CFM.quads (ctxFramebufferMultisample g'))
    = geometry (CFM.quads (ctxFramebufferMultisample g)) /\
  layout (CFM.quads (ctxFramebufferMultisample g'))
    = layout (CFM.quads (ctxFramebufferMultisample g)).

End Multisample.

Module SingleSample.

Import GL32MS.

Definition gameloop (n : nat) : M Globals unit := repeatM n draw.

(** Offscreen clear and draw, screen clear and draw. *)
Definition frame_events (g : Globals) : list event :=
  let fb := ctxFramebuffer g in
  [ Cleared (CF.fbo fb) (gray, gray, gray, one) [COLOR_BUFFER_BIT; DEPTH_BUFFER_BIT];
    Drawn (CF.fbo fb) (int32 (len (QuadIndices (CF.quads fb))));
    Cleared 0 (zero, zero, zero, one) [COLOR_BUFFER_BIT];
    Drawn 0 (int32 (len (QuadIndices (CS.quads (ctxScreen g))))) ].

End SingleSample.

Module Proxy.

Import GL32FB.

(** Offscreen clear and draw, screen clear. *)
Definition frame_events (g : Globals) : list event :=
  [ Cleared (fbo g) (gray, gray, gray, one) [COLOR_BUFFER_BIT; DEPTH_BUFFER_BIT];
    Drawn (fbo g) (int32 (len (quadIndices g)));
    Cleared 0 (zero, zero, zero, one) [COLOR_BUFFER_BIT] ].

(** The package-level variables before [main] assigns any of them, with
    the framebuffer name [name]. *)
Definition globals_with_fbo (name : Z) : Globals :=
  mkGlobals [] [] [] [] 0 0 0 0 0 0 name 0 0 0 0 0 0 0.

(** The batch after one call of [drawRectangle] with the unit quad in
    opaque red, whose [RGBA()] is (257, 0, 0, 257). *)
Definition one_rectangle : Globals :=
  drawRectangle (F32.of_Z 1) (F32.of_Z 1) (F32.of_Z 0)
    (mkColor (257, 0, 0, 257)) (globals_with_fbo 0).

End Proxy.

End Frames.

(** The packed layout. *)

Module Layout.

(** Two byte ranges [(offset, length)] do not overlap. *)
Definition apart (a b : Z * Z) : Prop :=
  fst a + snd a <= fst b \/ fst b + snd b <= fst a.

(** The ranges of the position, texture-coordinate and colour streams. *)
Definition ranges_GLES20 (q : GLES20.ElementQuads) : list (Z * Z) :=
  [ (GLES20.OffsetVertices q, len (GLES20.QuadVertices q) * 4);
    (GLES20.OffsetTexCoords q, len (GLES20.QuadTexCoords q) * 1);
    (GLES20.OffsetColors q, len (GLES20.QuadColors q) * 1) ].

Definition ranges_GL32FB (g : GL32FB.Globals) : list (Z * Z) :=
  [ (GL32FB.offsetVertices g, len (GL32FB.quadVertices g) * 4);
    (GL32FB.offsetTexCoords g, len (GL32FB.quadTexCoords g) * 1);
    (GL32FB.offsetColors g, len (GL32FB.quadColors g) * 4) ].

(** No two of the ranges overlap. *)
Definition non_overlapping (ranges : list (Z * Z)) : Prop :=
  ForallOrdPairs apart ranges.

(** The offsets are the running totals of the lengths, without padding. *)
Definition packed (ranges : list (Z * Z)) : Prop :=
  match ranges with
  | [(o1, l1); (o2, l2); (o3, l3)] => o1 = 0 /\ o2 = l1 /\ o3 = l1 + l2
  | _ => False
  end.

Definition total (ranges : list (Z * Z)) : Z :=
  fold_right (fun r acc => snd r + acc) 0 ranges.

End Layout.

(** What a batch holds, quad by quad. *)

Module Content.

Import GLES20 Batch.

(** The streams of the quads [rs], one after the other. *)
Definition positions_of (rs : list rect) : list float32 :=
  flat_map (fun r => makeQuadVertices (rect_w r) (rect_h r) (rect_z r)) rs.

Definition texcoords_of (rs : list rect) : list Z :=
  flat_map (fun _ => makeQuadTextureCoord) rs.

Definition colors_of (rs : list rect) : list Z :=
  flat_map (fun r => makeQuadColors (rect_clr r)) rs.

(** The indices of [N] quads: those of quad [k] start at [4 k] reduced to
    16 bits. *)
Definition indices_of (N : nat) : list Z :=
  flat_map (fun k => quad_at (uint16 (4 * Z.of_nat k))) (seq 0 N).

(** The six indices the next [DrawRectangle] call adds to [q]. *)
Definition emitted (q : ElementQuads) (r : rect) : list Z :=
  skipn (List.length (QuadIndices q)) (QuadIndices (append q r)).

(** A colour component the random generator can produce. *)
Definition random_component (c : Z) : Prop := 0 <= c <= 254.

(** Every fourth component of a colour stream, the alpha of a vertex, is 1. *)
Definition alpha_is_one (colors : list Z) : Prop :=
  forall i : nat, (4 * i + 3 < List.length colors)%nat -> nth (4 * i + 3) colors 0 = 1.

(** A stage that completes, keeps the variables and uploads nothing. *)
Definition quiet {St} (m : GL.M St unit) (s : St) : Prop :=
  forall w, exists cs k,
    Run.steps m s w (GL.Ok tt) s cs k /\
    filter (fun c => match c with
                     | GL.BufferData _ _ _ _ | GL.BufferSubData _ _ _ _ => true
                     | _ => false
                     end) cs = [].

(** What [int32(x)] evaluates to in the world [w], and the number of
    answers it reads: none when the truncated value fits. *)
Definition int32_answer (x : float32) (w : GL.World) : Z :=
  match F32.to_int32 x with
  | Some v => v
  | None => int32 (GL.answers w (GL.asked w))
  end.

Definition int32_asks (x : float32) : nat :=
  match F32.to_int32 x with
  | Some _ => 0%nat
  | None => 1%nat
  end.

(** The buffer uploads among the calls [cs]. *)
Definition uploads (cs : list GL.call) : list GL.call :=
  filter (fun c => match c with
                   | GL.BufferData _ _ _ _ | GL.BufferSubData _ _ _ _ => true
                   | _ => false
                   end) cs.

End Content.

(** What the frames of the multisample pipeline read, leave and upload. *)

Module Replay.

Import GL GLES20 Frames.Multisample.

(** The number of answers one frame reads: three of the random generator
    for every quad of the offscreen batch, then those of the two
    conversions of the resolve. *)
Definition asks_per_frame (g : Globals) : nat :=
  (3 * nQuads g
   + (Content.int32_asks (dpiScaleX g) + Content.int32_asks (dpiScaleY g)))%nat.

(** The colour stream frame [i] builds (the first frame is frame 0) when
    the frames start from the variables [g] in the world [w]. *)
Definition frame_colors (g : Globals) (w : World) (i : nat) : list Z :=
  random_colors (answers w) (i * asks_per_frame g + asked w) (nQuads g).

(** The variables [n] frames leave. *)
Definition after_frames (n : nat) (g : Globals) (w : World) : Globals :=
  match n with
  | O => g
  | S i => recolored g (frame_colors g w i)
  end.

(** The upload of the colour stream [colors] of the offscreen batch. *)
Definition color_upload (g : Globals) (colors : list Z) : call :=
  BufferSubData ARRAY_BUFFER
    (OffsetColors (CFM.quads (ctxFramebufferMultisample g)))
    (Int.mul (len colors) bytesUint8) (Ints colors).

End Replay.

(** The batches of the two packages with package-level arrays. *)

Module Arrays.

(** The arguments of one [drawRectangle] or [makeRectangle] call. *)
Record rect : Type := mkRect {
  rect_w : float32;
  rect_h : float32;
  rect_z : float32;
  rect_rgba : Z * Z * Z * Z
}.

Module Proxy.
Import GL32FB.

Definition append (g : Globals) (r : rect) : Globals :=
  drawRectangle (rect_w r) (rect_h r) (rect_z r) (mkColor (rect_rgba r)) g.

(** The calls [drawRectangle(r1); ...; drawRectangle(rn)] when the four
    arrays are empty, as they are declared. *)
Definition drawAll (g : Globals) (rs : list rect) : Globals :=
  fold_left append rs (set_batch [] [] [] [] g).

Definition colors_of (rs : list rect) : list Z :=
  flat_map (fun r => let '(r, g, b, a) := rect_rgba r in makeQuadColors r g b a) rs.

End Proxy.

Module Wide.
Import GL21Quad.

Definition append (g : Globals) (r : rect) : Globals :=
  makeRectangle (rect_w r) (rect_h r) (rect_z r) (mkColor (rect_rgba r)) g.

(** The calls [makeRectangle(r1); ...; makeRectangle(rn)] when the three
    arrays are empty, as they are declared. *)
Definition makeAll (g : Globals) (rs : list rect) : Globals :=
  fold_left append rs (set_arrays [] [] [] g).

(** The indices of [N] quads, without reduction. *)
Definition indices_of (N : nat) : list Z :=
  flat_map (fun k => Batch.quad_at (4 * Z.of_nat k)) (seq 0 N).

(** The number of quads a 32-bit index can address: [2^32 / 4]. *)
Definition capacity : Z := 2 ^ 30.

End Wide.

End Arrays.

(** ** Integer conversions *)

Section Wrap.

Lemma uint16_int (z : Z) : uint16 (int z) = uint16 z.
Proof.
  unfold uint16, int, wrapu, wraps.
  rewrite (Z.mod_eq (z + 2 ^ (64 - 1)) (2 ^ 64)) by lia.
  set (q := (z + 2 ^ (64 - 1)) / 2 ^ 64).
  replace (z + 2 ^ (64 - 1) - 2 ^ 64 * q - 2 ^ (64 - 1))
    with (z + (- q * 2 ^ 48) * 2 ^ 16) by lia.
  apply Z.mod_add. lia.
Qed.

Lemma int_small (z : Z) : is_int z -> int z = z.
Proof.
  unfold is_int, int, wraps. intros H.
  rewrite Z.mod_small; lia.
Qed.

Lemma uint16_small (z : Z) : 0 <= z < 65536 -> uint16 z = z.
Proof. intros H. unfold uint16, wrapu. apply Z.mod_small. lia. Qed.

Lemma uint16_range (z : Z) : 0 <= uint16 z < 65536.
Proof. unfold uint16, wrapu. apply Z.mod_pos_bound. lia. Qed.

(** A multiple of four reduced to 16 bits is a multiple of four below
    65533. *)
Lemma uint16_mul4 (k : Z) : uint16 (4 * k) = 4 * (k mod 16384).
Proof.
  unfold uint16, wrapu. change (2 ^ 16) with (4 * 16384).
  rewrite Z.mul_mod_distr_l by lia. reflexivity.
Qed.

End Wrap.

(** ** The batch builder *)

Section BatchBuilder.

Import GLES20 Batch.

Lemma uint16_int_sub (a b : Z) : uint16 (int a - b) = uint16 (a - b).
Proof.
  unfold uint16, wrapu.
  rewrite <- Zminus_mod_idemp_l.
  change ((int a) mod 2 ^ 16) with (uint16 (int a)).
  rewrite uint16_int. unfold uint16, wrapu.
  rewrite Zminus_mod_idemp_l. reflexivity.
Qed.

(** [makeQuadIndices] on a position stream that holds [k + 1] whole
    quads: the base is [4 * k] reduced to 16 bits, and adding the offsets
    does not wrap again. *)
Lemma makeQuadIndices_whole (k : Z) :
  0 <= k ->
  makeQuadIndices (12 * (k + 1)) = quad_at (uint16 (4 * k)).
Proof.
  intros Hk. unfold makeQuadIndices, quad_at, quad_offsets.
  assert (Hi : U16.mul (uint16 (Int.sub (Int.div (12 * (k + 1))
                 (Int.mul verticesPerQuad vertexPositionSize)) 1)) verticesPerQuad
               = uint16 (4 * k)).
  { unfold U16.mul, Int.sub, Int.div, Int.mul, verticesPerQuad, vertexPositionSize.
    change (int (4 * 3)) with 12.
    rewrite (Z.mul_comm 12), Z.quot_mul by lia.
    rewrite uint16_int, uint16_int_sub.
    unfold uint16, wrapu.
    rewrite Z.mul_mod_idemp_l by lia.
    f_equal. lia. }
  rewrite Hi. clear Hi.
  assert (Hr : 0 <= uint16 (4 * k) <= 65532).
  { rewrite uint16_mul4. pose proof (Z.mod_pos_bound k 16384). lia. }
  set (i := uint16 (4 * k)) in *.
  unfold U16.add. cbn [map].
  rewrite !(uint16_small (i + _)) by lia.
  rewrite Z.add_0_r. reflexivity.
Qed.

Lemma DrawRectangle_vertices q w h z clr :
  QuadVertices (DrawRectangle q w h z clr) = QuadVertices q ++ makeQuadVertices w h z.
Proof. reflexivity. Qed.

Lemma DrawRectangle_indices q w h z clr :
  QuadIndices (DrawRectangle q w h z clr)
  = QuadIndices q ++ makeQuadIndices (len (QuadVertices q) + 12).
Proof.
  unfold DrawRectangle. cbn [QuadIndices]. f_equal. f_equal.
  unfold len. rewrite length_app. cbn [makeQuadVertices List.length]. lia.
Qed.

Lemma drawAll_snoc rs r : drawAll (rs ++ [r]) = append (drawAll rs) r.
Proof. unfold drawAll. rewrite fold_left_app. reflexivity. Qed.

Lemma drawAll_len_vertices rs :
  len (QuadVertices (drawAll rs)) = 12 * Z.of_nat (List.length rs).
Proof.
  induction rs as [| r rs IH] using rev_ind; [reflexivity |].
  rewrite drawAll_snoc. unfold append. rewrite DrawRectangle_vertices.
  unfold len in *. rewrite !length_app. cbn [makeQuadVertices List.length]. lia.
Qed.

(** The indices a batch of [k] quads receives with the next quad. *)
Lemma append_indices rs r :
  QuadIndices (append (drawAll rs) r)
  = QuadIndices (drawAll rs) ++ quad_at (uint16 (4 * Z.of_nat (List.length rs))).
Proof.
  unfold append. rewrite DrawRectangle_indices, drawAll_len_vertices.
  replace (12 * Z.of_nat (List.length rs) + 12)
    with (12 * (Z.of_nat (List.length rs) + 1)) by lia.
  rewrite makeQuadIndices_whole by lia. reflexivity.
Qed.

Lemma drawAll_length_indices rs :
  List.length (QuadIndices (drawAll rs)) = (6 * List.length rs)%nat.
Proof.
  induction rs as [| r rs IH] using rev_ind; [reflexivity |].
  rewrite drawAll_snoc, append_indices, !length_app, IH.
  cbn [quad_at quad_offsets map List.length]. lia.
Qed.

End BatchBuilder.

(** ** Properties of the batch builder *)

Section BatchClaims.

Import GLES20 Batch.

Lemma capacity_Z : Z.of_nat capacity = 16384.
Proof. unfold capacity. rewrite Z2Nat.id; lia. Qed.

Lemma vertexCount_drawAll rs :
  vertexCount (drawAll rs) = 4 * Z.of_nat (List.length rs).
Proof.
  unfold vertexCount, vertexPositionSize. rewrite drawAll_len_vertices.
  replace (12 * Z.of_nat (List.length rs)) with (4 * Z.of_nat (List.length rs) * 3) by lia.
  apply Z.div_mul. lia.
Qed.

Lemma vertexCount_whole q (k : Z) :
  len (QuadVertices q) = 12 * k -> vertexCount q = 4 * k.
Proof.
  intros Hlen. unfold vertexCount, vertexPositionSize. rewrite Hlen.
  replace (12 * k) with (4 * k * 3) by lia. apply Z.div_mul. lia.
Qed.

(** The indices [DrawRectangle] adds to any batch whose position stream
    holds [k] whole quads, whatever its other streams hold. *)
Lemma append_indices_whole q r (k : Z) :
  0 <= k ->
  len (QuadVertices q) = 12 * k ->
  QuadIndices (append q r) = QuadIndices q ++ quad_at (uint16 (4 * k)).
Proof.
  intros Hk Hlen. unfold append. rewrite DrawRectangle_indices, Hlen.
  replace (12 * k + 12) with (12 * (k + 1)) by lia.
  rewrite makeQuadIndices_whole by lia. reflexivity.
Qed.

(** C1 (as amended).  A quad appended to a batch whose position stream
    holds [k] whole quads, as the batch built by [k] calls of
    [DrawRectangle] does, receives the six indices
    [baseIndex + {0,1,2,0,2,3}] whatever the index stream holds:
    [baseIndex] is computed from the length of the position stream.  It is
    the vertex count [4 k] reduced modulo 65536: the vertex count itself
    for [k < 16384], and another number from the 16385th quad on. *)
Theorem DrawRectangle_emits_own_quad (q : ElementQuads) (r : rect) (k : Z) :
  0 <= k ->
  len (QuadVertices q) = 12 * k ->
  vertexCount q = 4 * k /\
  QuadIndices (append q r) = QuadIndices q ++ quad_at (vertexCount q mod 65536) /\
  (k < 16384 -> emits_own_quad q r) /\
  (16384 <= k -> ~ emits_own_quad q r) /\
  (forall rs : list rect,
     len (QuadVertices (drawAll rs)) = 12 * Z.of_nat (List.length rs)).
Proof.
  intros Hk Hlen.
  pose proof (vertexCount_whole q k Hlen) as Hv.
  pose proof (append_indices_whole q r k Hk Hlen) as Hix.
  assert (Hmod : uint16 (4 * k) = (4 * k) mod 65536) by reflexivity.
  split; [exact Hv |]. split; [rewrite Hv, <- Hmod; exact Hix |].
  split; [| split].
  - intros Hcap. unfold emits_own_quad. rewrite Hix, Hv.
    rewrite uint16_small by lia. reflexivity.
  - intros Hcap Hown. unfold emits_own_quad in Hown. rewrite Hix, Hv in Hown.
    apply app_inv_head in Hown.
    pose proof (uint16_range (4 * k)) as Hr.
    apply (f_equal (fun ixs => hd 0 ixs)) in Hown.
    unfold quad_at, quad_offsets in Hown. cbn [map hd] in Hown. lia.
  - intros rs. apply drawAll_len_vertices.
Qed.

Lemma DrawRectangle_emits_own_quad_witness :
  let q := mkElementQuads
             (makeQuadVertices (F32.of_Z 2) (F32.of_Z 2) (F32.of_Z 0)
              ++ makeQuadVertices (F32.of_Z 1) (F32.of_Z 1) (F32.of_Z 0))
             [] [] 0 0 0 0 [] 0 in
  0 <= 2 /\
  len (QuadVertices q) = 12 * 2 /\
  QuadIndices (append q unit_rect) = [8; 9; 10; 8; 10; 11].
Proof.
  cbv zeta.
  set (q := mkElementQuads _ _ _ _ _ _ _ _ _).
  assert (H0 : 0 <= 2) by lia.
  assert (H1 : len (QuadVertices q) = 12 * 2) by reflexivity.
  assert (H2 : 2 < 16384) by lia.
  split; [exact H0 |]. split; [exact H1 |].
  exact (proj1 (proj2 (proj2 (DrawRectangle_emits_own_quad q unit_rect 2 H0 H1))) H2).
Defined.

(** C1 (as stated) fails for the quad that follows 16384 others: the
    16-bit base index wraps to 0, while the batch holds 65536 vertices. *)
Lemma DrawRectangle_wraps_after_capacity :
  ~ emits_own_quad (drawAll (repeat unit_rect capacity)) unit_rect.
Proof.
  unfold emits_own_quad. rewrite append_indices, vertexCount_drawAll.
  rewrite repeat_length, capacity_Z.
  intros H. apply app_inv_head in H. discriminate H.
Qed.

(** C2.  After [N] calls of [DrawRectangle] on a fresh batch the index
    stream has [6 N] entries, the position stream [12 N], the
    texture-coordinate stream [8 N] and the colour stream [16 N]. *)
Theorem drawAll_stream_lengths (rs : list rect) :
  let q := drawAll rs in
  let N := List.length rs in
  List.length (QuadIndices q) = (6 * N)%nat /\
  List.length (QuadVertices q) = (12 * N)%nat /\
  List.length (QuadTexCoords q) = (8 * N)%nat /\
  List.length (QuadColors q) = (16 * N)%nat.
Proof.
  cbv zeta. induction rs as [| r rs IH] using rev_ind.
  - repeat split.
  - destruct IH as (Hi & Hv & Ht & Hc).
    rewrite drawAll_snoc. unfold append at 1 2 3 4.
    rewrite DrawRectangle_indices. unfold DrawRectangle.
    cbn [QuadVertices QuadTexCoords QuadColors].
    rewrite !length_app, Hi, Hv, Ht, Hc.
    cbn [makeQuadIndices makeQuadVertices makeQuadTextureCoord makeQuadColors
         List.length].
    repeat split; lia.
Qed.

Lemma max_index_nonneg ixs : 0 <= max_index ixs.
Proof.
  induction ixs as [| i ixs IH]; cbn [max_index fold_right]; [lia |].
  fold (max_index ixs). lia.
Qed.

Lemma max_index_app a b : max_index (a ++ b) = Z.max (max_index a) (max_index b).
Proof.
  induction a as [| i a IH]; cbn [app max_index fold_right].
  - fold (max_index b). pose proof (max_index_nonneg b). lia.
  - fold (max_index (a ++ b)). fold (max_index a). rewrite IH. lia.
Qed.

Lemma max_index_quad_at i : 0 <= i -> max_index (quad_at i) = i + 3.
Proof.
  intros Hi. unfold quad_at, quad_offsets. cbn [map max_index fold_right]. lia.
Qed.

Lemma quad_at_range i j : (j < 6)%nat -> i <= nth j (quad_at i) 0 <= i + 3.
Proof.
  intros Hj. unfold quad_at, quad_offsets. cbn [map].
  do 6 (destruct j as [| j]; [cbn [nth]; lia |]). lia.
Qed.

(** The batch of [N <= 16384] quads, by induction on the calls. *)
Lemma drawAll_indices_in_range rs :
  (List.length rs <= capacity)%nat ->
  max_index (QuadIndices (drawAll rs))
    = (if Nat.eqb (List.length rs) 0 then 0 else 4 * Z.of_nat (List.length rs) - 1) /\
  forall k, (k < List.length rs)%nat -> self_contained (QuadIndices (drawAll rs)) k.
Proof.
  induction rs as [| r rs IH] using rev_ind.
  - intros _. split; [reflexivity |]. cbn [List.length]. intros k Hk. lia.
  - rewrite length_app. cbn [List.length]. intros Hcap.
    destruct IH as [Hmax Hself]; [lia |].
    pose proof capacity_Z as HC.
    rewrite drawAll_snoc, append_indices.
    rewrite uint16_small by lia.
    split.
    + rewrite max_index_app, Hmax, max_index_quad_at by lia.
      replace (Nat.eqb (List.length rs + 1) 0) with false
        by (symmetry; apply Nat.eqb_neq; lia).
      destruct (Nat.eqb (List.length rs) 0); lia.
    + intros k Hk j Hj.
      destruct (Nat.lt_ge_cases k (List.length rs)) as [Hlt | Hge].
      * rewrite app_nth1 by (rewrite drawAll_length_indices; lia).
        apply Hself; assumption.
      * assert (k = List.length rs) by lia. subst k.
        rewrite app_nth2 by (rewrite drawAll_length_indices; lia).
        rewrite drawAll_length_indices.
        replace (6 * List.length rs + j - 6 * List.length rs)%nat with j by lia.
        apply quad_at_range. assumption.
Qed.

(** C3 (as amended).  For [1 <= N <= 16384], after [N] quads have been
    appended to a fresh batch the largest index is [4 N - 1], and the six
    indices of the quad at position [k] lie within [[4k, 4k+3]]. *)
Theorem drawAll_indices_self_contained (rs : list rect) :
  (1 <= List.length rs <= capacity)%nat ->
  indices_in_range (QuadIndices (drawAll rs)) (List.length rs).
Proof.
  intros [Hpos Hcap].
  destruct (drawAll_indices_in_range rs Hcap) as [Hmax Hself].
  split; [| exact Hself].
  rewrite Hmax.
  replace (Nat.eqb (List.length rs) 0) with false
    by (symmetry; apply Nat.eqb_neq; lia).
  reflexivity.
Qed.

Lemma drawAll_indices_self_contained_witness :
  (1 <= List.length [unit_rect; unit_rect] <= capacity)%nat /\
  indices_in_range (QuadIndices (drawAll [unit_rect; unit_rect])) 2.
Proof.
  assert (H : (1 <= List.length [unit_rect; unit_rect] <= capacity)%nat).
  { pose proof capacity_Z. cbn [List.length]. lia. }
  split; [exact H |].
  exact (drawAll_indices_self_contained [unit_rect; unit_rect] H).
Defined.

(** C3 (as stated) fails for [N = 16385]: the last quad refers to the
    vertices 0..3 of the first one. *)
Lemma indices_alias_beyond_capacity :
  ~ indices_in_range
      (QuadIndices (drawAll (repeat unit_rect capacity ++ [unit_rect])))
      (S capacity).
Proof.
  intros [_ Hself].
  specialize (Hself capacity (Nat.lt_succ_diag_r capacity) 0%nat ltac:(lia)).
  rewrite drawAll_snoc, append_indices in Hself.
  rewrite app_nth2 in Hself by (rewrite drawAll_length_indices, repeat_length; lia).
  rewrite drawAll_length_indices, repeat_length in Hself.
  replace (6 * capacity + 0 - 6 * capacity)%nat with 0%nat in Hself by lia.
  rewrite capacity_Z in Hself.
  change (nth 0 (quad_at (uint16 (4 * 16384))) 0) with 0 in Hself.
  lia.
Qed.

(** C10.  When the position stream holds fewer than 12 scalars the
    rectangle count is 0, the base index [(0 - 1) * 4] wraps around
    modulo 2^16, and the indices start at 65532; no error is raised. *)
Theorem makeQuadIndices_underflow (n : Z) :
  0 <= n < 12 ->
  Int.div n (Int.mul verticesPerQuad vertexPositionSize) = 0 /\
  uint16 ((0 - 1) * 4) = 65532 /\
  GLES20.makeQuadIndices n = underflow_indices /\
  GL32MS.makeQuadIndices n = underflow_indices /\
  (forall g, len (GL32FB.quadVertices g) = n ->
             GL32FB.makeQuadIndices g = underflow_indices).
Proof.
  intros Hn.
  assert (Hrc : Int.div n (Int.mul verticesPerQuad vertexPositionSize) = 0).
  { unfold Int.div, Int.mul, verticesPerQuad, vertexPositionSize.
    change (int (4 * 3)) with 12. rewrite Z.quot_small by lia. reflexivity. }
  split; [exact Hrc |]. split; [reflexivity |].
  split; [| split].
  - unfold GLES20.makeQuadIndices. rewrite Hrc. reflexivity.
  - unfold GL32MS.makeQuadIndices.
    change (Int.mul GL32MS.verticesPerQuad GL32MS.vertexPositionSize)
      with (Int.mul verticesPerQuad vertexPositionSize).
    rewrite Hrc. reflexivity.
  - intros g Hg. unfold GL32FB.makeQuadIndices. rewrite Hg.
    change (Int.mul GL32FB.verticesPerQuad GL32FB.vertexPositionSize)
      with (Int.mul verticesPerQuad vertexPositionSize).
    rewrite Hrc. reflexivity.
Qed.

Lemma makeQuadIndices_underflow_witness :
  0 <= 0 < 12 /\ GLES20.makeQuadIndices 0 = underflow_indices.
Proof.
  assert (H : 0 <= 0 < 12) by lia.
  split; [exact H |].
  exact (proj1 (proj2 (proj2 (makeQuadIndices_underflow 0 H)))).
Defined.

End BatchClaims.

(** ** The end-to-end scenario *)

Section LoadClaims.

Import GL GLES20 Batch Run Scenario.

Lemma load_run g w :
  load g w =
  (Ok tt,
   mkGlobals (dpiScaleX g) (dpiScaleY g)
     (CS_set_quads
        (mkElementQuads
           [ F32.of_Z 1; F32.of_Z 1; F32.of_Z 0;
             F32.of_Z (-1); F32.of_Z 1; F32.of_Z 0;
             F32.of_Z (-1); F32.of_Z (-1); F32.of_Z 0;
             F32.of_Z 1; F32.of_Z (-1); F32.of_Z 0 ]
           makeQuadTextureCoord (quad_at 0) 0 0 0 0 [] 0)
        (ctxScreen g))
     (ctxBlitz g)
     (CFM_set_quads (blue_rectangle (red_rectangle newElementQuads))
        (ctxFramebufferMultisample g)),
   mkWorld (trace w)
     (stdout w ++ DebugPrint_text (blue_rectangle (red_rectangle newElementQuads)))
     (answers w) (asked w)).
Proof. reflexivity. Qed.

Lemma loaded_batch_eq g w :
  loaded_batch g w = blue_rectangle (red_rectangle newElementQuads).
Proof. unfold loaded_batch, state_after. rewrite load_run. reflexivity. Qed.

(** C5 (as amended).  Appending a 2x2 quad at depth -1.2 and then a 1x1
    quad at depth -1.1 to a fresh batch, as [load] does, yields 2 quads,
    8 vertices and 12 index entries; [load] does not fail, and the
    summary it prints reports "Rectangles: 2". *)
Theorem load_two_rectangles (g : Globals) (w : World) :
  result_of load g w = Ok tt /\
  loaded_batch g w = blue_rectangle (red_rectangle newElementQuads) /\
  summary (loaded_batch g w) 2 8 12 /\
  stdout (world_after load g w) = (stdout w ++ DebugPrint_text (loaded_batch g w))%string.
Proof.
  rewrite loaded_batch_eq. unfold result_of, world_after. rewrite load_run.
  repeat split.
Qed.

(** C5 (as stated) fails: the two quads have 12 index entries, not 48. *)
Lemma load_not_48_index_entries :
  ~ summary (loaded_batch zero_globals (quiet_world 0)) 2 8 48.
Proof.
  rewrite loaded_batch_eq. intros (_ & _ & H & _). discriminate H.
Qed.
End LoadClaims.

(** ** Reasoning about runs *)

Section Machinery.

Import GL GL.Notations Run.
Local Open Scope gl_scope.

Context {St : Type}.

Lemma run_app b cs1 cs2 :
  run b (cs1 ++ cs2)
  = (fst (run (fst (run b cs1)) cs2), snd (run b cs1) ++ snd (run (fst (run b cs1)) cs2)).
Proof.
  revert b. induction cs1 as [| c cs1 IH]; intros b; cbn [app run].
  - cbn [fst snd app]. destruct (run b cs2). reflexivity.
  - destruct (step b c) as [b1 e1]. rewrite IH.
    destruct (run b1 cs1) as [b2 e2]. cbn [fst snd].
    destruct (run b2 cs2) as [b3 e3]. cbn [fst snd].
    rewrite app_assoc. reflexivity.
Qed.

Lemma skipn_length_app {A} (l1 l2 : list A) : skipn (List.length l1) (l1 ++ l2) = l2.
Proof. induction l1 as [| x l1 IH]; [reflexivity | exact IH]. Qed.

Lemma steps_calls_of {A} (m : M St A) s w r s' cs k :
  steps m s w r s' cs k -> calls_of m s w = cs.
Proof.
  unfold steps, calls_of, world_after. intros H. rewrite H. cbn [snd trace].
  apply skipn_length_app.
Qed.

Lemma steps_result_of {A} (m : M St A) s w r s' cs k :
  steps m s w r s' cs k -> result_of m s w = r.
Proof. unfold steps, result_of. intros H. rewrite H. reflexivity. Qed.

Lemma steps_state_after {A} (m : M St A) s w r s' cs k :
  steps m s w r s' cs k -> state_after m s w = s'.
Proof. unfold steps, state_after. intros H. rewrite H. reflexivity. Qed.

Lemma steps_bind_ok {A B} (m : M St A) (f : A -> M St B) s w a s1 cs1 k1 r s2 cs2 k2 :
  steps m s w (Ok a) s1 cs1 k1 ->
  steps (f a) s1 (mkWorld (trace w ++ cs1) (stdout w) (answers w) (k1 + asked w))
    r s2 cs2 k2 ->
  steps (bind m f) s w r s2 (cs1 ++ cs2) (k2 + k1).
Proof.
  unfold steps, bind. intros H1 H2. rewrite H1, H2. cbn [trace stdout answers asked].
  rewrite app_assoc, Nat.add_assoc. reflexivity.
Qed.

Lemma steps_bind_panic {A B} (m : M St A) (f : A -> M St B) s w msg s1 cs1 k1 :
  steps m s w (Panic msg) s1 cs1 k1 ->
  steps (bind m f) s w (Panic msg) s1 cs1 k1.
Proof. unfold steps, bind. intros H1. rewrite H1. reflexivity. Qed.

Lemma steps_ret {A} (a : A) (s : St) w : steps (ret a) s w (Ok a) s [] 0.
Proof. unfold steps, ret. destruct w; cbn. rewrite app_nil_r. reflexivity. Qed.

Lemma steps_get (s : St) w : steps get s w (Ok s) s [] 0.
Proof. unfold steps, get. destruct w; cbn. rewrite app_nil_r. reflexivity. Qed.

Lemma steps_modify (f : St -> St) (s : St) w : steps (modify f) s w (Ok tt) (f s) [] 0.
Proof. unfold steps, modify. destruct w; cbn. rewrite app_nil_r. reflexivity. Qed.

Lemma steps_gl (c : call) (s : St) w : steps (gl c) s w (Ok tt) s [c] 0.
Proof. reflexivity. Qed.

Lemma steps_ask (s : St) w : steps ask s w (Ok (answers w (asked w))) s [] 1.
Proof. unfold steps, ask. destruct w; cbn. rewrite app_nil_r. reflexivity. Qed.

Lemma stage_seq (m1 m2 : M St unit) s (P1 P2 : St -> Prop) f1 e1 f2 e2 :
  stage m1 s P1 f1 e1 ->
  (forall s1, P1 s1 -> stage m2 s1 P2 f2 e2) ->
  stage (m1 ;; m2) s P2 (fun b => f2 (f1 b)) (fun b => e1 b ++ e2 (f1 b)).
Proof.
  intros H1 H2 w.
  destruct (H1 w) as (s1 & cs1 & k1 & Hs1 & HP1 & Hr1).
  destruct (H2 s1 HP1 (mkWorld (trace w ++ cs1) (stdout w) (answers w) (k1 + asked w)))
    as (s2 & cs2 & k2 & Hs2 & HP2 & Hr2).
  exists s2, (cs1 ++ cs2), (k2 + k1)%nat. split; [| split].
  - eapply steps_bind_ok; eassumption.
  - exact HP2.
  - intros b. rewrite run_app, Hr1. cbn [fst snd]. rewrite Hr2. reflexivity.
Qed.

Lemma stage_weaken (m : M St unit) s (P Q : St -> Prop) f e :
  stage m s P f e -> (forall s', P s' -> Q s') -> stage m s Q f e.
Proof.
  intros H HPQ w. destruct (H w) as (s' & cs & k & Hs & HP & Hr).
  exists s', cs, k. auto.
Qed.

Lemma stage_ext (m : M St unit) s (P : St -> Prop) f e f' e' :
  stage m s P f e ->
  (forall b, f b = f' b) -> (forall b, e b = e' b) ->
  stage m s P f' e'.
Proof.
  intros H Hf He w. destruct (H w) as (s' & cs & k & Hs & HP & Hr).
  exists s', cs, k. repeat split; try assumption.
  intros b. rewrite Hr, Hf, He. reflexivity.
Qed.

(** Preservation of a property of the variables. *)

Lemma preserves_bind {A B} (m : M St A) (f : A -> M St B) P :
  preserves m P -> (forall a, preserves (f a) P) -> preserves (bind m f) P.
Proof.
  unfold preserves, state_after, bind. intros Hm Hf s w HP.
  specialize (Hm s w HP). destruct (m s w) as [[[a | msg] s1] w1]; cbn [fst snd] in *.
  - apply Hf. exact Hm.
  - exact Hm.
Qed.

Lemma preserves_gl (c : call) P : preserves (gl (St := St) c) P.
Proof. intros s w HP. exact HP. Qed.

Lemma preserves_ask P : preserves (ask (St := St)) P.
Proof. intros s w HP. exact HP. Qed.

Lemma preserves_glget (c : call) P : preserves (glget (St := St) c) P.
Proof. intros s w HP. exact HP. Qed.

Lemma preserves_get P : preserves (get (St := St)) P.
Proof. intros s w HP. exact HP. Qed.

Lemma preserves_ret {A} (a : A) P : preserves (ret (St := St) a) P.
Proof. intros s w HP. exact HP. Qed.

Lemma preserves_panic {A} msg P : preserves (panic (St := St) (A := A) msg) P.
Proof. intros s w HP. exact HP. Qed.

Lemma preserves_modify (f : St -> St) (P : St -> Prop) :
  (forall s, P s -> P (f s)) -> preserves (modify f) P.
Proof. intros Hf s w HP. apply Hf. exact HP. Qed.

Lemma preserves_int32_of_float x P : preserves (int32_of_float (St := St) x) P.
Proof.
  unfold int32_of_float. destruct (F32.to_int32 x).
  - apply preserves_ret.
  - intros s w HP. exact HP.
Qed.

Lemma preserves_CheckGLError P : preserves (Diag.CheckGLError (St := St)) P.
Proof.
  unfold Diag.CheckGLError. apply preserves_bind; [apply preserves_glget |].
  intros a. destruct (uint32 a =? NO_ERROR); [apply preserves_ret |].
  unfold Diag.panic_GL_ERROR. destruct (Diag.GL_ERROR_LOOKUP _); apply preserves_panic.
Qed.

Lemma preserves_CheckGLFramebufferStatus P :
  preserves (Diag.CheckGLFramebufferStatus (St := St)) P.
Proof.
  unfold Diag.CheckGLFramebufferStatus. apply preserves_bind; [apply preserves_glget |].
  intros a. destruct (uint32 a =? FRAMEBUFFER_COMPLETE); [apply preserves_ret |].
  unfold Diag.panic_GL_Framebuffer_STATUS.
  destruct (Diag.GL_FRAMEBUFFER_STATUS_LOOKUP _); apply preserves_panic.
Qed.

End Machinery.

Ltac normalize_trace :=
  cbn; unfold GL.gl, GL.ret, GL.modify, GL.get;
  cbn [GL.trace GL.stdout GL.answers GL.asked];
  repeat rewrite <- app_assoc; cbn [app].

(** A stage without loops or questions, that leaves the variables alone. *)
Ltac straight_line :=
  let w := fresh "w" in
  intros w; eexists; eexists; exists 0%nat; split; [| split];
  [ unfold Run.steps; normalize_trace; reflexivity
  | reflexivity
  | intros ?; reflexivity ].

(** Follow a chain of binds whose links are primitive. *)
Ltac step_one :=
  cbv beta zeta; cbn [GL.trace GL.stdout GL.answers GL.asked];
  lazymatch goal with
  | |- Run.steps (GL.bind _ _) _ _ _ _ _ _ => eapply steps_bind_ok
  | |- Run.steps (GL.gl _) _ _ _ _ _ _ => apply steps_gl
  | |- Run.steps GL.get _ _ _ _ _ _ => apply steps_get
  | |- Run.steps (GL.modify _) _ _ _ _ _ _ => apply steps_modify
  | |- Run.steps GL.ask _ _ _ _ _ _ => apply steps_ask
  | |- Run.steps (GL.ret _) _ _ _ _ _ _ => apply steps_ret
  end.

Ltac step_through := repeat step_one.

Section MultisampleFrame.

Import GL GL.Notations Run GLES20 Frames Frames.Multisample.
Local Open Scope gl_scope.

Lemma ContextFramebufferMultisample_bind_stage g :
  stage ContextFramebufferMultisample_bind g (eq g)
    (fun b => mkBinding (CFM.fbo (ctxFramebufferMultisample g))
                (CFM.fbo (ctxFramebufferMultisample g)) (gray, gray, gray, zero))
    (fun b => [Cleared (CFM.fbo (ctxFramebufferMultisample g)) (gray, gray, gray, zero)
                 [COLOR_BUFFER_BIT; DEPTH_BUFFER_BIT]]).
Proof. straight_line. Qed.

Lemma ContextFramebuffer_bind_stage g g' :
  recoloring g g' ->
  stage ContextFramebuffer_bind g' (eq g')
    (fun b => mkBinding (CF.fbo (ctxBlitz g)) (CFM.fbo (ctxFramebufferMultisample g))
                (clear_color b))
    (fun b => []).
Proof. intros [colors ->]. straight_line. Qed.

Lemma ContextScreen_bind_stage g :
  stage ContextScreen_bind g (eq g)
    (fun b => mkBinding 0 0 (zero, zero, zero, zero))
    (fun b => [Cleared 0 (zero, zero, zero, zero) [COLOR_BUFFER_BIT]]).
Proof. straight_line. Qed.

Lemma ContextScreen_draw_stage g g' :
  recoloring g g' ->
  stage ContextScreen_draw g' (eq g')
    (fun b => b)
    (fun b => [Drawn (draw_fb b) (int32 (len (QuadIndices (CS.quads (ctxScreen g)))))]).
Proof. intros [colors ->]. straight_line. Qed.

Lemma scaledWindowSize_steps g w :
  exists wh k, steps scaledWindowSize g w (Ok wh) g [] k.
Proof.
  unfold scaledWindowSize, int32_of_float, steps. cbn.
  destruct (F32.to_int32 (dpiScaleX g)) as [sx |];
    destruct (F32.to_int32 (dpiScaleY g)) as [sy |]; cbn;
    eexists; [exists 0%nat | exists 1%nat | exists 1%nat | exists 2%nat];
    rewrite app_nil_r; destruct w; reflexivity.
Qed.

Lemma ContextFramebuffer_draw_stage g :
  stage ContextFramebuffer_draw g (eq g)
    (fun b => b)
    (fun b => [Blitted (read_fb b) (draw_fb b)]).
Proof.
  intros w. destruct (scaledWindowSize_steps g w) as (wh & k & H).
  exists g. eexists. exists (0 + k)%nat. split; [| split].
  - unfold ContextFramebuffer_draw. eapply steps_bind_ok; [exact H | apply steps_gl].
  - reflexivity.
  - intros b. reflexivity.
Qed.

Lemma length_random_colors answers start n :
  List.length (random_colors answers start n) = (16 * n)%nat.
Proof.
  revert start. induction n as [| n IH]; intros start; [reflexivity |].
  cbn [random_colors]. rewrite length_app, IH. cbn [makeQuadColors List.length]. lia.
Qed.

(** The loop of [ContextFramebufferMultisample.draw] that picks a random
    colour for every quad. *)
Lemma randomize_loop n g0 c0 w :
  steps
    (repeatM n
       (clr <- RandomColorInRGBA ;;
        with_multisample (fun c =>
          CFM_set_quads
            (set_QuadColors (QuadColors (CFM.quads c) ++ makeQuadColors clr) (CFM.quads c))
            c)))
    (recolored g0 c0) w (Ok tt)
    (recolored g0 (c0 ++ random_colors (answers w) (asked w) n)) [] (3 * n).
Proof.
  revert c0 w. induction n as [| n IH]; intros c0 w.
  - cbn [repeatM random_colors]. rewrite app_nil_r. apply steps_ret.
  - cbn [repeatM random_colors].
    replace (3 * S n)%nat with (3 * n + 3)%nat by lia.
    change (@nil call) with (@nil call ++ @nil call).
    eapply steps_bind_ok.
    + unfold steps. cbn. rewrite app_nil_r. reflexivity.
    + rewrite app_assoc. apply IH.
Qed.

Lemma ContextFramebufferMultisample_draw_stage g :
  stage ContextFramebufferMultisample_draw g
    (fun g' => exists a k, g' = recolored g (random_colors a k (nQuads g)))
    (fun b => b)
    (fun b => [Drawn (draw_fb b)
                 (int32 (len (QuadIndices (CFM.quads (ctxFramebufferMultisample g)))))]).
Proof.
  intros w. eexists. eexists. eexists. split; [| split].
  - unfold ContextFramebufferMultisample_draw, with_multisample.
    step_through.
    apply (randomize_loop _ g []).
  - cbn [app trace answers asked]. eexists. eexists. reflexivity.
  - intros b. reflexivity.
Qed.

(** One frame: its events, whatever the bindings were before, and the
    variables it leaves. *)
Lemma draw_stage g :
  stage draw g
    (fun g' => exists a k, g' = recolored g (random_colors a k (nQuads g)))
    (fun b => mkBinding 0 0 (zero, zero, zero, zero))
    (fun b => frame_events g).
Proof.
  unfold draw.
  eapply stage_ext.
  - eapply stage_seq; [apply ContextFramebufferMultisample_bind_stage |].
    intros g1 <-.
    eapply stage_seq; [apply ContextFramebufferMultisample_draw_stage |].
    intros g2 (a & k & ->).
    assert (Hre : recoloring g (recolored g (random_colors a k (nQuads g))))
      by (eexists; reflexivity).
    eapply stage_seq; [apply (ContextFramebuffer_bind_stage g _ Hre) |].
    intros g3 <-.
    eapply stage_seq; [apply ContextFramebuffer_draw_stage |].
    intros g4 <-.
    eapply stage_seq; [apply ContextScreen_bind_stage |].
    intros g5 <-.
    eapply stage_weaken; [apply (ContextScreen_draw_stage g _ Hre) |].
    intros g6 <-. exact (ex_intro _ a (ex_intro _ k eq_refl)).
  - intros b. reflexivity.
  - intros b. reflexivity.
Qed.

Lemma gameloop_stage n : forall g g0,
  recoloring g g0 ->
  stage (gameloop n) g0 (after_frames n g g0)
    (fun b => match n with O => b | S _ => mkBinding 0 0 (zero, zero, zero, zero) end)
    (fun b => List.concat (repeat (frame_events g) n)).
Proof.
  induction n as [| n IH]; intros g g0 Hre.
  - intros w. exists g0, [], 0%nat. split; [apply steps_ret |].
    split; [reflexivity | intros b; reflexivity].
  - destruct Hre as [c0 ->].
    change (gameloop (S n)) with (draw ;; gameloop n)%gl.
    eapply stage_ext.
    + eapply stage_seq; [exact (draw_stage (recolored g c0)) |].
      intros g1 (a & k & ->).
      eapply stage_weaken.
      * apply (IH g). eexists. reflexivity.
      * intros g2 H2. destruct n as [| n]; cbn [after_frames] in *.
        -- subst g2. exists a, k. reflexivity.
        -- exact H2.
    + intros b. destruct n; reflexivity.
    + intros b. reflexivity.
Qed.

Lemma recoloring_refl g : recoloring g g.
Proof.
  exists (QuadColors (CFM.quads (ctxFramebufferMultisample g))).
  destruct g as [sx sy cs cb cfm]. destruct cfm as [q p f t r v i va a1 a2 a3].
  destruct q. reflexivity.
Qed.

(** The run of [n] frames. *)
Lemma gameloop_run n g w :
  exists g' cs k,
    steps (gameloop n) g w (Ok tt) g' cs k /\
    after_frames n g g g' /\
    forall b, events b cs = List.concat (repeat (frame_events g) n).
Proof.
  destruct (gameloop_stage n g g (recoloring_refl g) w) as (g' & cs & k & Hs & HP & Hr).
  exists g', cs, k. repeat split; try assumption.
  intros b. unfold events. rewrite Hr. reflexivity.
Qed.

End MultisampleFrame.

Section SingleSampleFrame.

Import GL GL.Notations Run Frames.
Local Open Scope gl_scope.

(** [checkGLError] polls the binding once, and panics or not. *)
Lemma checkGLError_steps {St} (s : St) w :
  steps Diag.checkGLError s w (result_of Diag.checkGLError s w) s [GetError] 1.
Proof.
  unfold steps, result_of, Diag.checkGLError, Diag.CheckGLError, Diag.panic_GL_ERROR.
  cbn.
  destruct (uint32 (answers w (asked w)) =? NO_ERROR); [reflexivity |].
  destruct (Diag.GL_ERROR_LOOKUP (uint32 (answers w (asked w)))); reflexivity.
Qed.

Import GL32MS Frames.SingleSample.

(** One frame of the single-sample pipeline. *)
Lemma single_draw_steps g w :
  exists r cs k,
    steps draw g w r g cs k /\
    forall b, run b cs = (mkBinding 0 0 (zero, zero, zero, one), frame_events g).
Proof.
  eexists. eexists. eexists. split.
  - unfold draw, ContextFramebuffer_bind, ContextFramebuffer_draw,
      ContextScreen_bind, ContextScreen_draw.
    step_through. apply checkGLError_steps.
  - intros b. reflexivity.
Qed.

(** The run of [n] frames: [m] of them are rendered, all of them unless
    [checkGLError] panics at the end of frame [m]. *)
Lemma single_gameloop_run n : forall g w,
  exists r cs k m,
    steps (gameloop n) g w r g cs k /\
    (m <= n)%nat /\
    (r = Ok tt -> m = n) /\
    forall b, events b cs = List.concat (repeat (frame_events g) m).
Proof.
  induction n as [| n IH]; intros g w.
  - exists (Ok tt), [], 0%nat, 0%nat. split; [apply steps_ret |].
    repeat split; try lia. 
  - destruct (single_draw_steps g w) as (r1 & cs1 & k1 & Hs1 & Hr1).
    change (gameloop (S n)) with (draw ;; gameloop n).
    destruct r1 as [[] | msg].
    + destruct (IH g (mkWorld (trace w ++ cs1) (stdout w) (answers w) (k1 + asked w)))
        as (r & cs & k & m & Hs & Hle & Hok & Hev).
      exists r, (cs1 ++ cs), (k + k1)%nat, (S m). split; [| split; [| split]].
      * eapply steps_bind_ok; eassumption.
      * lia.
      * intros Hr. rewrite (Hok Hr). reflexivity.
      * intros b. unfold events in *. rewrite run_app, Hr1. cbn [fst snd repeat List.concat].
        rewrite Hev. reflexivity.
    + exists (Panic msg), cs1, k1, 1%nat. split; [| split; [| split]].
      * apply steps_bind_panic. exact Hs1.
      * lia.
      * discriminate.
      * intros b. unfold events. rewrite Hr1. cbn [snd repeat List.concat].
        rewrite app_nil_r. reflexivity.
Qed.

Lemma blits_app l1 l2 : blits (l1 ++ l2) = (blits l1 + blits l2)%nat.
Proof. unfold blits. rewrite filter_app, length_app. reflexivity. Qed.

Lemma blits_frames l n : blits (List.concat (repeat l n)) = (n * blits l)%nat.
Proof.
  induction n as [| n IH]; [reflexivity |].
  cbn [repeat List.concat]. rewrite blits_app, IH. lia.
Qed.

(** Blit events come from blit calls, one each. *)
Lemma blits_events cs : forall b,
  blits (events b cs) = List.length (filter is_blit cs).
Proof.
  induction cs as [| c cs IH]; intros b; [reflexivity |].
  unfold events. cbn [run].
  destruct (step b c) as [b1 e1] eqn:Hstep.
  specialize (IH b1). unfold events in IH.
  destruct (run b1 cs) as [b2 e2]. cbn [snd] in *.
  rewrite blits_app, IH. cbn [filter].
  assert (He : blits e1 = if is_blit c then 1%nat else 0%nat).
  { destruct c; try (destruct target); cbn in Hstep;
      inversion Hstep; subst; reflexivity. }
  rewrite He. destruct (is_blit c); reflexivity.
Qed.

Lemma no_blit_calls cs :
  List.length (filter is_blit cs) = 0%nat ->
  forallb (fun c => negb (is_blit c)) cs = true.
Proof.
  induction cs as [| c cs IH]; [reflexivity |].
  cbn [filter forallb]. destruct (is_blit c); cbn [List.length negb andb].
  - discriminate.
  - exact IH.
Qed.

Lemma clears_with_alpha_frames a l n :
  clears_with_alpha a l -> clears_with_alpha a (List.concat (repeat l n)).
Proof.
  intros Hl. unfold clears_with_alpha in *.
  induction n as [| n IH]; cbn [repeat List.concat]; [constructor |].
  apply Forall_app. split; assumption.
Qed.

End SingleSampleFrame.

(** ** The frames of the multisample pipeline, answer by answer *)

Lemma steps_int32_of_float {St} (x : float32) (s : St) (w : GL.World) :
  Run.steps (GL.int32_of_float x) s w
    (GL.Ok (Content.int32_answer x w)) s [] (Content.int32_asks x).
Proof.
  unfold Run.steps, GL.int32_of_float, Content.int32_answer, Content.int32_asks.
  destruct (F32.to_int32 x); destruct w; cbn; rewrite app_nil_r; reflexivity.
Qed.

Section FrameReplay.

Import GL GL.Notations Run GLES20 Frames Frames.Multisample Content Replay.
Local Open Scope gl_scope.

Lemma steps_seq {St A B} (m1 : M St A) (m2 : M St B) s w a s1 cs1 k1 r s2 cs2 k2 :
  steps m1 s w (Ok a) s1 cs1 k1 ->
  steps m2 s1 (mkWorld (trace w ++ cs1) (stdout w) (answers w) (k1 + asked w))
    r s2 cs2 k2 ->
  steps (m1 ;; m2) s w r s2 (cs1 ++ cs2) (k2 + k1).
Proof. intros H1 H2. exact (steps_bind_ok m1 (fun _ => m2) _ _ _ _ _ _ _ _ _ _ H1 H2). Qed.

Lemma uploads_app cs1 cs2 : uploads (cs1 ++ cs2) = uploads cs1 ++ uploads cs2.
Proof. apply filter_app. Qed.

Lemma steps_asked {St A} (m : M St A) s w r s' cs k k' :
  k = k' -> steps m s w r s' cs k -> steps m s w r s' cs k'.
Proof. intros ->. exact (fun H => H). Qed.

Lemma steps_final {St A} (m : M St A) s w r s1 s2 cs k k' :
  steps m s w r s1 cs k -> s1 = s2 -> k = k' -> steps m s w r s2 cs k'.
Proof. intros H -> ->. exact H. Qed.

Ltac silent_line :=
  eexists; split; [unfold Run.steps; normalize_trace; reflexivity | reflexivity].

Lemma multisample_bind_silent g w :
  exists cs, steps ContextFramebufferMultisample_bind g w (Ok tt) g cs 0 /\ uploads cs = [].
Proof. silent_line. Qed.

Lemma blit_bind_silent g w :
  exists cs, steps ContextFramebuffer_bind g w (Ok tt) g cs 0 /\ uploads cs = [].
Proof. silent_line. Qed.

Lemma screen_bind_silent g w :
  exists cs, steps ContextScreen_bind g w (Ok tt) g cs 0 /\ uploads cs = [].
Proof. silent_line. Qed.

Lemma screen_draw_silent g w :
  exists cs, steps ContextScreen_draw g w (Ok tt) g cs 0 /\ uploads cs = [].
Proof. silent_line. Qed.

Lemma blit_draw_silent g w :
  exists cs,
    steps ContextFramebuffer_draw g w (Ok tt) g cs
      (int32_asks (dpiScaleX g) + int32_asks (dpiScaleY g)) /\
    uploads cs = [].
Proof.
  eexists. split.
  - eapply steps_asked; [| unfold ContextFramebuffer_draw, scaledWindowSize;
                           repeat first [ step_one | apply steps_int32_of_float ] ].
    lia.
  - reflexivity.
Qed.

(** The offscreen draw: the colours it builds are the answers of the
    generator, read from the first unread one on, and it uploads them. *)
Lemma multisample_draw_exact g w :
  exists cs,
    steps ContextFramebufferMultisample_draw g w (Ok tt)
      (recolored g (random_colors (answers w) (asked w) (nQuads g))) cs (3 * nQuads g) /\
    uploads cs
    = [color_upload g (random_colors (answers w) (asked w) (nQuads g))].
Proof.
  eexists. split.
  - eapply steps_final.
    + unfold ContextFramebufferMultisample_draw, with_multisample.
      step_through. apply (randomize_loop _ g []).
    + reflexivity.
    + unfold nQuads. lia.
  - reflexivity.
Qed.

(** One frame, from variables that differ from [g] by the colour stream. *)
Lemma draw_exact g c0 w :
  exists cs,
    steps draw (recolored g c0) w (Ok tt)
      (recolored g (random_colors (answers w) (asked w) (nQuads g))) cs
      (asks_per_frame g) /\
    uploads cs = [color_upload g (random_colors (answers w) (asked w) (nQuads g))].
Proof.
  destruct (multisample_bind_silent (recolored g c0) w) as (cs1 & Hs1 & Hu1).
  destruct (multisample_draw_exact (recolored g c0)
              (mkWorld (trace w ++ cs1) (stdout w) (answers w) (0 + asked w)))
    as (cs2 & Hs2 & Hu2).
  cbn [answers asked Nat.add] in Hs2, Hu2.
  set (g1 := recolored g (random_colors (answers w) (asked w) (nQuads g))).
  change (recolored (recolored g c0)
            (random_colors (answers w) (asked w) (nQuads (recolored g c0))))
    with g1 in Hs2.
  change (color_upload (recolored g c0)
            (random_colors (answers w) (asked w) (nQuads (recolored g c0))))
    with (color_upload g (random_colors (answers w) (asked w) (nQuads g))) in Hu2.
  change (nQuads (recolored g c0)) with (nQuads g) in Hs2.
  match type of Hs2 with
  | steps _ _ ?w2 _ _ _ ?k2 =>
      destruct (blit_bind_silent g1
                  (mkWorld (trace w2 ++ cs2) (stdout w2) (answers w2) (k2 + asked w2)))
        as (cs3 & Hs3 & Hu3)
  end.
  match type of Hs3 with
  | steps _ _ ?w3 _ _ _ ?k3 =>
      destruct (blit_draw_silent g1
                  (mkWorld (trace w3 ++ cs3) (stdout w3) (answers w3) (k3 + asked w3)))
        as (cs4 & Hs4 & Hu4)
  end.
  match type of Hs4 with
  | steps _ _ ?w4 _ _ _ ?k4 =>
      destruct (screen_bind_silent g1
                  (mkWorld (trace w4 ++ cs4) (stdout w4) (answers w4) (k4 + asked w4)))
        as (cs5 & Hs5 & Hu5)
  end.
  match type of Hs5 with
  | steps _ _ ?w5 _ _ _ ?k5 =>
      destruct (screen_draw_silent g1
                  (mkWorld (trace w5 ++ cs5) (stdout w5) (answers w5) (k5 + asked w5)))
        as (cs6 & Hs6 & Hu6)
  end.
  exists (cs1 ++ cs2 ++ cs3 ++ cs4 ++ cs5 ++ cs6). split.
  - eapply steps_asked;
      [| exact (steps_seq _ _ _ _ _ _ _ _ _ _ _ _ Hs1
                 (steps_seq _ _ _ _ _ _ _ _ _ _ _ _ Hs2
                    (steps_seq _ _ _ _ _ _ _ _ _ _ _ _ Hs3
                       (steps_seq _ _ _ _ _ _ _ _ _ _ _ _ Hs4
                          (steps_seq _ _ _ _ _ _ _ _ _ _ _ _ Hs5 Hs6))))) ].
    subst g1. unfold asks_per_frame. cbn [dpiScaleX dpiScaleY recolored].
    change (nQuads (recolored g c0)) with (nQuads g). lia.
  - rewrite !uploads_app, Hu1, Hu2, Hu3, Hu4, Hu5, Hu6. reflexivity.
Qed.

(** [n] frames, from variables that differ from [g] by the colour stream. *)
Lemma gameloop_exact n : forall g c0 w,
  exists cs,
    steps (gameloop n) (recolored g c0) w (Ok tt)
      (match n with
       | O => recolored g c0
       | S i => recolored g (frame_colors g w i)
       end) cs (n * asks_per_frame g) /\
    uploads cs
    = map (fun i => color_upload g (frame_colors g w i)) (seq 0 n).
Proof.
  induction n as [| n IH]; intros g c0 w.
  - exists []. split; [apply steps_ret | reflexivity].
  - destruct (draw_exact g c0 w) as (cs1 & Hs1 & Hu1).
    destruct (IH g (random_colors (answers w) (asked w) (nQuads g))
                (mkWorld (trace w ++ cs1) (stdout w) (answers w)
                   (asks_per_frame g + asked w)))
      as (cs2 & Hs2 & Hu2).
    assert (Hshift : forall i,
               frame_colors g
                 (mkWorld (trace w ++ cs1) (stdout w) (answers w)
                    (asks_per_frame g + asked w)) i
               = frame_colors g w (S i)).
    { intros i. unfold frame_colors. cbn [answers asked]. f_equal. lia. }
    exists (cs1 ++ cs2). split.
    + change (gameloop (S n)) with (draw ;; gameloop n).
      eapply steps_asked; [| eapply steps_seq; [exact Hs1 |] ].
      * cbn [Nat.mul]. apply Nat.add_comm.
      * destruct n as [| n].
        -- unfold frame_colors. cbn [Nat.mul Nat.add]. exact Hs2.
        -- rewrite <- Hshift. exact Hs2.
    + rewrite uploads_app, Hu1, Hu2.
      cbn [seq map app].
      change (random_colors (answers w) (asked w) (nQuads g))
        with (frame_colors g w 0).
      apply f_equal.
      rewrite <- seq_shift, map_map. apply map_ext. intros i.
      rewrite Hshift. reflexivity.
Qed.

End FrameReplay.

(** ** Properties of the per-frame pipeline *)

Section PipelineClaims.

Import GL Run Frames.

Lemma proxy_draw_steps g w :
  exists r cs k,
    steps GL32FB.draw g w r g cs k /\
    forall b, run b cs = (mkBinding 0 0 (zero, zero, zero, one), Proxy.frame_events g).
Proof.
  eexists. eexists. eexists. split.
  - unfold GL32FB.draw, GL32FB.bindProxyScreen, GL32FB.unbindProxyScreen,
      GL32FB.renderProxyToScreen.
    step_through. apply checkGLError_steps.
  - intros b. reflexivity.
Qed.

(** C7 (as amended).  In the multisample pipeline every clear, of the
    offscreen target and of the screen, sets the alpha component of the
    clear colour to 0; in the two single-sample pipelines every clear sets
    it to 1. *)
Theorem clear_alpha_by_pipeline :
  (forall n g w b,
      clears_with_alpha zero (events b (calls_of (Multisample.gameloop n) g w))) /\
  (forall n g w b,
      clears_with_alpha one (events b (calls_of (SingleSample.gameloop n) g w))) /\
  (forall g w b,
      clears_with_alpha one (events b (calls_of GL32FB.draw g w))).
Proof.
  split; [| split].
  - intros n g w b.
    destruct (gameloop_run n g w) as (g' & cs & k & Hs & _ & Hev).
    rewrite (steps_calls_of _ _ _ _ _ _ _ Hs), Hev.
    apply clears_with_alpha_frames. repeat constructor.
  - intros n g w b.
    destruct (single_gameloop_run n g w) as (r & cs & k & m & Hs & _ & _ & Hev).
    rewrite (steps_calls_of _ _ _ _ _ _ _ Hs), Hev.
    apply clears_with_alpha_frames. repeat constructor.
  - intros g w b.
    destruct (proxy_draw_steps g w) as (r & cs & k & Hs & Hr).
    rewrite (steps_calls_of _ _ _ _ _ _ _ Hs). unfold events. rewrite Hr.
    repeat constructor.
Qed.

(** C7 (as stated) fails in [gl32-cube/test21-framebuffer]: the offscreen
    target, framebuffer 1 here, is cleared with alpha 1. *)
Lemma proxy_clear_is_opaque :
  ~ clears_with_alpha zero
      (events initial_binding
         (calls_of GL32FB.draw (Proxy.globals_with_fbo 1) (quiet_world 0))).
Proof.
  intros H. apply Forall_inv in H. discriminate H.
Qed.

(** C8.  Every frame of the multisample pipeline clears and draws the
    offscreen target, resolves it into the intermediate target, then
    clears and draws the screen, in this order and without fail; a frame
    of the single-sample pipeline clears and draws the offscreen target,
    then the screen, and no frame of it ever blits. *)
Theorem frame_stages_in_order :
  (forall n g w b,
      result_of (Multisample.gameloop n) g w = Ok tt /\
      events b (calls_of (Multisample.gameloop n) g w)
        = List.concat (repeat (Multisample.frame_events g) n) /\
      blits (events b (calls_of (Multisample.gameloop n) g w)) = n) /\
  (forall n g w b,
      exists m, (m <= n)%nat /\
        (result_of (SingleSample.gameloop n) g w = Ok tt -> m = n) /\
        events b (calls_of (SingleSample.gameloop n) g w)
          = List.concat (repeat (SingleSample.frame_events g) m) /\
        blits (events b (calls_of (SingleSample.gameloop n) g w)) = 0%nat /\
        forallb (fun c => negb (is_blit c)) (calls_of (SingleSample.gameloop n) g w)
          = true).
Proof.
  split.
  - intros n g w b.
    destruct (gameloop_run n g w) as (g' & cs & k & Hs & _ & Hev).
    rewrite (steps_calls_of _ _ _ _ _ _ _ Hs), (steps_result_of _ _ _ _ _ _ _ Hs), Hev.
    repeat split. rewrite blits_frames. cbn. lia.
  - intros n g w b.
    destruct (single_gameloop_run n g w) as (r & cs & k & m & Hs & Hle & Hok & Hev).
    rewrite (steps_calls_of _ _ _ _ _ _ _ Hs), (steps_result_of _ _ _ _ _ _ _ Hs), Hev.
    exists m. repeat split; try assumption.
    + rewrite blits_frames. cbn. lia.
    + apply no_blit_calls. rewrite <- (blits_events cs b), Hev, blits_frames.
      cbn. lia.
Qed.

(** C9 (as amended).  The frames leave the positions, the texture
    coordinates, the indices and the packed layout of both batches as
    set-up built them.  The colour stream of the offscreen batch is the
    exception: every frame replaces it by 16 components per quad, drawn
    from the random generator, and uploads it again; the variables after
    [n] frames hold the stream of the last one. *)
Theorem frames_keep_geometry (n : nat) (g : GLES20.Globals) (w : World) :
  let g' := state_after (Multisample.gameloop n) g w in
  result_of (Multisample.gameloop n) g w = Ok tt /\
  g' = Replay.after_frames n g w /\
  Content.uploads (calls_of (Multisample.gameloop n) g w)
  = map (fun i => Replay.color_upload g (Replay.frame_colors g w i)) (seq 0 n) /\
  (forall i, List.length (Replay.frame_colors g w i) = (16 * Multisample.nQuads g)%nat) /\
  Multisample.batches_unchanged_but_colors g g' /\
  List.length (GLES20.QuadColors
                 (GLES20.CFM.quads (GLES20.ctxFramebufferMultisample g')))
  = match n with
    | O => List.length (GLES20.QuadColors
                          (GLES20.CFM.quads (GLES20.ctxFramebufferMultisample g)))
    | S _ => (16 * Multisample.nQuads g)%nat
    end.
Proof.
  cbv zeta.
  destruct (recoloring_refl g) as [c0 Hg].
  destruct (gameloop_exact n g c0 w) as (cs & Hs & Hu).
  rewrite <- Hg in Hs.
  rewrite (steps_state_after _ _ _ _ _ _ _ Hs), (steps_result_of _ _ _ _ _ _ _ Hs),
    (steps_calls_of _ _ _ _ _ _ _ Hs).
  split; [reflexivity |].
  split; [destruct n; reflexivity |].
  split; [exact Hu |].
  split; [intros i; apply length_random_colors |].
  destruct n as [| n].
  - repeat split.
  - split; [repeat split |]. cbn. apply length_random_colors.
Qed.

(** C9 (as stated) fails: the first frame after [load] replaces the red
    and blue of the colour stream by what the random generator returns. *)
Lemma draw_recolors_batch :
  ~ Multisample.batches_unchanged Scenario.loaded_globals
      (state_after GLES20.draw Scenario.loaded_globals (quiet_world 7)).
Proof.
  intros (_ & _ & _ & H). vm_compute in H. discriminate H.
Qed.

End PipelineClaims.

(** ** Attachments and the content scale *)

Section Attachments.

Import GL Run Scenario.

Lemma blitz_attachTexture_150 cs cb cfm w :
  exists g' cs',
    steps GLES20.ContextFramebuffer_attachTexture (scaled_150 cs cb cfm) w (Ok tt) g' cs' 1 /\
    In (TexImage2D TEXTURE_2D 0 RGB 600 400 0 RGB UNSIGNED_BYTE NoData) cs'.
Proof.
  eexists. eexists. split.
  - unfold steps. normalize_trace. unfold ask. normalize_trace. reflexivity.
  - cbn. auto 10.
Qed.

Lemma multisample_attachRenderbuffer_150 cs cb cfm w :
  exists g' cs',
    steps GLES20.ContextFramebufferMultisample_attachRenderbufferMultisample
      (scaled_150 cs cb cfm) w (Ok tt) g' cs' 1 /\
    In (RenderbufferStorageMultisampleEXT RENDERBUFFER 8 DEPTH24_STENCIL8 600 400) cs'.
Proof.
  eexists. eexists. split.
  - unfold steps. normalize_trace. unfold ask. normalize_trace. reflexivity.
  - cbn. auto 10.
Qed.

Lemma single_attachTexture_150 cs cf w :
  exists g' cs',
    steps GL32MS.ContextFramebuffer_attachTexture
      (GL32MS.mkGlobals (F32.of_decimal 15 1) (F32.of_decimal 15 1) cs cf) w
      (Ok tt) g' cs' 1 /\
    In (TexImage2D TEXTURE_2D 0 RGB 600 400 0 RGB UNSIGNED_BYTE NoData) cs'.
Proof.
  eexists. eexists. split.
  - unfold steps. normalize_trace. unfold ask. normalize_trace. reflexivity.
  - cbn. auto 10.
Qed.

(** C6 at the content scale 1.5 of a display set to 150%: the physical
    size of the 600x400 window is 900x600, the product truncated; the
    texture of the intermediate target and the depth and stencil
    renderbuffer of the multisample target are allocated 600x400, because
    the scale is truncated to 1 before it is multiplied. *)
Theorem attachments_truncate_scale cs cb cfm cs1 cf1 w :
  let g := scaled_150 cs cb cfm in
  let g1 := GL32MS.mkGlobals (F32.of_decimal 15 1) (F32.of_decimal 15 1) cs1 cf1 in
  F32.to_int32 (F32.mul (F32.of_Z GLES20.windowWidth) (GLES20.dpiScaleX g)) = Some 900 /\
  F32.to_int32 (F32.mul (F32.of_Z GLES20.windowHeight) (GLES20.dpiScaleY g)) = Some 600 /\
  In (TexImage2D TEXTURE_2D 0 RGB 600 400 0 RGB UNSIGNED_BYTE NoData)
     (calls_of GLES20.ContextFramebuffer_attachTexture g w) /\
  In (RenderbufferStorageMultisampleEXT RENDERBUFFER 8 DEPTH24_STENCIL8 600 400)
     (calls_of GLES20.ContextFramebufferMultisample_attachRenderbufferMultisample g w) /\
  In (TexImage2D TEXTURE_2D 0 RGB 600 400 0 RGB UNSIGNED_BYTE NoData)
     (calls_of GL32MS.ContextFramebuffer_attachTexture g1 w).
Proof.
  cbv zeta. split; [reflexivity |]. split; [reflexivity |]. split; [| split].
  - destruct (blitz_attachTexture_150 cs cb cfm w) as (g' & cs' & Hs & Hin).
    rewrite (steps_calls_of _ _ _ _ _ _ _ Hs). exact Hin.
  - destruct (multisample_attachRenderbuffer_150 cs cb cfm w) as (g' & cs' & Hs & Hin).
    rewrite (steps_calls_of _ _ _ _ _ _ _ Hs). exact Hin.
  - destruct (single_attachTexture_150 cs1 cf1 w) as (g' & cs' & Hs & Hin).
    rewrite (steps_calls_of _ _ _ _ _ _ _ Hs). exact Hin.
Qed.
End Attachments.

(** ** The packed layout *)

Ltac preserve_one :=
  cbv beta zeta;
  lazymatch goal with
  | |- Run.preserves (GL.bind _ _) _ => apply preserves_bind; [| intros ?]
  | |- Run.preserves (GL.gl _) _ => apply preserves_gl
  | |- Run.preserves (GL.glget _) _ => apply preserves_glget
  | |- Run.preserves GL.get _ => apply preserves_get
  | |- Run.preserves GL.ask _ => apply preserves_ask
  | |- Run.preserves (GL.ret _) _ => apply preserves_ret
  | |- Run.preserves (GL.panic _) _ => apply preserves_panic
  | |- Run.preserves Diag.CheckGLError _ => apply preserves_CheckGLError
  | |- Run.preserves Diag.CheckGLFramebufferStatus _ =>
      apply preserves_CheckGLFramebufferStatus
  | |- Run.preserves (GL.int32_of_float _) _ => apply preserves_int32_of_float
  | |- Run.preserves (GL.modify _) _ =>
      apply preserves_modify; intros ? ?; cbn; assumption
  | |- Run.preserves (if ?c then _ else _) _ => destruct c
  end.

Ltac preserve := repeat preserve_one.

Section LayoutClaims.

Import GL GL.Notations Run Layout.
Local Open Scope gl_scope.

Lemma state_after_get_bind {St B} (f : St -> M St B) s w :
  state_after (bind get f) s w = state_after (f s) s w.
Proof. reflexivity. Qed.

Lemma state_after_gl_bind {St B} c (f : unit -> M St B) s w :
  state_after (bind (gl c) f) s w
  = state_after (f tt) s (mkWorld (trace w ++ [c]) (stdout w) (answers w) (asked w)).
Proof. reflexivity. Qed.

Lemma state_after_modify_bind {St B} h (f : unit -> M St B) s w :
  state_after (bind (modify h) f) s w = state_after (f tt) (h s) w.
Proof. reflexivity. Qed.

(** The layout [ContextFramebufferMultisample.setupBuffers] assigns. *)
Lemma multisample_setupBuffers_quads g w :
  let q := GLES20.CFM.quads (GLES20.ctxFramebufferMultisample g) in
  GLES20.CFM.quads
    (GLES20.ctxFramebufferMultisample
       (state_after GLES20.ContextFramebufferMultisample_setupBuffers g w))
  = GLES20.set_layout
      (Int.add (Int.add (Int.mul (len (GLES20.QuadVertices q)) 4)
                        (Int.mul (len (GLES20.QuadTexCoords q)) 1))
               (Int.mul (len (GLES20.QuadColors q)) 1))
      (Int.mul 0 4)
      (Int.add (Int.mul 0 4) (Int.mul (len (GLES20.QuadVertices q)) 4))
      (Int.add (Int.add (Int.mul 0 4) (Int.mul (len (GLES20.QuadVertices q)) 4))
               (Int.mul (len (GLES20.QuadTexCoords q)) 1))
      (Int.mul 0 2) q.
Proof.
  cbv zeta. unfold GLES20.ContextFramebufferMultisample_setupBuffers.
  rewrite state_after_get_bind. cbv beta zeta.
  rewrite state_after_gl_bind.
  unfold GLES20.with_multisample at 1. rewrite state_after_modify_bind.
  match goal with
  | |- GLES20.CFM.quads (GLES20.ctxFramebufferMultisample (state_after ?m ?s ?w)) = ?Q =>
      apply (fun H : preserves m
               (fun s' => GLES20.CFM.quads (GLES20.ctxFramebufferMultisample s') = Q) =>
               H s w)
  end; [| reflexivity].
  unfold GLES20.ContextFramebufferMultisample_attachTextureMultisample,
    GLES20.ContextFramebufferMultisample_attachRenderbufferMultisample,
    GLES20.scaledWindowSize, GLES20.with_multisample.
  preserve.
Qed.

(** The layout [setupBuffers] of [gl32-cube/test21-framebuffer] assigns. *)
Lemma proxy_setupBuffers_layout g w :
  let g' := state_after GL32FB.setupBuffers g w in
  (GL32FB.quadVertices g', GL32FB.quadTexCoords g', GL32FB.quadColors g')
  = (GL32FB.quadVertices g, GL32FB.quadTexCoords g, GL32FB.quadColors g) /\
  (GL32FB.vboBytesTotal g', GL32FB.offsetVertices g',
   GL32FB.offsetTexCoords g', GL32FB.offsetColors g')
  = (Int.add (Int.add (Int.mul (len (GL32FB.quadVertices g)) 4)
                      (Int.mul (len (GL32FB.quadTexCoords g)) 1))
             (Int.mul (len (GL32FB.quadColors g)) 4),
     Int.mul 0 4,
     Int.add (Int.mul 0 4) (Int.mul (len (GL32FB.quadVertices g)) 4),
     Int.add (Int.add (Int.mul 0 4) (Int.mul (len (GL32FB.quadVertices g)) 4))
             (Int.mul (len (GL32FB.quadTexCoords g)) 1)).
Proof.
  cbv zeta. unfold GL32FB.setupBuffers.
  rewrite state_after_get_bind. cbv beta zeta.
  rewrite state_after_gl_bind, state_after_modify_bind.
  set (P := fun s' : GL32FB.Globals =>
    (GL32FB.quadVertices s', GL32FB.quadTexCoords s', GL32FB.quadColors s')
    = (GL32FB.quadVertices g, GL32FB.quadTexCoords g, GL32FB.quadColors g) /\
    (GL32FB.vboBytesTotal s', GL32FB.offsetVertices s',
     GL32FB.offsetTexCoords s', GL32FB.offsetColors s')
    = (Int.add (Int.add (Int.mul (len (GL32FB.quadVertices g)) 4)
                        (Int.mul (len (GL32FB.quadTexCoords g)) 1))
               (Int.mul (len (GL32FB.quadColors g)) 4),
       Int.mul 0 4,
       Int.add (Int.mul 0 4) (Int.mul (len (GL32FB.quadVertices g)) 4),
       Int.add (Int.add (Int.mul 0 4) (Int.mul (len (GL32FB.quadVertices g)) 4))
               (Int.mul (len (GL32FB.quadTexCoords g)) 1))).
  match goal with
  | |- context [state_after ?m ?s ?w] =>
      change (P (state_after m s w));
      apply (fun H : preserves m P => H s w)
  end; [| split; reflexivity].
  unfold GL32FB.attachTexture, GL32FB.attachRenderbuffer, P.
  preserve.
Qed.

Ltac int_exact :=
  unfold Int.add, Int.mul;
  repeat match goal with
         | |- context [int ?z] => rewrite (int_small z) by (unfold is_int in *; lia)
         end.

(** C4.  [setupBuffers] places the positions at offset 0, the texture
    coordinates right after the positions and the colours right after the
    texture coordinates, without padding, so that no two of the three byte
    ranges overlap; the total is the sum of the three lengths.  The sizes
    are those of slices that exist: their sum is an [int]. *)
Theorem setupBuffers_layout_packed
    (g : GLES20.Globals) (w : World) (g2 : GL32FB.Globals) (w2 : World) :
  let q := GLES20.CFM.quads (GLES20.ctxFramebufferMultisample g) in
  is_int (total (ranges_GLES20 q)) ->
  is_int (total (ranges_GL32FB g2)) ->
  let q' := GLES20.CFM.quads
              (GLES20.ctxFramebufferMultisample
                 (state_after GLES20.ContextFramebufferMultisample_setupBuffers g w)) in
  let g2' := state_after GL32FB.setupBuffers g2 w2 in
  (packed (ranges_GLES20 q') /\
   non_overlapping (ranges_GLES20 q') /\
   GLES20.BytesTotal q' = total (ranges_GLES20 q') /\
   map snd (ranges_GLES20 q') = map snd (ranges_GLES20 q)) /\
  (packed (ranges_GL32FB g2') /\
   non_overlapping (ranges_GL32FB g2') /\
   GL32FB.vboBytesTotal g2' = total (ranges_GL32FB g2') /\
   map snd (ranges_GL32FB g2') = map snd (ranges_GL32FB g2)).
Proof.
  cbv zeta. intros Hfit Hfit2. split.
  - rewrite multisample_setupBuffers_quads. cbv zeta.
    generalize dependent (GLES20.CFM.quads (GLES20.ctxFramebufferMultisample g)).
    intros q Hfit.
    unfold ranges_GLES20, total, packed, non_overlapping, apart in *.
    cbn [GLES20.set_layout GLES20.OffsetVertices GLES20.OffsetTexCoords
         GLES20.OffsetColors GLES20.BytesTotal GLES20.QuadVertices
         GLES20.QuadTexCoords GLES20.QuadColors fold_right fst snd map] in *.
    unfold len in *.
    int_exact.
    repeat apply conj; try lia; try reflexivity.
    repeat constructor; cbn [fst snd]; lia.
  - pose proof (proxy_setupBuffers_layout g2 w2) as H. cbv zeta in H.
    generalize dependent (state_after GL32FB.setupBuffers g2 w2).
    intros g2' [Hs Hl].
    injection Hs as Hv Ht Hc. injection Hl as Hb Hov Hot Hoc.
    unfold ranges_GL32FB, total, packed, non_overlapping, apart in *.
    cbn [fold_right fst snd map] in *.
    rewrite Hv, Ht, Hc, Hb, Hov, Hot, Hoc.
    clear Hv Ht Hc Hb Hov Hot Hoc Hfit.
    unfold len in *.
    int_exact.
    repeat apply conj; try lia; try reflexivity.
    repeat constructor; cbn [fst snd]; lia.
Qed.

Lemma setupBuffers_layout_packed_witness :
  is_int (total (ranges_GLES20
                   (GLES20.CFM.quads
                      (GLES20.ctxFramebufferMultisample Scenario.loaded_globals)))) /\
  is_int (total (ranges_GL32FB Frames.Proxy.one_rectangle)) /\
  non_overlapping
    (ranges_GLES20
       (GLES20.CFM.quads
          (GLES20.ctxFramebufferMultisample
             (state_after GLES20.ContextFramebufferMultisample_setupBuffers
                Scenario.loaded_globals (quiet_world 0))))).
Proof.
  assert (H1 : is_int (total (ranges_GLES20
                   (GLES20.CFM.quads
                      (GLES20.ctxFramebufferMultisample Scenario.loaded_globals))))).
  { unfold is_int. vm_compute. split; [discriminate | reflexivity]. }
  assert (H2 : is_int (total (ranges_GL32FB Frames.Proxy.one_rectangle))).
  { unfold is_int. vm_compute. split; [discriminate | reflexivity]. }
  split; [exact H1 |]. split; [exact H2 |].
  exact (proj1 (proj2 (proj1
    (setupBuffers_layout_packed Scenario.loaded_globals (quiet_world 0)
       Frames.Proxy.one_rectangle (quiet_world 0) H1 H2)))).
Defined.

End LayoutClaims.

(** ** Further properties of the batch builder *)

Section BatchContent.

Import GLES20 Batch Content.

Lemma DrawRectangle_streams q r :
  QuadVertices (append q r)
    = QuadVertices q ++ makeQuadVertices (rect_w r) (rect_h r) (rect_z r) /\
  QuadTexCoords (append q r) = QuadTexCoords q ++ makeQuadTextureCoord /\
  QuadColors (append q r) = QuadColors q ++ makeQuadColors (rect_clr r) /\
  Frames.Multisample.layout (append q r) = Frames.Multisample.layout q.
Proof. repeat split. Qed.

Lemma seq_snoc (n : nat) : seq 0 (S n) = seq 0 n ++ [n].
Proof. rewrite seq_S. reflexivity. Qed.

(** X1.  A batch is the concatenation, in call order, of what each quad
    contributes; the layout fields stay as the composite literal set them. *)
Theorem drawAll_is_concatenation (rs : list rect) :
  QuadVertices (drawAll rs) = positions_of rs /\
  QuadTexCoords (drawAll rs) = texcoords_of rs /\
  QuadColors (drawAll rs) = colors_of rs /\
  QuadIndices (drawAll rs) = indices_of (List.length rs) /\
  Frames.Multisample.layout (drawAll rs) = (0, 0, 0, 0, 0).
Proof.
  induction rs as [| r rs IH] using rev_ind.
  - repeat split.
  - destruct IH as (Hv & Ht & Hc & Hi & Hl).
    rewrite drawAll_snoc.
    destruct (DrawRectangle_streams (drawAll rs) r) as (Hv' & Ht' & Hc' & Hl').
    rewrite Hv', Ht', Hc', Hl', append_indices, Hv, Ht, Hc, Hi, Hl.
    unfold positions_of, texcoords_of, colors_of, indices_of.
    rewrite !flat_map_app, length_app. cbn [List.length flat_map].
    rewrite !app_nil_r, Nat.add_1_r, seq_snoc, flat_map_app.
    cbn [flat_map]. rewrite app_nil_r. repeat split.
Qed.

(** X2.  The 16-bit base index has period 16384: a quad appended after 16384
    more quads receives the same six indices, those of an earlier quad's
    vertices. *)
Theorem indices_repeat_every_16384 (pad : rect) (rs : list rect) (r : rect) :
  emitted (drawAll (repeat pad capacity ++ rs)) r = emitted (drawAll rs) r.
Proof.
  unfold emitted. rewrite !append_indices, !skipn_length_app.
  rewrite length_app, repeat_length, Nat2Z.inj_add, capacity_Z.
  rewrite !uint16_mul4. f_equal. f_equal.
  replace (16384 + Z.of_nat (List.length rs))
    with (Z.of_nat (List.length rs) + 1 * 16384) by lia.
  apply Z.mod_add. lia.
Qed.

End BatchContent.

(** ** Further properties of the frames *)

Section FrameContent.

Import GL GL.Notations Run GLES20 Frames Frames.Multisample Content.
Local Open Scope gl_scope.

Lemma rand_component (v : Z) : random_component (uint8 (v mod 255)).
Proof.
  unfold random_component, uint8, wrapu.
  pose proof (Z.mod_pos_bound v 255 ltac:(lia)) as H.
  rewrite Z.mod_small; lia.
Qed.

(** X3.  [RandomColorInRGBA] reads three answers of the generator and issues no
    call; the components it returns are at most 254, never 255, and the
    alpha is 1. *)
Theorem RandomColorInRGBA_range (g : Globals) (w : World) :
  exists clr,
    result_of RandomColorInRGBA g w = Ok clr /\
    state_after RandomColorInRGBA g w = g /\
    calls_of RandomColorInRGBA g w = [] /\
    asked (world_after RandomColorInRGBA g w) = (3 + asked w)%nat /\
    random_component (R clr) /\ random_component (G clr) /\
    random_component (B clr) /\ A clr = 1.
Proof.
  eexists. unfold result_of, state_after, calls_of, world_after.
  cbn. repeat split; try apply rand_component.
  rewrite <- (app_nil_r (trace w)) at 2. apply skipn_length_app.
Qed.

Lemma random_colors_components a k n :
  Forall random_component (random_colors a k n) /\ alpha_is_one (random_colors a k n).
Proof.
  revert k. induction n as [| n IH]; intros k.
  - split; [constructor |]. intros i Hi. cbn in Hi. lia.
  - destruct (IH (3 + k)%nat) as [Hall Halpha]. cbn [random_colors]. split.
    + apply Forall_app. split; [| exact Hall].
      unfold makeQuadColors. cbn [R G B A].
      assert (H1 : random_component (uint8 1)) by (cbv; split; discriminate).
      repeat (apply Forall_cons; [first [apply rand_component | exact H1] |]).
      apply Forall_nil.
    + intros i Hi. rewrite length_app in Hi.
      cbn [makeQuadColors List.length] in Hi.
      destruct (Nat.lt_ge_cases i 4) as [Hlt | Hge].
      * rewrite app_nth1 by (cbn [makeQuadColors List.length]; lia).
        do 4 (destruct i as [| i]; [reflexivity |]). lia.
      * rewrite app_nth2 by (cbn [makeQuadColors List.length]; lia).
        cbn [makeQuadColors List.length].
        replace (4 * i + 3 - 16)%nat with (4 * (i - 4) + 3)%nat by lia.
        apply Halpha. lia.
Qed.

(** X4.  After one frame or more the colour stream of the offscreen batch holds
    only components the generator can produce, at most 254, and the alpha
    of every vertex is 1 of 255. *)
Theorem frames_colors_are_random (n : nat) (g : Globals) (w : World) :
  let colors :=
    QuadColors (CFM.quads (ctxFramebufferMultisample
                             (state_after (gameloop (S n)) g w))) in
  Forall random_component colors /\ alpha_is_one colors.
Proof.
  cbv zeta.
  destruct (gameloop_run (S n) g w) as (g' & cs & k & Hs & HP & _).
  rewrite (steps_state_after _ _ _ _ _ _ _ Hs).
  destruct HP as (a & j & ->). cbn [recolored ctxFramebufferMultisample].
  apply random_colors_components.
Qed.

(** X5.  At the end of a frame the default framebuffer is bound for drawing and
    for reading, whatever was bound before, in each of the three
    pipelines. *)
Theorem frame_ends_on_default_framebuffer (b : binding) :
  (forall g w, let b' := fst (run b (calls_of GLES20.draw g w)) in
               draw_fb b' = 0 /\ read_fb b' = 0) /\
  (forall g w, let b' := fst (run b (calls_of GL32MS.draw g w)) in
               draw_fb b' = 0 /\ read_fb b' = 0) /\
  (forall g w, let b' := fst (run b (calls_of GL32FB.draw g w)) in
               draw_fb b' = 0 /\ read_fb b' = 0).
Proof.
  split; [| split]; intros g w; cbv zeta.
  - destruct (draw_stage g w) as (g' & cs & k & Hs & _ & Hr).
    rewrite (steps_calls_of _ _ _ _ _ _ _ Hs), Hr. split; reflexivity.
  - destruct (single_draw_steps g w) as (r & cs & k & Hs & Hr).
    rewrite (steps_calls_of _ _ _ _ _ _ _ Hs), Hr. split; reflexivity.
  - destruct (proxy_draw_steps g w) as (r & cs & k & Hs & Hr).
    rewrite (steps_calls_of _ _ _ _ _ _ _ Hs), Hr. split; reflexivity.
Qed.

(** X6.  The frames of the two single-sample pipelines assign no package-level
    variable, also when [checkGLError] panics. *)
Theorem single_sample_frames_keep_variables :
  (forall n g w, state_after (SingleSample.gameloop n) g w = g) /\
  (forall g w, state_after GL32FB.draw g w = g).
Proof.
  split.
  - intros n g w.
    destruct (single_gameloop_run n g w) as (r & cs & k & m & Hs & _).
    exact (steps_state_after _ _ _ _ _ _ _ Hs).
  - intros g w. destruct (proxy_draw_steps g w) as (r & cs & k & Hs & _).
    exact (steps_state_after _ _ _ _ _ _ _ Hs).
Qed.

End FrameContent.


(** ** Uploads, error checks and set-up *)

Lemma steps_CheckGLFramebufferStatus {St} (s : St) (w : GL.World) :
  Run.steps Diag.CheckGLFramebufferStatus s w
    (Run.result_of Diag.CheckGLFramebufferStatus s w) s
    [GL.CheckFramebufferStatus GL.FRAMEBUFFER] 1.
Proof.
  unfold Run.steps, Run.result_of, Diag.CheckGLFramebufferStatus,
    Diag.panic_GL_Framebuffer_STATUS.
  cbn.
  destruct (uint32 (GL.answers w (GL.asked w)) =? GL.FRAMEBUFFER_COMPLETE); [reflexivity |].
  destruct (Diag.GL_FRAMEBUFFER_STATUS_LOOKUP (uint32 (GL.answers w (GL.asked w))));
    reflexivity.
Qed.

(** As [step_one], with the conversions and the calls that return a value. *)
Ltac step_more :=
  first
    [ step_one
    | lazymatch goal with
      | |- Run.steps (GL.int32_of_float _) _ _ _ _ _ _ => apply steps_int32_of_float
      | |- Run.steps (GL.glget _) _ _ _ _ _ _ => unfold GL.glget
      end ].

Section Uploads.

Import GL GL.Notations Run GLES20 Frames Frames.Multisample Content.
Local Open Scope gl_scope.

Ltac quiet_line :=
  let w := fresh "w" in
  intros w; eexists; exists 0%nat; split;
  [ unfold Run.steps; normalize_trace; reflexivity | reflexivity ].

Lemma quiet_multisample_bind g : quiet ContextFramebufferMultisample_bind g.
Proof. quiet_line. Qed.

Lemma quiet_blit_bind g : quiet ContextFramebuffer_bind g.
Proof. quiet_line. Qed.

Lemma quiet_screen_bind g : quiet ContextScreen_bind g.
Proof. quiet_line. Qed.

Lemma quiet_screen_draw g : quiet ContextScreen_draw g.
Proof. quiet_line. Qed.

Lemma quiet_blit_draw g : quiet ContextFramebuffer_draw g.
Proof.
  intros w. destruct (scaledWindowSize_steps g w) as (wh & k & H).
  eexists. exists (0 + k)%nat. split.
  - unfold ContextFramebuffer_draw. eapply steps_bind_ok; [exact H | apply steps_gl].
  - reflexivity.
Qed.

Lemma quiet_seq {St} (m1 m2 : M St unit) s :
  quiet m1 s -> quiet m2 s -> quiet (m1 ;; m2) s.
Proof.
  intros H1 H2 w.
  destruct (H1 w) as (cs1 & k1 & Hs1 & Hu1).
  destruct (H2 (mkWorld (trace w ++ cs1) (stdout w) (answers w) (k1 + asked w)))
    as (cs2 & k2 & Hs2 & Hu2).
  exists (cs1 ++ cs2), (k2 + k1)%nat. split.
  - eapply steps_bind_ok; eassumption.
  - change (uploads (cs1 ++ cs2) = []). rewrite uploads_app.
    unfold uploads. rewrite Hu1, Hu2. reflexivity.
Qed.

(** The offscreen draw uploads the colour stream it has just built. *)
Lemma multisample_draw_uploads g w :
  exists g' cs k,
    steps ContextFramebufferMultisample_draw g w (Ok tt) g' cs k /\
    (exists a j, g' = recolored g (random_colors a j (nQuads g))) /\
    uploads cs
    = [ BufferSubData ARRAY_BUFFER
          (OffsetColors (CFM.quads (ctxFramebufferMultisample g)))
          (Int.mul (len (QuadColors (CFM.quads (ctxFramebufferMultisample g'))))
             bytesUint8)
          (Ints (QuadColors (CFM.quads (ctxFramebufferMultisample g')))) ].
Proof.
  eexists. eexists. eexists. split; [| split].
  - unfold ContextFramebufferMultisample_draw, with_multisample.
    step_through.
    apply (randomize_loop _ g []).
  - cbn [app trace answers asked]. eexists. eexists. reflexivity.
  - reflexivity.
Qed.

(** X7.  A frame of the multisample pipeline uploads one thing: the new colour
    stream, 16 bytes per quad, at the offset of the colours. *)
Theorem frame_uploads_colors_only (g : Globals) (w : World) :
  let colors :=
    QuadColors (CFM.quads (ctxFramebufferMultisample (state_after draw g w))) in
  uploads (calls_of draw g w)
  = [ BufferSubData ARRAY_BUFFER
        (OffsetColors (CFM.quads (ctxFramebufferMultisample g)))
        (Int.mul (len colors) bytesUint8) (Ints colors) ] /\
  List.length colors = (16 * nQuads g)%nat.
Proof.
  cbv zeta. unfold draw.
  destruct (quiet_multisample_bind g w) as (cs1 & k1 & Hs1 & Hu1).
  destruct (multisample_draw_uploads g
              (mkWorld (trace w ++ cs1) (stdout w) (answers w) (k1 + asked w)))
    as (g' & cs2 & k2 & Hs2 & (a & j & Hg') & Hu2).
  assert (Hq : quiet (ContextFramebuffer_bind ;; ContextFramebuffer_draw ;;
                      ContextScreen_bind ;; ContextScreen_draw) g').
  { apply quiet_seq; [apply quiet_blit_bind |].
    apply quiet_seq; [apply quiet_blit_draw |].
    apply quiet_seq; [apply quiet_screen_bind | apply quiet_screen_draw]. }
  match type of Hs2 with
  | steps _ _ ?w2 _ _ _ _ =>
      destruct (Hq (mkWorld (trace w2 ++ cs2) (stdout w2) (answers w2) (k2 + asked w2)))
        as (cs3 & k3 & Hs3 & Hu3)
  end.
  pose proof (steps_seq _ _ _ _ _ _ _ _ _ _ _ _ Hs1
                (steps_seq _ _ _ _ _ _ _ _ _ _ _ _ Hs2 Hs3)) as Hs.
  rewrite (steps_calls_of _ _ _ _ _ _ _ Hs), (steps_state_after _ _ _ _ _ _ _ Hs).
  rewrite !uploads_app, Hu2. unfold uploads at 1 2. rewrite Hu1, Hu3.
  split; [reflexivity |].
  rewrite Hg'. cbn [recolored ctxFramebufferMultisample CFM.quads CFM_set_quads
                    set_QuadColors QuadColors].
  apply length_random_colors.
Qed.

End Uploads.

Section Checks.

Import GL GL.Notations Run GLES20 Content.
Local Open Scope gl_scope.

(** X8.  [CheckGLError] polls the binding exactly once, also when further errors
    are pending, assigns nothing, and panics exactly when the code it reads
    is not [NO_ERROR]. *)
Theorem CheckGLError_polls_once {St : Type} (s : St) (w : World) :
  calls_of Diag.CheckGLError s w = [GetError] /\
  state_after Diag.CheckGLError s w = s /\
  asked (world_after Diag.CheckGLError s w) = S (asked w) /\
  (result_of Diag.CheckGLError s w = Ok tt <-> uint32 (answers w (asked w)) = 0).
Proof.
  pose proof (checkGLError_steps s w) as Hs.
  change (@Diag.checkGLError St) with (@Diag.CheckGLError St) in Hs.
  split; [exact (steps_calls_of _ _ _ _ _ _ _ Hs) |].
  split; [exact (steps_state_after _ _ _ _ _ _ _ Hs) |].
  split; [unfold world_after; rewrite Hs; reflexivity |].
  unfold result_of, Diag.CheckGLError, Diag.panic_GL_ERROR. cbn.
  destruct (Z.eqb_spec (uint32 (answers w (asked w))) NO_ERROR) as [He | Hne].
  - split; [intros _; exact He | reflexivity].
  - split; [| intros H; contradiction].
    destruct (Diag.GL_ERROR_LOOKUP (uint32 (answers w (asked w)))); discriminate.
Qed.

(** The table names the eight codes 0x500 to 0x507 and no other. *)
Lemma GL_ERROR_LOOKUP_domain (errcode : Z) :
  Diag.GL_ERROR_LOOKUP errcode = None <-> ~ (1280 <= errcode <= 1287).
Proof.
  unfold Diag.GL_ERROR_LOOKUP.
  repeat match goal with
         | |- context [?a =? ?b] => destruct (Z.eqb_spec a b)
         end;
    split; intros H; try discriminate; try lia; try reflexivity.
Qed.

Lemma CheckGLFramebufferStatus_result {St : Type} (s : St) (w : World) :
  result_of Diag.CheckGLFramebufferStatus s w = Ok tt
  <-> uint32 (answers w (asked w)) = FRAMEBUFFER_COMPLETE.
Proof.
  unfold result_of, Diag.CheckGLFramebufferStatus, Diag.panic_GL_Framebuffer_STATUS. cbn.
  destruct (Z.eqb_spec (uint32 (answers w (asked w))) FRAMEBUFFER_COMPLETE) as [He | Hne].
  - split; [intros _; exact He | reflexivity].
  - split; [| intros H; contradiction].
    destruct (Diag.GL_FRAMEBUFFER_STATUS_LOOKUP (uint32 (answers w (asked w))));
      discriminate.
Qed.

(** The status check followed by one more call. *)
Lemma status_check_then {St} (c : call) (s : St) (w : World) :
  steps (Diag.CheckGLFramebufferStatus ;; gl c) s w
    (match result_of Diag.CheckGLFramebufferStatus s w with
     | Ok _ => Ok tt
     | Panic msg => Panic msg
     end) s
    (CheckFramebufferStatus FRAMEBUFFER ::
       match result_of Diag.CheckGLFramebufferStatus s w with
       | Ok _ => [c]
       | Panic _ => []
       end) 1.
Proof.
  pose proof (steps_CheckGLFramebufferStatus s w) as H.
  destruct (result_of Diag.CheckGLFramebufferStatus s w) as [[] | msg].
  - change 1%nat with (0 + 1)%nat.
    change (CheckFramebufferStatus FRAMEBUFFER :: [c])
      with ([CheckFramebufferStatus FRAMEBUFFER] ++ [c]).
    eapply steps_bind_ok; [exact H | apply steps_gl].
  - apply steps_bind_panic. exact H.
Qed.

(** X9.  [ContextFramebuffer.setupBuffers] stores the names the binding returns
    for the framebuffer and its texture.  When the framebuffer is complete it
    ends with the default framebuffer bound; when it is not, it panics right
    after the status check and the incomplete framebuffer stays bound. *)
Theorem blitz_setupBuffers_outcome (g : Globals) (w : World) (b : binding) :
  let r := result_of ContextFramebuffer_setupBuffers g w in
  let cs := calls_of ContextFramebuffer_setupBuffers g w in
  let g' := state_after ContextFramebuffer_setupBuffers g w in
  CF.fbo (ctxBlitz g') = uint32 (answers w (asked w)) /\
  CF.fboTexture (ctxBlitz g') = uint32 (answers w (S (asked w))) /\
  (r = Ok tt <->
   uint32 (answers w (int32_asks (dpiScaleY g) + int32_asks (dpiScaleX g) + 2 + asked w))
   = FRAMEBUFFER_COMPLETE) /\
  match r with
  | Ok _ =>
      last cs GetError = BindFramebuffer FRAMEBUFFER 0 /\
      draw_fb (fst (run b cs)) = 0
  | Panic _ =>
      last cs GetError = CheckFramebufferStatus FRAMEBUFFER /\
      draw_fb (fst (run b cs)) = uint32 (answers w (asked w))
  end.
Proof.
  cbv zeta.
  assert (H : exists r g' cs k,
             steps ContextFramebuffer_setupBuffers g w r g' cs k /\
             CF.fbo (ctxBlitz g') = uint32 (answers w (asked w)) /\
             CF.fboTexture (ctxBlitz g') = uint32 (answers w (S (asked w))) /\
             (r = Ok tt <->
              uint32 (answers w (int32_asks (dpiScaleY g) + int32_asks (dpiScaleX g)
                                 + 2 + asked w))
              = FRAMEBUFFER_COMPLETE) /\
             match r with
             | Ok _ =>
                 last cs GetError = BindFramebuffer FRAMEBUFFER 0 /\
                 draw_fb (fst (run b cs)) = 0
             | Panic _ =>
                 last cs GetError = CheckFramebufferStatus FRAMEBUFFER /\
                 draw_fb (fst (run b cs)) = uint32 (answers w (asked w))
             end).
  { eexists. eexists. eexists. eexists. split.
    - unfold ContextFramebuffer_setupBuffers, ContextFramebuffer_attachTexture,
        scaledWindowSize, with_blitz.
      do 5 (cbv beta zeta; eapply steps_bind_ok; [repeat step_more |]).
      cbv beta zeta. apply status_check_then.
    - cbn [ctxBlitz CF.fbo CF.fboTexture dpiScaleX dpiScaleY
           trace answers asked stdout Nat.add].
      split; [reflexivity |]. split; [reflexivity |].
      match goal with
      | |- context [result_of Diag.CheckGLFramebufferStatus ?s ?w'] =>
          pose proof (CheckGLFramebufferStatus_result s w') as Hiff;
          cbn [answers asked] in Hiff;
          destruct (result_of Diag.CheckGLFramebufferStatus s w') as [[] | msg]
      end.
      + split; [| split; reflexivity].
        split; [intros _ | reflexivity].
        rewrite <- (proj1 Hiff eq_refl). do 2 f_equal. lia.
      + split; [| split; reflexivity].
        split; [discriminate |]. intros He. exfalso.
        assert (Hd : @Panic unit msg = Ok tt); [| discriminate Hd].
        apply Hiff. rewrite <- He. do 2 f_equal. lia. }
  destruct H as (r & g' & cs & k & Hs & Hf & Ht & Hi & Hr).
  rewrite (steps_result_of _ _ _ _ _ _ _ Hs), (steps_calls_of _ _ _ _ _ _ _ Hs),
    (steps_state_after _ _ _ _ _ _ _ Hs).
  auto.
Qed.

End Checks.

Section ErrorMessage.

Import GL Run Diag.
Local Open Scope string_scope.

(** X10.  [panic_GL_ERROR] never returns and issues no call.  It reports a code by
    its number exactly when the code is outside 0x500 to 0x507, the eight
    codes the table names. *)
Theorem panic_GL_ERROR_message {St : Type} (errcode : Z) (s : St) (w : World) :
  exists msg,
    result_of (@panic_GL_ERROR St unit errcode) s w = Panic msg /\
    calls_of (@panic_GL_ERROR St unit errcode) s w = [] /\
    (msg = "GL_ERROR UNKNOWN: " ++ fmt_int errcode ++ nl
     <-> ~ (1280 <= errcode <= 1287)).
Proof.
  assert (Hc : forall msg, calls_of (@panic St unit msg) s w = []).
  { intros msg. unfold calls_of, world_after, panic. cbn [snd].
    rewrite <- (app_nil_r (trace w)) at 2. apply skipn_length_app. }
  pose proof (GL_ERROR_LOOKUP_domain errcode) as Hdom.
  unfold panic_GL_ERROR.
  destruct (GL_ERROR_LOOKUP errcode) as [errstr |].
  - eexists. split; [reflexivity |]. split; [apply Hc |].
    split.
    + intros H. cbn in H. discriminate H.
    + intros H. apply Hdom in H. discriminate H.
  - eexists. split; [reflexivity |]. split; [apply Hc |].
    split; [intros _; apply Hdom; reflexivity | reflexivity].
Qed.

End ErrorMessage.

Section Region.

Import GL GL.Notations Run GLES20 Content.
Local Open Scope gl_scope.

Ltac find_call :=
  cbn [app In]; repeat (first [left; reflexivity | right]).

(** X11.  The area the resolve copies is the area the attachments were allocated
    with: the blit maps the rectangle from (0,0) to the scaled window size
    onto itself, and that size is the one of the intermediate texture and of
    the depth and stencil renderbuffer. *)
Theorem resolve_region_is_allocation (g : Globals) (w1 w2 w3 : World) (sx sy : Z) :
  F32.to_int32 (dpiScaleX g) = Some sx ->
  F32.to_int32 (dpiScaleY g) = Some sy ->
  let W := I32.mul windowWidth sx in
  let H := I32.mul windowHeight sy in
  In (TexImage2D TEXTURE_2D 0 RGB W H 0 RGB UNSIGNED_BYTE NoData)
     (calls_of ContextFramebuffer_attachTexture g w1) /\
  In (RenderbufferStorageMultisampleEXT RENDERBUFFER msaaSamples DEPTH24_STENCIL8 W H)
     (calls_of ContextFramebufferMultisample_attachRenderbufferMultisample g w2) /\
  calls_of ContextFramebuffer_draw g w3
  = [BlitFramebuffer 0 0 W H 0 0 W H [COLOR_BUFFER_BIT] NEAREST].
Proof.
  intros Hx Hy. cbv zeta.
  assert (Hax : forall w, int32_answer (dpiScaleX g) w = sx)
    by (intros w; unfold int32_answer; rewrite Hx; reflexivity).
  assert (Hay : forall w, int32_answer (dpiScaleY g) w = sy)
    by (intros w; unfold int32_answer; rewrite Hy; reflexivity).
  split; [| split].
  - assert (H : exists g' cs k,
               steps ContextFramebuffer_attachTexture g w1 (Ok tt) g' cs k /\
               In (TexImage2D TEXTURE_2D 0 RGB (I32.mul windowWidth sx)
                     (I32.mul windowHeight sy) 0 RGB UNSIGNED_BYTE NoData) cs).
    { eexists. eexists. eexists. split.
      - unfold ContextFramebuffer_attachTexture, scaledWindowSize, with_blitz.
        repeat step_more.
      - cbn [dpiScaleX dpiScaleY fst snd]. rewrite Hax, Hay. find_call. }
    destruct H as (g' & cs & k & Hs & Hin).
    rewrite (steps_calls_of _ _ _ _ _ _ _ Hs). exact Hin.
  - assert (H : exists g' cs k,
               steps ContextFramebufferMultisample_attachRenderbufferMultisample g w2
                 (Ok tt) g' cs k /\
               In (RenderbufferStorageMultisampleEXT RENDERBUFFER msaaSamples
                     DEPTH24_STENCIL8 (I32.mul windowWidth sx)
                     (I32.mul windowHeight sy)) cs).
    { eexists. eexists. eexists. split.
      - unfold ContextFramebufferMultisample_attachRenderbufferMultisample,
          scaledWindowSize, with_multisample.
        repeat step_more.
      - cbn [dpiScaleX dpiScaleY fst snd]. rewrite Hax, Hay. find_call. }
    destruct H as (g' & cs & k & Hs & Hin).
    rewrite (steps_calls_of _ _ _ _ _ _ _ Hs). exact Hin.
  - assert (H : exists g' cs k,
               steps ContextFramebuffer_draw g w3 (Ok tt) g' cs k /\
               cs = [BlitFramebuffer 0 0 (I32.mul windowWidth sx) (I32.mul windowHeight sy)
                       0 0 (I32.mul windowWidth sx) (I32.mul windowHeight sy)
                       [COLOR_BUFFER_BIT] NEAREST]).
    { eexists. eexists. eexists. split.
      - unfold ContextFramebuffer_draw, scaledWindowSize.
        repeat step_more.
      - cbn [app fst snd]. rewrite Hax, Hay. reflexivity. }
    destruct H as (g' & cs & k & Hs & Hcs).
    rewrite (steps_calls_of _ _ _ _ _ _ _ Hs). exact Hcs.
Qed.

Lemma resolve_region_is_allocation_witness :
  let g := mkGlobals (F32.of_Z 2) (F32.of_Z 2)
             (ctxScreen Scenario.zero_globals) (ctxBlitz Scenario.zero_globals)
             (ctxFramebufferMultisample Scenario.zero_globals) in
  F32.to_int32 (dpiScaleX g) = Some 2 /\
  F32.to_int32 (dpiScaleY g) = Some 2 /\
  calls_of ContextFramebuffer_draw g (quiet_world 0)
  = [BlitFramebuffer 0 0 1200 800 0 0 1200 800 [COLOR_BUFFER_BIT] NEAREST].
Proof.
  cbv zeta.
  set (g := mkGlobals (F32.of_Z 2) (F32.of_Z 2)
              (ctxScreen Scenario.zero_globals) (ctxBlitz Scenario.zero_globals)
              (ctxFramebufferMultisample Scenario.zero_globals)).
  assert (Hx : F32.to_int32 (dpiScaleX g) = Some 2) by reflexivity.
  assert (Hy : F32.to_int32 (dpiScaleY g) = Some 2) by reflexivity.
  split; [exact Hx |]. split; [exact Hy |].
  exact (proj2 (proj2 (resolve_region_is_allocation g
                         (quiet_world 0) (quiet_world 0) (quiet_world 0) 2 2 Hx Hy))).
Defined.

End Region.

Section ScreenBuffers.

Import GL GL.Notations Run GLES20 Content.
Local Open Scope gl_scope.

Ltac ints_exact :=
  unfold Int.add, Int.mul;
  repeat match goal with
         | |- context [int ?z] => rewrite (int_small z) by (unfold is_int in *; lia)
         end.

(** X12.  [ContextScreen.setupBuffers] completes, allocates the vertex buffer
    with the size of the positions plus the texture coordinates, and fills
    it without gap or overlap: the positions from offset 0 and the texture
    coordinates right behind them; the index buffer gets two bytes per
    index. *)
Theorem screen_setupBuffers_uploads (g : Globals) (w : World) :
  let q := CS.quads (ctxScreen g) in
  let lp := len (QuadVertices q) * 4 in
  let lt := len (QuadTexCoords q) * 1 in
  is_int (lp + lt) ->
  is_int (len (QuadIndices q) * 2) ->
  result_of ContextScreen_setupBuffers g w = Ok tt /\
  uploads (calls_of ContextScreen_setupBuffers g w)
  = [ BufferData ARRAY_BUFFER (lp + lt) NoData STATIC_DRAW;
      BufferSubData ARRAY_BUFFER 0 lp (Floats (QuadVertices q));
      BufferSubData ARRAY_BUFFER lp lt (Ints (QuadTexCoords q));
      BufferData ELEMENT_ARRAY_BUFFER (len (QuadIndices q) * 2)
        (Ints (QuadIndices q)) STATIC_DRAW ] /\
  Frames.Multisample.layout
    (CS.quads (ctxScreen (state_after ContextScreen_setupBuffers g w)))
  = (0, lp, OffsetColors q, 0, lp + lt).
Proof.
  cbv zeta. intros Hfit Hfit2.
  assert (H : exists g' cs k,
             steps ContextScreen_setupBuffers g w (Ok tt) g' cs k /\
             uploads cs
             = [ BufferData ARRAY_BUFFER
                   (len (QuadVertices (CS.quads (ctxScreen g))) * 4
                    + len (QuadTexCoords (CS.quads (ctxScreen g))) * 1)
                   NoData STATIC_DRAW;
                 BufferSubData ARRAY_BUFFER 0
                   (len (QuadVertices (CS.quads (ctxScreen g))) * 4)
                   (Floats (QuadVertices (CS.quads (ctxScreen g))));
                 BufferSubData ARRAY_BUFFER
                   (len (QuadVertices (CS.quads (ctxScreen g))) * 4)
                   (len (QuadTexCoords (CS.quads (ctxScreen g))) * 1)
                   (Ints (QuadTexCoords (CS.quads (ctxScreen g))));
                 BufferData ELEMENT_ARRAY_BUFFER
                   (len (QuadIndices (CS.quads (ctxScreen g))) * 2)
                   (Ints (QuadIndices (CS.quads (ctxScreen g)))) STATIC_DRAW ] /\
             Frames.Multisample.layout (CS.quads (ctxScreen g'))
             = (0, len (QuadVertices (CS.quads (ctxScreen g))) * 4,
                OffsetColors (CS.quads (ctxScreen g)), 0,
                len (QuadVertices (CS.quads (ctxScreen g))) * 4
                + len (QuadTexCoords (CS.quads (ctxScreen g))) * 1)).
  { eexists. eexists. eexists. split.
    - unfold ContextScreen_setupBuffers, with_screen.
      repeat step_more.
    - generalize dependent (CS.quads (ctxScreen g)). intros q Hfit Hfit2.
      cbn -[Int.add Int.mul len int Z.mul Z.add].
      unfold bytesFloat32, bytesUint8, bytesUint16.
      unfold len in *.
      ints_exact.
      split; reflexivity. }
  destruct H as (g' & cs & k & Hs & Hu & Hl).
  rewrite (steps_result_of _ _ _ _ _ _ _ Hs), (steps_calls_of _ _ _ _ _ _ _ Hs),
    (steps_state_after _ _ _ _ _ _ _ Hs).
  auto.
Qed.

Lemma screen_setupBuffers_uploads_witness :
  is_int (len (QuadVertices (CS.quads (ctxScreen Scenario.loaded_globals))) * 4
          + len (QuadTexCoords (CS.quads (ctxScreen Scenario.loaded_globals))) * 1) /\
  is_int (len (QuadIndices (CS.quads (ctxScreen Scenario.loaded_globals))) * 2) /\
  result_of ContextScreen_setupBuffers Scenario.loaded_globals (quiet_world 1) = Ok tt.
Proof.
  assert (H1 : is_int
                 (len (QuadVertices (CS.quads (ctxScreen Scenario.loaded_globals))) * 4
                  + len (QuadTexCoords (CS.quads (ctxScreen Scenario.loaded_globals))) * 1)).
  { unfold is_int. vm_compute. split; [discriminate | reflexivity]. }
  assert (H2 : is_int
                 (len (QuadIndices (CS.quads (ctxScreen Scenario.loaded_globals))) * 2)).
  { unfold is_int. vm_compute. split; [discriminate | reflexivity]. }
  split; [exact H1 |]. split; [exact H2 |].
  exact (proj1 (screen_setupBuffers_uploads Scenario.loaded_globals (quiet_world 1) H1 H2)).
Defined.

End ScreenBuffers.

(** ** The batches with package-level arrays *)

Section ProxyBatch.

Import GL32FB Arrays Arrays.Proxy.

Lemma proxy_drawAll_snoc g rs r : drawAll g (rs ++ [r]) = append (drawAll g rs) r.
Proof. unfold drawAll. rewrite fold_left_app. reflexivity. Qed.

Lemma proxy_append_streams g r :
  quadVertices (append g r)
    = quadVertices g ++ makeQuadVertices (rect_w r) (rect_h r) (rect_z r) /\
  quadTexCoords (append g r) = quadTexCoords g ++ makeQuadTextureCoord /\
  quadColors (append g r) = quadColors g ++ colors_of [r] /\
  quadIndices (append g r)
    = quadIndices g ++ GLES20.makeQuadIndices (len (quadVertices g) + 12) /\
  set_batch [] [] [] [] (append g r) = set_batch [] [] [] [] g.
Proof.
  unfold append, drawRectangle, colors_of. cbn [RGBA flat_map].
  destruct (rect_rgba r) as [[[cr cg] cb] ca].
  cbn [quadVertices quadTexCoords quadColors quadIndices set_batch].
  rewrite app_nil_r.
  repeat apply conj; try reflexivity.
  unfold makeQuadIndices, GLES20.makeQuadIndices. cbn [quadVertices set_batch].
  unfold len. rewrite length_app. cbn [makeQuadVertices List.length].
  rewrite Nat2Z.inj_add. reflexivity.
Qed.

Lemma proxy_len_vertices g rs :
  len (quadVertices (drawAll g rs)) = 12 * Z.of_nat (List.length rs).
Proof.
  induction rs as [| r rs IH] using rev_ind; [reflexivity |].
  rewrite proxy_drawAll_snoc.
  destruct (proxy_append_streams (drawAll g rs) r) as (Hv & _). rewrite Hv.
  unfold len in *. rewrite !length_app. cbn [makeQuadVertices List.length]. lia.
Qed.

(** X13.  [drawRectangle] builds the four package-level arrays quad by quad, in
    call order, with the same 16-bit indices as the [ElementQuads] batch,
    and assigns no other package-level variable. *)
Theorem drawRectangle_builds_streams (g : Globals) (rs : list rect) :
  quadVertices (drawAll g rs)
    = flat_map (fun r => makeQuadVertices (rect_w r) (rect_h r) (rect_z r)) rs /\
  quadTexCoords (drawAll g rs) = flat_map (fun _ => makeQuadTextureCoord) rs /\
  quadColors (drawAll g rs) = colors_of rs /\
  quadIndices (drawAll g rs) = Content.indices_of (List.length rs) /\
  set_batch [] [] [] [] (drawAll g rs) = set_batch [] [] [] [] g.
Proof.
  induction rs as [| r rs IH] using rev_ind.
  - repeat apply conj; reflexivity.
  - destruct IH as (Hv & Ht & Hc & Hi & Hg).
    rewrite proxy_drawAll_snoc.
    destruct (proxy_append_streams (drawAll g rs) r) as (Hv' & Ht' & Hc' & Hi' & Hg').
    rewrite Hv', Ht', Hc', Hi', Hg', proxy_len_vertices, Hv, Ht, Hc, Hi, Hg.
    replace (12 * Z.of_nat (List.length rs) + 12)
      with (12 * (Z.of_nat (List.length rs) + 1)) by lia.
    rewrite makeQuadIndices_whole by lia.
    unfold colors_of, Content.indices_of.
    rewrite !flat_map_app, length_app. cbn [List.length flat_map].
    rewrite !app_nil_r, Nat.add_1_r, seq_snoc, flat_map_app.
    cbn [flat_map]. rewrite app_nil_r. repeat apply conj; reflexivity.
Qed.

End ProxyBatch.

Section WideBatch.

Import GL21Quad Arrays Arrays.Wide.

Lemma uint32_small (z : Z) : 0 <= z < 2 ^ 32 -> uint32 z = z.
Proof. intros H. unfold uint32, wrapu. apply Z.mod_small. lia. Qed.

(** [makeQuadIndices] on a position array that holds [k + 1] whole quads,
    when the last vertex index fits 32 bits. *)
Lemma wide_makeQuadIndices_whole g (k : Z) :
  0 <= k < capacity ->
  len (quadVertices g) = 12 * (k + 1) ->
  makeQuadIndices g = Batch.quad_at (4 * k).
Proof.
  unfold capacity. intros Hk Hlen.
  unfold makeQuadIndices, Batch.quad_at, Batch.quad_offsets. rewrite Hlen.
  assert (Hi : U32.mul (uint32 (Int.sub (Int.div (12 * (k + 1))
                 (Int.mul verticesPerQuad vertexPositionSize)) 1)) verticesPerQuad
               = 4 * k).
  { unfold U32.mul, Int.sub, Int.div, Int.mul, verticesPerQuad, vertexPositionSize.
    change (int (4 * 3)) with 12.
    rewrite (Z.mul_comm 12), Z.quot_mul by lia.
    rewrite (int_small (k + 1)) by (unfold is_int; lia).
    rewrite (int_small (k + 1 - 1)) by (unfold is_int; lia).
    rewrite (uint32_small (k + 1 - 1)) by lia.
    rewrite uint32_small by lia. lia. }
  rewrite Hi. clear Hi.
  unfold U32.add. cbn [map].
  rewrite !(uint32_small (4 * k + _)) by lia.
  rewrite Z.add_0_r. reflexivity.
Qed.

Lemma wide_makeAll_snoc g rs r : makeAll g (rs ++ [r]) = append (makeAll g rs) r.
Proof. unfold makeAll. rewrite fold_left_app. reflexivity. Qed.

Lemma wide_append_arrays g r :
  quadVertices (append g r)
    = quadVertices g ++ makeQuadVertices (rect_w r) (rect_h r) (rect_z r) /\
  List.length (quadColors (append g r)) = (List.length (quadColors g) + 16)%nat /\
  quadIndices (append g r) = quadIndices g ++ makeQuadIndices (append g r).
Proof.
  unfold append, makeRectangle. cbn [RGBA].
  destruct (rect_rgba r) as [[[cr cg] cb] ca].
  cbn [quadVertices quadColors quadIndices set_arrays].
  repeat apply conj; try reflexivity.
  rewrite length_app. reflexivity.
Qed.

Lemma wide_lengths g rs :
  List.length (quadVertices (makeAll g rs)) = (12 * List.length rs)%nat /\
  List.length (quadColors (makeAll g rs)) = (16 * List.length rs)%nat.
Proof.
  induction rs as [| r rs [IHv IHc]] using rev_ind; [split; reflexivity |].
  rewrite wide_makeAll_snoc.
  destruct (wide_append_arrays (makeAll g rs) r) as (Hv & Hc & _).
  rewrite Hv, Hc, !length_app, IHv, IHc. cbn [makeQuadVertices List.length]. lia.
Qed.

Lemma wide_indices_below (N : nat) :
  Forall (fun i => 0 <= i < 4 * Z.of_nat N) (indices_of N).
Proof.
  unfold indices_of. apply Forall_flat_map, Forall_forall.
  intros k Hk. apply in_seq in Hk.
  unfold Batch.quad_at, Batch.quad_offsets. cbn [map].
  repeat (apply Forall_cons; [lia |]). apply Forall_nil.
Qed.

(** X14.  With 32-bit indices the batch is exact for up to 2^30 quads: quad [k]
    gets the indices [4k .. 4k+3] without reduction, so every index refers
    to a vertex of the batch; positions and colours grow by 12 and 16
    entries per quad. *)
Theorem makeRectangle_indices_exact (g : Globals) (rs : list rect) :
  Z.of_nat (List.length rs) <= capacity ->
  quadIndices (makeAll g rs) = indices_of (List.length rs) /\
  Forall (fun i => 0 <= i < 4 * Z.of_nat (List.length rs)) (quadIndices (makeAll g rs)) /\
  List.length (quadVertices (makeAll g rs)) = (12 * List.length rs)%nat /\
  List.length (quadColors (makeAll g rs)) = (16 * List.length rs)%nat.
Proof.
  intros Hcap.
  assert (Hi : quadIndices (makeAll g rs) = indices_of (List.length rs)).
  { induction rs as [| r rs IH] using rev_ind; [reflexivity |].
    rewrite length_app in Hcap. cbn [List.length] in Hcap.
    rewrite wide_makeAll_snoc.
    destruct (wide_append_arrays (makeAll g rs) r) as (Hv & _ & Hix).
    rewrite Hix, IH by lia.
    rewrite (wide_makeQuadIndices_whole _ (Z.of_nat (List.length rs))).
    - unfold indices_of. rewrite length_app. cbn [List.length].
      rewrite Nat.add_1_r, seq_snoc, flat_map_app. cbn [flat_map].
      rewrite app_nil_r. reflexivity.
    - lia.
    - unfold len. rewrite Hv, length_app, (proj1 (wide_lengths g rs)).
      cbn [makeQuadVertices List.length]. lia. }
  rewrite Hi. split; [reflexivity |]. split; [apply wide_indices_below |].
  apply wide_lengths.
Qed.

Lemma makeRectangle_indices_exact_witness :
  let rs := [ mkRect (F32.of_Z 2) (F32.of_Z 2) (F32.of_Z (-1)) (1, 0, 0, 257);
              mkRect (F32.of_Z 1) (F32.of_Z 1) (F32.of_Z (-1)) (0, 0, 1, 257) ] in
  Z.of_nat (List.length rs) <= capacity /\
  quadIndices (makeAll (mkGlobals 0 0 0 0 0 [] [] []) rs)
  = [0; 1; 2; 0; 2; 3; 4; 5; 6; 4; 6; 7].
Proof.
  cbv zeta. split; [vm_compute; discriminate |].
  refine (eq_trans (proj1 (makeRectangle_indices_exact _ _ _)) _);
    [vm_compute; discriminate | reflexivity].
Defined.

End WideBatch.

(** ** Set-up of the packages with package-level arrays *)

(** A check that panics with [msg] unless [c] holds, followed by [rest]. *)
Lemma steps_if_panic {St B} (c : bool) (msg : string) (rest : GL.M St B)
    s w r s' cs k :
  Run.steps rest s w r s' cs k ->
  Run.steps (GL.bind (if c then GL.ret tt else GL.panic msg) (fun _ => rest)) s w
    (if c then r else GL.Panic msg) (if c then s' else s)
    (if c then cs else []) (if c then k else 0%nat).
Proof.
  unfold Run.steps, GL.bind. destruct c; cbn.
  - intros H. exact H.
  - intros _. destruct w; cbn. rewrite app_nil_r. reflexivity.
Qed.

Ltac step_check :=
  cbv beta zeta;
  first
    [ lazymatch goal with
      | |- Run.steps (GL.bind (if _ then _ else _) _) _ _ _ _ _ _ =>
          apply steps_if_panic
      end
    | step_more ].

Section WideBuffers.

Import GL GL.Notations Run GL21Quad Content.
Local Open Scope gl_scope.

Ltac find_call :=
  cbn [app In]; repeat (first [left; reflexivity | right]).

Ltac ints_exact :=
  unfold Int.add, Int.mul;
  repeat match goal with
         | |- context [int ?z] => rewrite (int_small z) by (unfold is_int in *; lia)
         end.

(** X15.  [setupBuffers] of the 32-bit batch allocates the vertex buffer with the
    size of the positions plus the colours and fills it without gap or
    overlap; [draw] then reads the colours at the offset they were copied
    to, from the buffer [setupBuffers] created. *)
Theorem wide_buffers_packed (g : Globals) (w w' : World) :
  let lv := len (quadVertices g) * 4 in
  let lc := len (quadColors g) * 4 in
  let li := len (quadIndices g) * 4 in
  is_int (lv + lc) ->
  is_int li ->
  let g' := state_after setupBuffers g w in
  result_of setupBuffers g w = Ok tt /\
  g' = set_buffers (uint32 (answers w (asked w))) (uint32 (answers w (S (asked w)))) g /\
  uploads (calls_of setupBuffers g w)
  = [ BufferData ARRAY_BUFFER (lv + lc) NoData STATIC_DRAW;
      BufferSubData ARRAY_BUFFER 0 lv (Floats (quadVertices g));
      BufferSubData ARRAY_BUFFER lv lc (Ints (quadColors g));
      BufferData ELEMENT_ARRAY_BUFFER li (Ints (quadIndices g)) STATIC_DRAW ] /\
  In (BindBuffer ARRAY_BUFFER (uint32 (answers w (asked w)))) (calls_of draw g' w') /\
  In (VertexAttribPointer (attribVertexColor g) vertexColorSize UNSIGNED_INT false 0 lv)
     (calls_of draw g' w').
Proof.
  cbv zeta. intros Hfit Hfit2.
  assert (H : exists g1 cs k,
             steps setupBuffers g w (Ok tt) g1 cs k /\
             g1 = set_buffers (uint32 (answers w (asked w)))
                    (uint32 (answers w (S (asked w)))) g /\
             uploads cs
             = [ BufferData ARRAY_BUFFER
                   (len (quadVertices g) * 4 + len (quadColors g) * 4) NoData STATIC_DRAW;
                 BufferSubData ARRAY_BUFFER 0 (len (quadVertices g) * 4)
                   (Floats (quadVertices g));
                 BufferSubData ARRAY_BUFFER (len (quadVertices g) * 4)
                   (len (quadColors g) * 4) (Ints (quadColors g));
                 BufferData ELEMENT_ARRAY_BUFFER (len (quadIndices g) * 4)
                   (Ints (quadIndices g)) STATIC_DRAW ]).
  { eexists. eexists. eexists. split.
    - unfold setupBuffers. repeat step_more.
    - split; [reflexivity |].
      cbn -[Int.add Int.mul len int Z.mul Z.add].
      unfold bytesFloat32, bytesUint32. unfold len in *.
      ints_exact. reflexivity. }
  destruct H as (g1 & cs & k & Hs & Hg1 & Hu).
  rewrite (steps_result_of _ _ _ _ _ _ _ Hs), (steps_calls_of _ _ _ _ _ _ _ Hs),
    (steps_state_after _ _ _ _ _ _ _ Hs).
  split; [reflexivity |]. split; [exact Hg1 |]. split; [exact Hu |].
  assert (Hd : exists r g2 cs2 k2,
             steps draw g1 w' r g2 cs2 k2 /\
             In (BindBuffer ARRAY_BUFFER (vbo g1)) cs2 /\
             In (VertexAttribPointer (attribVertexColor g1) vertexColorSize UNSIGNED_INT
                   false 0 (Int.mul (len (quadVertices g1)) bytesFloat32)) cs2).
  { eexists. eexists. eexists. eexists. split.
    - unfold draw. step_through. apply checkGLError_steps.
    - split; find_call. }
  destruct Hd as (r & g2 & cs2 & k2 & Hs2 & Hb & Hp).
  rewrite (steps_calls_of _ _ _ _ _ _ _ Hs2).
  subst g1. cbn [set_buffers vbo attribVertexColor quadVertices] in Hb, Hp.
  split; [exact Hb |].
  replace (len (quadVertices g) * 4) with (Int.mul (len (quadVertices g)) bytesFloat32);
    [exact Hp |].
  unfold bytesFloat32, len in *. ints_exact. reflexivity.
Qed.

Lemma wide_buffers_packed_witness :
  let g := Arrays.Wide.makeAll (mkGlobals 0 0 0 0 1 [] [] [])
             [ Arrays.mkRect (F32.of_Z 2) (F32.of_Z 2) (F32.of_Z (-1)) (1, 0, 0, 257);
               Arrays.mkRect (F32.of_Z 1) (F32.of_Z 1) (F32.of_Z (-1)) (0, 0, 1, 257) ] in
  is_int (len (quadVertices g) * 4 + len (quadColors g) * 4) /\
  is_int (len (quadIndices g) * 4) /\
  In (VertexAttribPointer 1 4 UNSIGNED_INT false 0 96)
     (calls_of draw (state_after setupBuffers g (quiet_world 7)) (quiet_world 0)).
Proof.
  cbv zeta.
  set (g := Arrays.Wide.makeAll _ _).
  assert (H1 : is_int (len (quadVertices g) * 4 + len (quadColors g) * 4)).
  { unfold is_int. vm_compute. split; [discriminate | reflexivity]. }
  assert (H2 : is_int (len (quadIndices g) * 4)).
  { unfold is_int. vm_compute. split; [discriminate | reflexivity]. }
  split; [exact H1 |]. split; [exact H2 |].
  exact (proj2 (proj2 (proj2 (proj2
           (wide_buffers_packed g (quiet_world 7) (quiet_world 0) H1 H2))))).
Defined.

End WideBuffers.

Section ProxyBuffers.

Import GL GL.Notations Run GL32FB Content.
Local Open Scope gl_scope.

Ltac find_call :=
  cbn [app In]; repeat (first [left; reflexivity | right]).

(** Keep the package-level variables in normal form along a run. *)
Ltac tidy :=
  cbn [set_handles set_layout quadVertices quadTexCoords quadColors quadIndices
       offsetVertices offsetTexCoords offsetColors vboBytesTotal
       programScreen programFramebuffer fbo fboTexture fboRenderbuffer vbo ibo
       attribVertexPosition attribVertexTexCoord attribVertexColor].

(** X16.  [setupBuffers] of the proxy-screen package allocates both attachments
    with the window size, unscaled.  It completes exactly when the binding
    reports the framebuffer complete; otherwise it panics with a fixed
    message right after the status check: no buffer is created or filled,
    and the incomplete framebuffer and the program stay bound. *)
Theorem proxy_setupBuffers_outcome (g : Globals) (w : World) :
  let r := result_of setupBuffers g w in
  let cs := calls_of setupBuffers g w in
  let g' := state_after setupBuffers g w in
  In (TexImage2D TEXTURE_2D 0 RGB 600 400 0 RGB UNSIGNED_BYTE NoData) cs /\
  In (RenderbufferStorageEXT RENDERBUFFER_EXT DEPTH24_STENCIL8 600 400) cs /\
  (r = Ok tt <-> uint32 (answers w (3 + asked w)) = FRAMEBUFFER_COMPLETE_EXT) /\
  match r with
  | Ok _ =>
      last cs GetError = UseProgram 0 /\
      vbo g' = uint32 (answers w (4 + asked w)) /\
      ibo g' = uint32 (answers w (5 + asked w))
  | Panic msg =>
      msg = "Framebuffer (FBO) FATAL ERROR"%string /\
      last cs GetError = CheckFramebufferStatusEXT FRAMEBUFFER_EXT /\
      uploads cs = [] /\
      vbo g' = vbo g /\ ibo g' = ibo g
  end.
Proof.
  cbv zeta.
  assert (H : exists r g' cs k,
             steps setupBuffers g w r g' cs k /\
             In (TexImage2D TEXTURE_2D 0 RGB 600 400 0 RGB UNSIGNED_BYTE NoData) cs /\
             In (RenderbufferStorageEXT RENDERBUFFER_EXT DEPTH24_STENCIL8 600 400) cs /\
             (r = Ok tt <->
              uint32 (answers w (3 + asked w)) = FRAMEBUFFER_COMPLETE_EXT) /\
             match r with
             | Ok _ =>
                 last cs GetError = UseProgram 0 /\
                 vbo g' = uint32 (answers w (4 + asked w)) /\
                 ibo g' = uint32 (answers w (5 + asked w))
             | Panic msg =>
                 msg = "Framebuffer (FBO) FATAL ERROR"%string /\
                 last cs GetError = CheckFramebufferStatusEXT FRAMEBUFFER_EXT /\
                 uploads cs = [] /\
                 vbo g' = vbo g /\ ibo g' = ibo g
             end).
  { eexists. eexists. eexists. eexists. split.
    - unfold setupBuffers, attachTexture, attachRenderbuffer.
      repeat (tidy; step_check).
    - tidy. cbn [trace answers asked stdout Nat.add].
      destruct (Z.eqb_spec (uint32 (answers w (S (S (S (asked w))))))
                  FRAMEBUFFER_COMPLETE_EXT) as [He | Hne].
      + split; [find_call |]. split; [find_call |].
        split; [split; [intros _; exact He | reflexivity] |].
        repeat apply conj; reflexivity.
      + split; [find_call |]. split; [find_call |].
        split; [split; [discriminate | intros He; contradiction] |].
        repeat apply conj; reflexivity. }
  destruct H as (r & g' & cs & k & Hs & H1 & H2 & H3 & H4).
  rewrite (steps_result_of _ _ _ _ _ _ _ Hs), (steps_calls_of _ _ _ _ _ _ _ Hs),
    (steps_state_after _ _ _ _ _ _ _ Hs).
  auto.
Qed.

End ProxyBuffers.

Section DebugOutput.

Import GLES20 Batch Content Diag.
Local Open Scope string_scope.

Lemma drawAll_len_streams rs :
  len (QuadTexCoords (drawAll rs)) = 8 * Z.of_nat (List.length rs) /\
  len (QuadColors (drawAll rs)) = 16 * Z.of_nat (List.length rs).
Proof.
  induction rs as [| r rs [IHt IHc]] using rev_ind; [split; reflexivity |].
  rewrite drawAll_snoc.
  destruct (DrawRectangle_streams (drawAll rs) r) as (_ & Ht & Hc & _).
  rewrite Ht, Hc. unfold len in *. rewrite !length_app.
  cbn [makeQuadTextureCoord makeQuadColors List.length]. lia.
Qed.

(** X17.  The debug output of a batch depends on the number [N] of its quads
    only: it reports [N] rectangles and 12 N, 8 N, 16 N and 6 N entries. *)
Theorem DebugPrint_reports_counts (rs : list rect) :
  let N := Z.of_nat (List.length rs) in
  is_int N ->
  DebugPrint_text (drawAll rs)
  = ("RECT_COUNT -- Rectangles: " ++ fmt_int N ++ nl)
    ++ ("RAW_LENGTH -- Rectangle has 4 vertex" ++ nl
        ++ "Vertices   " ++ fmt_int (12 * N) ++ " (3-per-vertex)" ++ nl
        ++ "TexCoord   " ++ fmt_int (8 * N) ++ " (2-per-vertex)" ++ nl
        ++ "Colors     " ++ fmt_int (16 * N) ++ " (4-per-vertex)" ++ nl
        ++ "Indices    " ++ fmt_int (6 * N) ++ " (6-per-rectangle)" ++ nl).
Proof.
  cbv zeta. intros HN. unfold DebugPrint_text.
  destruct (drawAll_len_streams rs) as [Ht Hc].
  rewrite drawAll_len_vertices, Ht, Hc.
  assert (Hi : len (QuadIndices (drawAll rs)) = 6 * Z.of_nat (List.length rs)).
  { unfold len. rewrite drawAll_length_indices. lia. }
  rewrite Hi.
  assert (Hq : Int.div (6 * Z.of_nat (List.length rs)) indicesPerQuad
               = Z.of_nat (List.length rs)).
  { unfold Int.div, indicesPerQuad. rewrite (Z.mul_comm 6), Z.quot_mul by lia.
    apply int_small. exact HN. }
  rewrite Hq.
  generalize (fmt_int (Z.of_nat (List.length rs))) (fmt_int (12 * Z.of_nat (List.length rs)))
    (fmt_int (8 * Z.of_nat (List.length rs))) (fmt_int (16 * Z.of_nat (List.length rs)))
    (fmt_int (6 * Z.of_nat (List.length rs))).
  intros s1 s2 s3 s4 s5. reflexivity.
Qed.

Lemma DebugPrint_reports_counts_witness :
  is_int (Z.of_nat (List.length [unit_rect; unit_rect; unit_rect])) /\
  String.length (DebugPrint_text (drawAll [unit_rect; unit_rect; unit_rect])) = 184%nat.
Proof.
  assert (H : is_int (Z.of_nat (List.length [unit_rect; unit_rect; unit_rect]))).
  { unfold is_int. vm_compute. split; [discriminate | reflexivity]. }
  split; [exact H |].
  exact (eq_trans
           (f_equal String.length
              (DebugPrint_reports_counts [unit_rect; unit_rect; unit_rect] H))
           eq_refl).
Defined.

End DebugOutput.
